(** * Birdseye metrics simulator: the client-side apply gate

    A shallow embedding of the front end of the Birdseye metrics simulator
    (frontend/src/pages/MetricsSimulator.jsx, the SlidingCaptcha component
    and the RateLimitManager component), and the properties of its
    mutation gate: the attempt ledger kept in localStorage, the rate-limit
    evaluation, the slider puzzle and the apply controller.

    Conventions of the embedding.
    - Timestamps, counts and whole seconds are JavaScript numbers that hold
      integers far below 2^53; they are modelled as [Z], on which the
      double-precision operations the code uses (+, -, comparison,
      Math.ceil of a quotient, Math.max) are exact.
    - Metric values and scales are genuine doubles: they are modelled by
      the kernel's binary64 floats ([PrimFloat], round to nearest even, as
      in ECMAScript).
    - Pixel coordinates of the slider are idealised as rationals ([Q]).
    - localStorage is a finite map from keys to strings.
    - A React state setter replaces the state component; a handler is a
      function from the state of the current render to the next state.
      An async function is split at its [await].
    - What the environment decides is an argument: the values
      [Date.now()] and [Math.random()] return, the measured width, the
      way a fetch settles with the parsed body of the response. *)

From Stdlib Require Import ZArith QArith Qabs Qminmax Floats String Ascii List Lia Lqa.
From Stdlib Require Import DecimalString DecimalZ.
From stdpp Require Import gmap strings.

Import ListNotations.
#[local] Set Warnings "-inexact-float,-register-all".
#[local] Open Scope Z_scope.

(** ** JavaScript values the program relies on *)

Module Js.

(** A value as [response.json()] gives it.  The members of an object are
    in the order of the text. *)
Inductive Json :=
| JNull
| JBool (b : bool)
| JNumber (n : float)
| JString (s : string)
| JArray (elements : list Json)
| JObject (members : list (string * Json)).

(** The message of a thrown error: a text fixed by the program or the
    server, the text a built-in error carries, which ECMAScript leaves
    to the engine, or the string a value converts to where this embedding
    does not compute it (see [ToString_text]). *)
Inductive Message :=
| Text (s : string)
| EngineDefined (errorName : string)
| StringOf (v : Json).

Record Error := { name : string; message : Message }.

(** How an evaluation ends.  [OutsideModel] marks inputs whose behaviour
    this embedding does not describe (see [JSON_parse]). *)
Inductive Completion (A : Type) :=
| Normal (a : A)
| Throw (e : Error)
| OutsideModel.
Arguments Normal {A} a.
Arguments Throw {A} e.
Arguments OutsideModel {A}.

Definition bind {A B} (c : Completion A) (k : A -> Completion B) : Completion B :=
  match c with
  | Normal a => k a
  | Throw e => Throw e
  | OutsideModel => OutsideModel
  end.

(** [try { c; k } catch (error) { handler }], where [k] continues inside
    the [try] with its own handler. *)
Definition tryCatch {A B} (c : Completion A) (k : A -> Completion B)
    (handler : Error -> Completion B) : Completion B :=
  match c with
  | Normal a => k a
  | Throw e => handler e
  | OutsideModel => OutsideModel
  end.

(** Number to string, for integers: [String(n)], template literals and
    JSON.stringify print an integer below 1e21 as its decimal digits. *)
Definition String_of_number (z : Z) : string :=
  NilZero.string_of_int (Z.to_int z).

(** The decimal literal of an integer, read back.  Only the canonical
    form is accepted (no leading zero, no "-0"). *)
Definition number_of_literal (s : string) : option Z :=
  match NilZero.int_of_string s with
  | Some d =>
      let z := Z.of_int d in
      if String.eqb (String_of_number z) s then Some z else None
  | None => None
  end.

(** JSON.stringify of an array of integers: "[t1,t2,...]". *)
Definition JSON_stringify (l : list Z) : string :=
  String "[" (String.concat "," (List.map String_of_number l) +:+ "]").

Fixpoint split_on (sep : ascii) (s : string) : list string :=
  match s with
  | EmptyString => [EmptyString]
  | String c s' =>
      if Ascii.eqb c sep then EmptyString :: split_on sep s'
      else match split_on sep s' with
           | h :: t => String c h :: t
           | [] => [String c EmptyString]
           end
  end.

(** [s] without its last character, when that character is [c]. *)
Fixpoint strip_last (c : ascii) (s : string) : option string :=
  match s with
  | EmptyString => None
  | String a EmptyString => if Ascii.eqb a c then Some EmptyString else None
  | String a s' => option_map (String a) (strip_last c s')
  end.

Fixpoint mapM {A B} (f : A -> option B) (l : list A) : option (list B) :=
  match l with
  | [] => Some []
  | x :: xs =>
      match f x, mapM f xs with
      | Some y, Some ys => Some (y :: ys)
      | _, _ => None
      end
  end.

(** The text after "[" of an array of integer literals. *)
Definition elements_of (rest : string) : option (list Z) :=
  match strip_last "]" rest with
  | Some EmptyString => Some []
  | Some body => mapM number_of_literal (split_on "," body)
  | None => None
  end.

Definition is_json_whitespace (c : ascii) : bool :=
  (Ascii.eqb c " " || Ascii.eqb c "009" || Ascii.eqb c "010" || Ascii.eqb c "013")%bool.

Fixpoint skip_whitespace (s : string) : string :=
  match s with
  | String c s' => if is_json_whitespace c then skip_whitespace s' else s
  | EmptyString => EmptyString
  end.

(** The characters a JSON value can begin with. *)
Definition starts_json_value (c : ascii) : bool :=
  (Ascii.eqb c "[" || Ascii.eqb c "{" || Ascii.eqb c "034" || Ascii.eqb c "-"
   || (Nat.leb 48 (nat_of_ascii c) && Nat.leb (nat_of_ascii c) 57)
   || Ascii.eqb c "t" || Ascii.eqb c "f" || Ascii.eqb c "n")%bool.

Definition SyntaxError : Error :=
  {| name := "SyntaxError"; message := EngineDefined "SyntaxError" |}.

(** [JSON.parse(text)] where the program expects an array of timestamps.
    - "[t1,...,tn]" with canonical integer literals: the array.
    - A text that (after JSON whitespace) is empty or begins with a
      character no JSON value begins with: JSON.parse throws SyntaxError.
    - Any other text is outside the model: it is not JSON, or it is JSON
      of another shape (a non-array, on which the [.filter] call that
      follows throws TypeError, or an array with other members).
    Integers are taken in the range doubles represent exactly. *)
Definition JSON_parse (text : string) : Completion (list Z) :=
  match text with
  | String "[" rest =>
      match elements_of rest with
      | Some l => Normal l
      | None => OutsideModel
      end
  | _ =>
      match skip_whitespace text with
      | EmptyString => Throw SyntaxError
      | String c _ => if starts_json_value c then OutsideModel else Throw SyntaxError
      end
  end.

(** The values [v || ...] passes by: null, false, 0, NaN and the empty
    string. *)
Definition truthy (v : Json) : bool :=
  match v with
  | JNull => false
  | JBool b => b
  | JNumber n => negb (PrimFloat.eqb n 0) && PrimFloat.eqb n n
  | JString EmptyString => false
  | JString (String _ _) | JArray _ | JObject _ => true
  end.

(** [object[key]] on a parsed object, [None] for undefined: of two
    members with the same name JSON.parse keeps the later one. *)
Fixpoint get (key : string) (members : list (string * Json)) : option Json :=
  match members with
  | [] => None
  | (k, v) :: rest =>
      match get key rest with
      | Some later => Some later
      | None => if String.eqb k key then Some v else None
      end
  end.

(** The integer a double holds, if it holds one. *)
Definition integer_of_number (n : float) : option Z :=
  match Prim2SF n with
  | S754_zero _ => Some 0
  | S754_finite sign m e =>
      let magnitude :=
        if 0 <=? e then Some (Z.pos m * 2 ^ e)
        else if (Z.pos m) mod 2 ^ (- e) =? 0 then Some (Z.pos m / 2 ^ (- e))
        else None in
      option_map (fun z => if sign then - z else z) magnitude
  | S754_infinity _ | S754_nan => None
  end.

(** Number::toString, computed for the integers up to 2^53 and for the
    infinities; [None] for the other doubles, whose shortest decimal
    form this embedding does not compute. *)
Definition Number_toString (n : float) : option string :=
  match Prim2SF n with
  | S754_nan => Some "NaN"%string
  | S754_infinity sign => Some (if sign then "-Infinity" else "Infinity")%string
  | _ =>
      match integer_of_number n with
      | Some z => if Z.abs z <=? 2 ^ 53 then Some (String_of_number z) else None
      | None => None
      end
  end.

(** Whether [String(v)] throws TypeError.  An object converts through
    its [toString]: a member of that name, never callable in parsed JSON,
    hides Object.prototype.toString, and [valueOf] returns no primitive.
    An array converts its elements, null apart. *)
Fixpoint ToString_throws (v : Json) : bool :=
  match v with
  | JArray elements => existsb ToString_throws elements
  | JObject members =>
      match get "toString" members with
      | Some _ => true
      | None => false
      end
  | JNull | JBool _ | JNumber _ | JString _ => false
  end.

(** [String(v)] when it does not throw; [None] where a number is met
    whose decimal form is not computed. *)
Fixpoint ToString_text (v : Json) : option string :=
  match v with
  | JNull => Some "null"%string
  | JBool b => Some (if b then "true" else "false")%string
  | JNumber n => Number_toString n
  | JString s => Some s
  | JArray elements =>
      option_map (String.concat ",")
        (mapM (fun element =>
                 match element with
                 | JNull => Some EmptyString
                 | _ => ToString_text element
                 end) elements)
  | JObject _ => Some "[object Object]"%string
  end.

(** [Math.max(x, ...xs)]: the program calls Math.max on a non-empty
    array only. *)
Definition Math_max (x : Z) (xs : list Z) : Z := fold_left Z.max xs x.

(** [Math.ceil(a / b)] for integers [a] and [b > 0]. *)
Definition Math_ceil_div (a b : Z) : Z := - ((- a) / b).

End Js.


(** ** The SlidingCaptcha component (the verification puzzle) *)

Module SlidingCaptcha.
#[local] Open Scope Q_scope.

(** The [useState] cells the handlers read and write, and the document
    listeners of the component: [None] while none are registered,
    [Some d] while those of a render with [disabled = d] are. *)
Record State := {
  isVerified : bool;
  sliderPosition : Q;
  isDragging : bool;
  puzzlePosition : Q;
  containerWidth : Q;
  listeners : option bool
}.

Definition tolerance : Q := 5.
Definition HANDLE_WIDTH : Q := 40.
Definition TARGET_WIDTH : Q := 32.

(** The state of a fresh instance: the [useState] initial values. *)
Definition initial : State :=
  {| isVerified := false; sliderPosition := 0; isDragging := false;
     puzzlePosition := 0; containerWidth := 300; listeners := None |}.

(** [generateNewPuzzle], with the value [Math.random()] returns.  The
    second component is the argument of the [onVerify] call. *)
Definition generateNewPuzzle (random : Q) (s : State) : State * option bool :=
  let minPos := containerWidth s * 0.15 in
  let maxPos := containerWidth s * 0.75 in
  let newPosition := random * (maxPos - minPos) + minPos in
  ({| isVerified := false; sliderPosition := 0; isDragging := isDragging s;
      puzzlePosition := newPosition; containerWidth := containerWidth s;
      listeners := listeners s |},
   Some false).

(** [updateWidth], with [containerRef.current.offsetWidth]. *)
Definition updateWidth (offsetWidth : Q) (s : State) : State :=
  {| isVerified := isVerified s; sliderPosition := sliderPosition s;
     isDragging := isDragging s; puzzlePosition := puzzlePosition s;
     containerWidth := offsetWidth - 40; listeners := listeners s |}.

(** Mounting an instance: the two mount effects run in source order on
    the initial render, so [generateNewPuzzle] reads the initial
    [containerWidth]. *)
Definition mount (random offsetWidth : Q) : State * option bool :=
  let (s, v) := generateNewPuzzle random initial in
  (updateWidth offsetWidth s, v).

Definition sliderCenter (sliderPos : Q) : Q := sliderPos + HANDLE_WIDTH / 2.
Definition targetCenter (s : State) : Q := puzzlePosition s + TARGET_WIDTH / 2.

Definition checkVerification (sliderPos : Q) (s : State) : bool :=
  Qle_bool (Qabs (sliderCenter sliderPos - targetCenter s)) tolerance.

Definition handleMouseDown (disabled : bool) (s : State) : State :=
  if (disabled || isVerified s)%bool then s
  else {| isVerified := isVerified s; sliderPosition := sliderPosition s;
          isDragging := true; puzzlePosition := puzzlePosition s;
          containerWidth := containerWidth s; listeners := listeners s |}.

(** [handleMouseMove], with [e.clientX] and [rect.left]. *)
Definition handleMouseMove (disabled : bool) (clientX rectLeft : Q) (s : State)
  : State * option bool :=
  if (negb (isDragging s) || disabled || isVerified s)%bool then (s, None)
  else
    let newPosition :=
      Qmax 0 (Qmin (containerWidth s - HANDLE_WIDTH) (clientX - rectLeft - HANDLE_WIDTH / 2)) in
    if checkVerification newPosition s then
      ({| isVerified := true; sliderPosition := newPosition; isDragging := false;
          puzzlePosition := puzzlePosition s; containerWidth := containerWidth s;
          listeners := listeners s |},
       Some true)
    else
      ({| isVerified := isVerified s; sliderPosition := newPosition;
          isDragging := isDragging s; puzzlePosition := puzzlePosition s;
          containerWidth := containerWidth s; listeners := listeners s |},
       None).

Definition handleMouseUp (s : State) : State :=
  if negb (isDragging s) then s
  else {| isVerified := isVerified s;
          sliderPosition := if negb (isVerified s) then 0 else sliderPosition s;
          isDragging := false; puzzlePosition := puzzlePosition s;
          containerWidth := containerWidth s; listeners := listeners s |}.

(** The touch handlers are the mouse handlers on [touches[0].clientX]. *)
Definition handleTouchStart := handleMouseDown.
Definition handleTouchMove := handleMouseMove.
Definition handleTouchEnd := handleMouseUp.

Definition handleReset (random : Q) (s : State) : State * option bool :=
  generateNewPuzzle random s.

Inductive Event :=
| MouseDown
| MouseMove (clientX rectLeft : Q)
| MouseUp
| Resize (offsetWidth : Q)
| ResetClick (random : Q).

Definition withListeners (l : option bool) (s : State) : State :=
  {| isVerified := isVerified s; sliderPosition := sliderPosition s;
     isDragging := isDragging s; puzzlePosition := puzzlePosition s;
     containerWidth := containerWidth s; listeners := l |}.

(** The effect that keeps the document listeners (mousemove, mouseup,
    touchmove, touchend), with dependencies [isDragging],
    [containerWidth], [puzzlePosition] and the constant [tolerance].
    After a render in which one of them has changed it removes the
    listeners it had registered and, while [isDragging], registers the
    handlers of that render, which read the [disabled] of that render
    from then on; after any other render, also one with another
    [disabled], the listeners stay as they are. *)
Definition listenersEffect (disabled : bool) (before after : State) : State :=
  if (Bool.eqb (isDragging after) (isDragging before)
      && Qeq_bool (containerWidth after) (containerWidth before)
      && Qeq_bool (puzzlePosition after) (puzzlePosition before))%bool
  then after
  else withListeners (if isDragging after then Some disabled else None) after.

(** The handler an event reaches.  A press reaches the handler of the
    current render ([onMouseDown] on the handle), which reads the prop
    [disabled] of that render; a move and a release reach the document
    listeners, if any, with the [disabled] they captured.  Of what else
    the listeners captured, [isDragging], [containerWidth] and
    [puzzlePosition] are the current ones by the dependencies of the
    effect, and [isVerified] changes only together with one of them (it
    becomes true as [isDragging] becomes false, and a reset writes false,
    which it is during a drag begun by a press). *)
Definition dispatch (disabled : bool) (e : Event) (s : State) : State * option bool :=
  match e with
  | MouseDown => (handleMouseDown disabled s, None)
  | MouseMove clientX rectLeft =>
      match listeners s with
      | Some captured => handleMouseMove captured clientX rectLeft s
      | None => (s, None)
      end
  | MouseUp =>
      match listeners s with
      | Some _ => (handleMouseUp s, None)
      | None => (s, None)
      end
  | Resize offsetWidth => (updateWidth offsetWidth s, None)
  | ResetClick random => handleReset random s
  end.

(** One event of the component, rendered with the prop [disabled], and
    the effect that follows, taken to have run before the next event. *)
Definition handle (disabled : bool) (e : Event) (s : State) : State * option bool :=
  let (s', v) := dispatch disabled e s in
  (listenersEffect disabled s s', v).

End SlidingCaptcha.

(** ** The MetricsSimulator page (ledger, evaluator, apply controller) *)

Module MetricsSimulator.

Definition APPLY_LIMIT_PER_15MINUTES : Z := 3.
Definition RECOMMENDED_COOLDOWN : Z := 10.

(** A metric card.  The [icon] field (a component reference) is
    presentation only and left out. *)
Record Metric := {
  value : float;
  scale : float;
  unit : string;
  color : string
}.

Record RateLimitInfo := {
  isLimited : bool;
  remainingTime : Z;
  appliesInLastMinute : Z
}.

(** The state the gate reads and writes: the browser's localStorage, the
    [useState] cells of the page, and the mounted SlidingCaptcha instance.
    The display-only cells ([grafanaUrl], [connectionStatus], [debugInfo],
    [showGrafanaButton]) are read by no handler and are left out. *)
Record State := {
  localStorage : gmap string string;
  metrics : gmap string Metric;
  appliedMetrics : gmap string Metric;
  lastApplied : Z;
  isApplying : bool;
  lastError : option Js.Message;
  isCaptchaVerified : bool;
  captchaKey : Z;
  rateLimitInfo : RateLimitInfo;
  captcha : SlidingCaptcha.State
}.

Definition setLocalStorage (v : gmap string string) (s : State) : State :=
  {| localStorage := v; metrics := metrics s; appliedMetrics := appliedMetrics s;
     lastApplied := lastApplied s; isApplying := isApplying s; lastError := lastError s;
     isCaptchaVerified := isCaptchaVerified s; captchaKey := captchaKey s;
     rateLimitInfo := rateLimitInfo s; captcha := captcha s |}.
Definition setMetrics (v : gmap string Metric) (s : State) : State :=
  {| localStorage := localStorage s; metrics := v; appliedMetrics := appliedMetrics s;
     lastApplied := lastApplied s; isApplying := isApplying s; lastError := lastError s;
     isCaptchaVerified := isCaptchaVerified s; captchaKey := captchaKey s;
     rateLimitInfo := rateLimitInfo s; captcha := captcha s |}.
Definition setAppliedMetrics (v : gmap string Metric) (s : State) : State :=
  {| localStorage := localStorage s; metrics := metrics s; appliedMetrics := v;
     lastApplied := lastApplied s; isApplying := isApplying s; lastError := lastError s;
     isCaptchaVerified := isCaptchaVerified s; captchaKey := captchaKey s;
     rateLimitInfo := rateLimitInfo s; captcha := captcha s |}.
Definition setLastApplied (v : Z) (s : State) : State :=
  {| localStorage := localStorage s; metrics := metrics s; appliedMetrics := appliedMetrics s;
     lastApplied := v; isApplying := isApplying s; lastError := lastError s;
     isCaptchaVerified := isCaptchaVerified s; captchaKey := captchaKey s;
     rateLimitInfo := rateLimitInfo s; captcha := captcha s |}.
Definition setIsApplying (v : bool) (s : State) : State :=
  {| localStorage := localStorage s; metrics := metrics s; appliedMetrics := appliedMetrics s;
     lastApplied := lastApplied s; isApplying := v; lastError := lastError s;
     isCaptchaVerified := isCaptchaVerified s; captchaKey := captchaKey s;
     rateLimitInfo := rateLimitInfo s; captcha := captcha s |}.
Definition setLastError (v : option Js.Message) (s : State) : State :=
  {| localStorage := localStorage s; metrics := metrics s; appliedMetrics := appliedMetrics s;
     lastApplied := lastApplied s; isApplying := isApplying s; lastError := v;
     isCaptchaVerified := isCaptchaVerified s; captchaKey := captchaKey s;
     rateLimitInfo := rateLimitInfo s; captcha := captcha s |}.
Definition setIsCaptchaVerified (v : bool) (s : State) : State :=
  {| localStorage := localStorage s; metrics := metrics s; appliedMetrics := appliedMetrics s;
     lastApplied := lastApplied s; isApplying := isApplying s; lastError := lastError s;
     isCaptchaVerified := v; captchaKey := captchaKey s;
     rateLimitInfo := rateLimitInfo s; captcha := captcha s |}.
Definition setCaptchaKey (v : Z) (s : State) : State :=
  {| localStorage := localStorage s; metrics := metrics s; appliedMetrics := appliedMetrics s;
     lastApplied := lastApplied s; isApplying := isApplying s; lastError := lastError s;
     isCaptchaVerified := isCaptchaVerified s; captchaKey := v;
     rateLimitInfo := rateLimitInfo s; captcha := captcha s |}.
Definition setRateLimitInfo (v : RateLimitInfo) (s : State) : State :=
  {| localStorage := localStorage s; metrics := metrics s; appliedMetrics := appliedMetrics s;
     lastApplied := lastApplied s; isApplying := isApplying s; lastError := lastError s;
     isCaptchaVerified := isCaptchaVerified s; captchaKey := captchaKey s;
     rateLimitInfo := v; captcha := captcha s |}.
Definition setCaptcha (v : SlidingCaptcha.State) (s : State) : State :=
  {| localStorage := localStorage s; metrics := metrics s; appliedMetrics := appliedMetrics s;
     lastApplied := lastApplied s; isApplying := isApplying s; lastError := lastError s;
     isCaptchaVerified := isCaptchaVerified s; captchaKey := captchaKey s;
     rateLimitInfo := rateLimitInfo s; captcha := v |}.

(** The [useState] initial value of [metrics] (and of [appliedMetrics]). *)
Definition initialMetrics : gmap string Metric :=
  <["http_request_duration_seconds" :=
      {| value := 0.250; scale := 1; unit := "s"; color := "text-blue-500" |}]>
  (<["cpu_seconds_total" :=
      {| value := 1540.25; scale := 1; unit := "s"; color := "text-red-500" |}]>
  (<["process_memory_bytes" :=
      {| value := 536870912; scale := 1; unit := "bytes"; color := "text-green-500" |}]> ∅)).

(** *** The persisted ledger *)

Definition ledgerKey : string := "recentApplies".

(** [localStorage.getItem('recentApplies') || '[]']: a missing key
    ([null]) and the empty string are falsy. *)
Definition storedLedgerText (ls : gmap string string) : string :=
  match ls !! ledgerKey with
  | Some (String c s) => String c s
  | Some EmptyString | None => "[]"
  end.

(** [JSON.parse(localStorage.getItem('recentApplies') || '[]')
      .filter(timestamp => timestamp > fifteenMinutesAgo)] *)
Definition readRecentApplies (fifteenMinutesAgo : Z) (ls : gmap string string)
  : Js.Completion (list Z) :=
  Js.bind (Js.JSON_parse (storedLedgerText ls))
    (fun l => Js.Normal (List.filter (fun timestamp => timestamp >? fifteenMinutesAgo) l)).

(** [localStorage.setItem('recentApplies', JSON.stringify(recentApplies))] *)
Definition writeRecentApplies (recentApplies : list Z) (ls : gmap string string)
  : gmap string string :=
  <[ledgerKey := Js.JSON_stringify recentApplies]> ls.

(** *** The rate-limit evaluation *)

(** The snapshot [updateRateLimitInfo] computes from the pruned ledger. *)
Definition rateLimitSnapshot (now : Z) (recentApplies : list Z) : RateLimitInfo :=
  let lastApplyTime :=
    match recentApplies with
    | [] => 0
    | t :: ts => Js.Math_max t ts
    end in
  let timeSinceLast := now - lastApplyTime in
  let isInCooldown := timeSinceLast <? RECOMMENDED_COOLDOWN * 1000 in
  let isAtLimit := Z.of_nat (length recentApplies) >=? APPLY_LIMIT_PER_15MINUTES in
  {| isLimited := isInCooldown || isAtLimit;
     remainingTime :=
       if isInCooldown
       then Js.Math_ceil_div (RECOMMENDED_COOLDOWN * 1000 - timeSinceLast) 1000
       else 0;
     appliesInLastMinute := Z.of_nat (length recentApplies) |}.

(** [updateRateLimitInfo], with the value [Date.now()] returns. *)
Definition updateRateLimitInfo (now : Z) (s : State) : Js.Completion State :=
  let fifteenMinutesAgo := now - 15 * 60 * 1000 in
  Js.bind (readRecentApplies fifteenMinutesAgo (localStorage s))
    (fun recentApplies =>
       let s1 := setLocalStorage (writeRecentApplies recentApplies (localStorage s)) s in
       Js.Normal (setRateLimitInfo (rateLimitSnapshot now recentApplies) s1)).

(** The countdown interval, installed while [remainingTime > 0]. *)
Definition countdown (s : State) : State :=
  let prev := rateLimitInfo s in
  if remainingTime prev >? 0 then
    setRateLimitInfo
      {| isLimited := isLimited prev;
         remainingTime := Z.max 0 (remainingTime prev - 1);
         appliesInLastMinute := appliesInLastMinute prev |} s
  else s.

(** *** Scales *)

Definition withScale (newScale : float) (m : Metric) : Metric :=
  {| value := value m; scale := newScale; unit := unit m; color := color m |}.

(** [handleScaleChange]; it is called with the keys of [metrics] only. *)
Definition handleScaleChange (metricName : string) (newScale : float) (s : State) : State :=
  setMetrics (alter (withScale newScale) metricName (metrics s)) s.

Definition resetAll (s : State) : State :=
  setMetrics (withScale 1 <$> metrics s) s.

(** *** The apply controller *)

Record PayloadEntry := {
  payloadValue : float;
  payloadUnit : string;
  payloadTimestamp : Z
}.

(** The body of the POST to /api/metrics/apply. *)
Record Request := {
  metricsPayload : gmap string PayloadEntry;
  timestamp : Z
}.

(** What [handleResponse] returns as [data]: the text of the body (or
    the text that reports a body that could not be read), or the parsed
    JSON body. *)
Inductive ResponseData :=
| BodyText (s : string)
| BodyJson (v : Js.Json).

(** How the awaited [fetch] settles. *)
Inductive FetchResult :=
| Resolved (status : Z) (data : ResponseData)
| Rejected (e : Js.Error).

(** [response.ok]: the status is in the range 200-299. *)
Definition ok (status : Z) : bool := (200 <=? status) && (status <=? 299).

(** What the environment supplies once the fetch has settled: the
    result, [Date.now()] as read by the success path and then by
    [updateRateLimitInfo], and, for the SlidingCaptcha instance that a
    new [captchaKey] mounts, [Math.random()] and the container's
    [offsetWidth]. *)
Record Settlement := {
  result : FetchResult;
  nowApplied : Z;
  nowEvaluated : Z;
  random : Q;
  offsetWidth : Q
}.

(** The local variables of a call suspended at [await fetch]. *)
Record Pending := {
  newAppliedMetrics : gmap string Metric;
  request : Request
}.

(** One iteration of the [forEach] that fills [newAppliedMetrics];
    [None] when [appliedMetrics[key]] is undefined (reading [.value]
    throws TypeError). *)
Definition rescale (applied : gmap string Metric) (key : string) (metric : Metric)
  : option Metric :=
  match applied !! key with
  | Some a =>
      let baseValue := (value a / scale a)%float in
      Some {| value := (baseValue * scale metric)%float; scale := scale metric;
              unit := unit metric; color := color metric |}
  | None => None
  end.

Definition computeNewAppliedMetrics (current applied : gmap string Metric)
  : option (gmap string Metric) :=
  if bool_decide (dom current ⊆ dom applied)
  then Some (map_imap (rescale applied) current)
  else None.

Definition payloadOf (now : Z) (m : Metric) : PayloadEntry :=
  {| payloadValue := value m; payloadUnit := unit m; payloadTimestamp := now |}.

(** The values [Date.now()] returns while a request is built: one for
    each entry of the payload, then one for the body. *)
Record Clock := {
  entryNow : string -> Z;
  bodyNow : Z
}.

(** A clock that does not advance while the request is built. *)
Definition frozen (now : Z) : Clock := {| entryNow := fun _ => now; bodyNow := now |}.

Definition metricsPayloadOf (now : Clock) (newAppliedMetrics : gmap string Metric)
  : gmap string PayloadEntry :=
  map_imap (fun key metric => Some (payloadOf (entryNow now key) metric)) newAppliedMetrics.

Definition TypeError : Js.Error :=
  {| Js.name := "TypeError"; Js.message := Js.EngineDefined "TypeError" |}.

Definition newError (msg : string) : Js.Error :=
  {| Js.name := "Error"; Js.message := Js.Text msg |}.

(** JavaScript's [a || b], [None] for undefined. *)
Definition orElse (a b : option Js.Json) : option Js.Json :=
  match a with
  | Some v => if Js.truthy v then a else b
  | None => b
  end.

(** [new Error(v)] for a value [v]: its message is [String(v)], and where
    that conversion throws, the TypeError is what is thrown. *)
Definition errorOf (v : Js.Json) : Js.Error :=
  if Js.ToString_throws v then TypeError
  else {| Js.name := "Error";
          Js.message := match Js.ToString_text v with
                        | Some text => Js.Text text
                        | None => Js.StringOf v
                        end |}.

(** The error thrown when the response is not [ok]. *)
Definition httpError (status : Z) (data : ResponseData) : Js.Error :=
  if status =? 429 then newError "Rate limit exceeded. Please wait before trying again."
  else if status =? 503 then newError "Service unavailable. Backend may be down or starting up."
  else if (status =? 502) || (status =? 504)
  then newError "Gateway error. Check if all services are running."
  else
    let thrown (message : option Js.Json) :=
      errorOf (default (Js.JString ("HTTP " +:+ Js.String_of_number status))
                 (orElse message None)) in
    match data with
    | BodyText s => thrown (Some (Js.JString s))
    | BodyJson Js.JNull => TypeError
    | BodyJson (Js.JObject members) =>
        thrown (orElse (Js.get "message" members) (Js.get "detail" members))
    | BodyJson (Js.JArray _) => thrown (orElse None None)
    | BodyJson v => thrown (Some v)
    end.

(** The [errorMsg] of the [catch] block. *)
Definition errorMsg (error : Js.Error) : Js.Message :=
  if String.eqb (Js.name error) "AbortError"
  then Js.Text "Request timeout. Server may be overloaded."
  else if String.eqb (Js.name error) "TypeError"
  then Js.Text "Network error. Check your connection."
  else Js.message error.

(** The [catch] block. *)
Definition catch (error : Js.Error) (s : State) : State :=
  setLastError (Some (errorMsg error)) s.

(** The [finally] block. *)
Definition finally (s : State) : State := setIsApplying false s.

(** [applyChanges] up to [await fetch(...)], with the values [Date.now()]
    returns while the request is built.  The second component is the
    suspended call when a request was sent, [None] when the call
    returned without one. *)
Definition applyChanges_begin (now : Clock) (s : State) : State * option Pending :=
  if negb (isCaptchaVerified s) then
    (setLastError (Some (Js.Text "Please complete the security verification first.")) s, None)
  else if isLimited (rateLimitInfo s) then
    let remainingTime := remainingTime (rateLimitInfo s) in
    if remainingTime >? 0 then
      (setLastError
         (Some (Js.Text ("Please wait " +:+ Js.String_of_number remainingTime
                         +:+ " seconds before applying again."))) s, None)
    else
      (setLastError
         (Some (Js.Text ("Rate limit exceeded. You've used all "
                         +:+ Js.String_of_number APPLY_LIMIT_PER_15MINUTES
                         +:+ " applies in the last 15 minutes."))) s, None)
  else
    let s1 := setLastError None (setIsApplying true s) in
    match computeNewAppliedMetrics (metrics s) (appliedMetrics s) with
    | Some new =>
        (s1, Some {| newAppliedMetrics := new;
                     request := {| metricsPayload := metricsPayloadOf now new;
                                   timestamp := bodyNow now |} |})
    | None => (finally (catch TypeError s1), None)
    end.

(** The SlidingCaptcha instance React mounts for a new [key]; its mount
    effect calls [onVerify(false)]. *)
Definition remountCaptcha (random offsetWidth : Q) (s : State) : State :=
  let (c, v) := SlidingCaptcha.mount random offsetWidth in
  let s1 := setCaptcha c s in
  match v with
  | Some b => setIsCaptchaVerified b s1
  | None => s1
  end.

(** The success path, after [if (!finalResponse.ok) {...}], inside
    [try]: an exception raised here is handled by [catch], and the state
    updates made before it remain. *)
Definition onSuccess (p : Pending) (env : Settlement) (s : State) : Js.Completion State :=
  let s1 := setAppliedMetrics (newAppliedMetrics p) s in
  let now := nowApplied env in
  let s2 := setLastApplied now s1 in
  let fifteenMinutesAgo := now - 15 * 60 * 1000 in
  Js.tryCatch (readRecentApplies fifteenMinutesAgo (localStorage s2))
    (fun recentApplies =>
       let recentApplies := recentApplies ++ [now] in
       let s3 := setLocalStorage (writeRecentApplies recentApplies (localStorage s2)) s2 in
       let s4 := setIsCaptchaVerified false s3 in
       let s5 := setCaptchaKey (captchaKey s4 + 1) s4 in
       Js.tryCatch (updateRateLimitInfo (nowEvaluated env) s5)
         Js.Normal
         (fun error => Js.Normal (catch error s5)))
    (fun error => Js.Normal (catch error s2)).

(** The render that follows: a changed [key] replaces the
    SlidingCaptcha instance by a freshly mounted one. *)
Definition render (env : Settlement) (before after : State) : State :=
  if captchaKey after =? captchaKey before then after
  else remountCaptcha (random env) (offsetWidth env) after.

(** [applyChanges] from the point where the awaited fetch settles. *)
Definition applyChanges_resume (p : Pending) (env : Settlement) (s : State)
  : Js.Completion State :=
  match result env with
  | Rejected e => Js.Normal (finally (catch e s))
  | Resolved status data =>
      if negb (ok status) then Js.Normal (finally (catch (httpError status data) s))
      else
        Js.bind (onSuccess p env s)
          (fun s' => Js.Normal (render env s (finally s')))
  end.

(** *** The page as an event-driven system *)

(** [hasChanges]: some metric's scale differs from the applied one. *)
Definition hasChanges (s : State) : bool :=
  existsb
    (fun '(key, m) =>
       match appliedMetrics s !! key with
       | Some a => negb (PrimFloat.eqb (scale m) (scale a))
       | None => false
       end)
    (map_to_list (metrics s)).

Definition isApplyDisabled (s : State) : bool :=
  negb (hasChanges s) || isApplying s || negb (isCaptchaVerified s)
  || isLimited (rateLimitInfo s).

(** The page, the calls suspended at [await fetch] (oldest first), and
    the requests sent so far (oldest first). *)
Record App := {
  ui : State;
  inFlight : list Pending;
  sent : list Request
}.

Inductive Event :=
| Tick (now : Z)
| CountdownTick
| ScaleChange (metricName : string) (newScale : float)
| ResetAllClick
| ApplyClick (now : Clock)
| FetchSettles (env : Settlement)
| Captcha (e : SlidingCaptcha.Event).

(** A direct call of [applyChanges], whatever the button shows. *)
Definition callApplyChanges (now : Clock) (a : App) : App :=
  match applyChanges_begin now (ui a) with
  | (s, Some p) => {| ui := s; inFlight := inFlight a ++ [p]; sent := sent a ++ [request p] |}
  | (s, None) => {| ui := s; inFlight := inFlight a; sent := sent a |}
  end.

(** A click on the Apply button: [onClick={applyChanges}] with
    [disabled={isApplyDisabled}]. *)
Definition clickApply (now : Clock) (a : App) : App :=
  if isApplyDisabled (ui a) then a else callApplyChanges now a.

Definition onCaptcha (e : SlidingCaptcha.Event) (s : State) : State :=
  let (c, v) := SlidingCaptcha.handle (isApplying s) e (captcha s) in
  let s1 := setCaptcha c s in
  match v with
  | Some b => setIsCaptchaVerified b s1
  | None => s1
  end.

Definition withUi (s : State) (a : App) : App :=
  {| ui := s; inFlight := inFlight a; sent := sent a |}.

(** A click on the Reset All button: [onClick={resetAll}] with
    [disabled={isApplying}]. *)
Definition clickResetAll (a : App) : App :=
  if isApplying (ui a) then a else withUi (resetAll (ui a)) a.

(** One event.  An exception that escapes the interval callback is
    reported by the browser and the page goes on as it was. *)
Definition step (e : Event) (a : App) : Js.Completion App :=
  match e with
  | Tick now =>
      Js.tryCatch (updateRateLimitInfo now (ui a))
        (fun s => Js.Normal (withUi s a))
        (fun _ => Js.Normal a)
  | CountdownTick => Js.Normal (withUi (countdown (ui a)) a)
  | ScaleChange metricName newScale =>
      Js.Normal (withUi (handleScaleChange metricName newScale (ui a)) a)
  | ResetAllClick => Js.Normal (clickResetAll a)
  | ApplyClick now => Js.Normal (clickApply now a)
  | FetchSettles env =>
      match inFlight a with
      | [] => Js.Normal a
      | p :: rest =>
          Js.bind (applyChanges_resume p env (ui a))
            (fun s => Js.Normal {| ui := s; inFlight := rest; sent := sent a |})
      end
  | Captcha e => Js.Normal (withUi (onCaptcha e (ui a)) a)
  end.

Fixpoint run (events : list Event) (a : App) : Js.Completion App :=
  match events with
  | [] => Js.Normal a
  | e :: rest => Js.bind (step e a) (run rest)
  end.

(** The page as first rendered, before its mount effects. *)
Definition firstRender (ls : gmap string string) (now : Z) : State :=
  {| localStorage := ls; metrics := initialMetrics; appliedMetrics := initialMetrics;
     lastApplied := now; isApplying := false; lastError := None;
     isCaptchaVerified := false; captchaKey := 0;
     rateLimitInfo := {| isLimited := false; remainingTime := 0; appliesInLastMinute := 0 |};
     captcha := SlidingCaptcha.initial |}.

(** Mounting the page: the child's mount effects, then
    [updateRateLimitInfo()]. *)
Definition mountPage (ls : gmap string string) (now nowEvaluated : Z) (random offsetWidth : Q)
  : Js.Completion App :=
  Js.bind
    (updateRateLimitInfo nowEvaluated
       (remountCaptcha random offsetWidth (firstRender ls now)))
    (fun s => Js.Normal {| ui := s; inFlight := []; sent := [] |}).

(** *** What the page shows *)

(** The label of the Apply button. *)
Definition applyButtonLabel (s : State) : string :=
  if isApplying s then "Applying..."
  else if isLimited (rateLimitInfo s) then
    if remainingTime (rateLimitInfo s) >? 0
    then "Wait " +:+ Js.String_of_number (remainingTime (rateLimitInfo s)) +:+ "s"
    else "Rate Limited"
  else "Apply Changes".

(** [currentValue], the number previewed on the card of a metric; [None]
    where the render would read a missing entry. *)
Definition currentValue (metricName : string) (s : State) : option float :=
  match metrics s !! metricName, appliedMetrics s !! metricName with
  | Some metric, Some a => Some (value a / scale a * scale metric)%float
  | _, _ => None
  end.

End MetricsSimulator.

(** ** The RateLimitManager component (the status banner) *)

Module RateLimitManager.
Import MetricsSimulator.

Definition APPLY_LIMIT_PER_15MINUTES : Z := 3.
Definition RECOMMENDED_COOLDOWN : Z := 10.

Definition formatTime (seconds : Z) : string := Js.String_of_number seconds +:+ "s".

(** The heading of the banner, rendered when [isLimited]. *)
Definition bannerTitle (info : RateLimitInfo) : option string :=
  if isLimited info then
    Some (if remainingTime info >? 0 then "Cooldown Active" else "Rate Limited")
  else None.

(** The sentence of the banner, rendered when [isLimited]. *)
Definition bannerText (info : RateLimitInfo) : option string :=
  let appliesInLast15Minutes := appliesInLastMinute info in
  if isLimited info then
    Some (if remainingTime info >? 0
          then "Wait " +:+ formatTime (remainingTime info) +:+ " before applying changes"
          else if appliesInLast15Minutes >=? APPLY_LIMIT_PER_15MINUTES
          then "You've used all " +:+ Js.String_of_number APPLY_LIMIT_PER_15MINUTES
               +:+ " applies in the last 15 minutes"
          else "Rate limit active")
  else None.

End RateLimitManager.

(** ** Notions used to state the properties *)

Module Facts.

(** [c] occurs in [s]. *)
Fixpoint occurs (c : ascii) (s : string) : bool :=
  match s with
  | EmptyString => false
  | String a s' => Ascii.eqb a c || occurs c s'
  end.

(** The sub-sequence of a ledger inside the trailing window of
    [durationMs] at [now]: the entries with [now - t < durationMs]. *)
Definition window (now durationMs : Z) (ledger : list Z) : list Z :=
  List.filter (fun t => now - t <? durationMs) ledger.

Definition fifteenMinutes : Z := 15 * 60 * 1000.

(** [m] is the greatest member of [l]. *)
Definition greatest (m : Z) (l : list Z) : Prop :=
  In m l /\ Forall (fun t => t <= m) l.

(** The submission resolved with a 2xx status. *)
Definition succeeded (env : MetricsSimulator.Settlement) : bool :=
  match MetricsSimulator.result env with
  | MetricsSimulator.Resolved status _ => MetricsSimulator.ok status
  | MetricsSimulator.Rejected _ => false
  end.

(** The error the [catch] block receives when the submission did not
    succeed. *)
Definition failureOf (env : MetricsSimulator.Settlement) : Js.Error :=
  match MetricsSimulator.result env with
  | MetricsSimulator.Resolved status data => MetricsSimulator.httpError status data
  | MetricsSimulator.Rejected e => e
  end.

(** The page shows a submission in progress exactly when one call is
    suspended at its fetch, and never more than one is. *)
Definition atMostOneInFlight (a : MetricsSimulator.App) : Prop :=
  (MetricsSimulator.isApplying (MetricsSimulator.ui a) = false
   /\ MetricsSimulator.inFlight a = [])
  \/ (MetricsSimulator.isApplying (MetricsSimulator.ui a) = true
      /\ exists p, MetricsSimulator.inFlight a = [p]).

(** The two gates of the evaluation on a pruned ledger. *)
Definition cooldownActive (now : Z) (recentApplies : list Z) : Prop :=
  exists lastAttempt, greatest lastAttempt recentApplies /\ now - lastAttempt < 10 * 1000.
Definition quotaActive (recentApplies : list Z) : Prop :=
  3 <= Z.of_nat (length recentApplies).

(** The two wordings of a rate-limit rejection. *)
Definition cooldownWording (seconds : Z) : Js.Message :=
  Js.Text ("Please wait " +:+ Js.String_of_number seconds
           +:+ " seconds before applying again.").
Definition quotaWording : Js.Message :=
  Js.Text "Rate limit exceeded. You've used all 3 applies in the last 15 minutes.".

(** The scales of the preset buttons. *)
Definition presetScales : list float := [0.5; 1; 2; 5]%float.

(** The value a metric starts with. *)
Definition baseValue (key : string) : option float :=
  MetricsSimulator.value <$> MetricsSimulator.initialMetrics !! key.

(** Every applied value is exactly its base value times its applied
    scale, a preset one. *)
Definition onBase (applied : gmap string MetricsSimulator.Metric) : Prop :=
  forall key a, applied !! key = Some a ->
    exists base, baseValue key = Some base
      /\ In (MetricsSimulator.scale a) presetScales
      /\ MetricsSimulator.value a = (base * MetricsSimulator.scale a)%float.

Definition presetOnly (current : gmap string MetricsSimulator.Metric) : Prop :=
  forall key m, current !! key = Some m -> In (MetricsSimulator.scale m) presetScales.

(** The ledger a page would read from its store. *)
Definition storedLedger (s : MetricsSimulator.State) : Js.Completion (list Z) :=
  Js.JSON_parse (MetricsSimulator.storedLedgerText (MetricsSimulator.localStorage s)).

(** The value of [a || b || ...] when it is truthy. *)
Fixpoint firstTruthy (values : list (option Js.Json)) : option Js.Json :=
  match values with
  | [] => None
  | Some v :: rest => if Js.truthy v then Some v else firstTruthy rest
  | None :: rest => firstTruthy rest
  end.

(** Where the message of an error response is looked for: in the
    [message] and the [detail] of an object, in a text, number or boolean
    itself, nowhere in an array. *)
Definition candidates (data : MetricsSimulator.ResponseData) : list (option Js.Json) :=
  match data with
  | MetricsSimulator.BodyText text => [Some (Js.JString text)]
  | MetricsSimulator.BodyJson (Js.JObject members) =>
      [Js.get "message" members; Js.get "detail" members]
  | MetricsSimulator.BodyJson (Js.JArray _) | MetricsSimulator.BodyJson Js.JNull => []
  | MetricsSimulator.BodyJson v => [Some v]
  end.

(** What the page shows for an error made from the value [v]. *)
Definition shownValue (v : Js.Json) : Js.Message :=
  if Js.ToString_throws v then Js.Text "Network error. Check your connection."
  else match Js.ToString_text v with
       | Some text => Js.Text text
       | None => Js.StringOf v
       end.

(** What the page shows for a response that is not [ok] and whose status
    has no sentence of its own. *)
Definition shownMessage (status : Z) (data : MetricsSimulator.ResponseData) : Js.Message :=
  match data with
  | MetricsSimulator.BodyJson Js.JNull => Js.Text "Network error. Check your connection."
  | _ =>
      match firstTruthy (candidates data) with
      | Some v => shownValue v
      | None => Js.Text ("HTTP " +:+ Js.String_of_number status)
      end
  end.

(** The ledger holds at most three timestamps, the snapshot counts them
    and is limited when there are three, and a call is suspended only
    while there are at most two. *)
Definition withinQuota (a : MetricsSimulator.App) : Prop :=
  exists ledger,
    storedLedger (MetricsSimulator.ui a) = Js.Normal ledger
    /\ MetricsSimulator.appliesInLastMinute
         (MetricsSimulator.rateLimitInfo (MetricsSimulator.ui a))
       = Z.of_nat (length ledger)
    /\ ((3 <= length ledger)%nat ->
        MetricsSimulator.isLimited
          (MetricsSimulator.rateLimitInfo (MetricsSimulator.ui a)) = true)
    /\ (length ledger <= 3)%nat
    /\ ((MetricsSimulator.isApplying (MetricsSimulator.ui a) = false
         /\ MetricsSimulator.inFlight a = [])
        \/ (MetricsSimulator.isApplying (MetricsSimulator.ui a) = true
            /\ (length ledger <= 2)%nat
            /\ exists p, MetricsSimulator.inFlight a = [p])).

(** The page and the component agree on whether the puzzle is solved, and
    a solved puzzle has its handle within tolerance of the target and no
    drag going on. *)
Definition puzzleConsistent (s : MetricsSimulator.State) : Prop :=
  MetricsSimulator.isCaptchaVerified s
  = SlidingCaptcha.isVerified (MetricsSimulator.captcha s)
  /\ (SlidingCaptcha.isVerified (MetricsSimulator.captcha s) = true ->
      SlidingCaptcha.checkVerification
        (SlidingCaptcha.sliderPosition (MetricsSimulator.captcha s))
        (MetricsSimulator.captcha s) = true
      /\ SlidingCaptcha.isDragging (MetricsSimulator.captcha s) = false).

(** The cards of the page: the names of its metrics, each with its unit. *)
Definition cards : gmap string string :=
  MetricsSimulator.unit <$> MetricsSimulator.initialMetrics.

(** The metrics and the applied metrics are the cards of the first
    render, with their units. *)
Definition sameCards (s : MetricsSimulator.State) : Prop :=
  MetricsSimulator.unit <$> MetricsSimulator.metrics s = cards
  /\ MetricsSimulator.unit <$> MetricsSimulator.appliedMetrics s = cards.

(** The page shows those cards, every call in flight would apply them
    and every request sent names them. *)
Definition cardsEverywhere (a : MetricsSimulator.App) : Prop :=
  sameCards (MetricsSimulator.ui a)
  /\ Forall (fun p => MetricsSimulator.unit <$> MetricsSimulator.newAppliedMetrics p = cards)
       (MetricsSimulator.inFlight a)
  /\ Forall (fun r => MetricsSimulator.payloadUnit <$> MetricsSimulator.metricsPayload r
                      = cards)
       (MetricsSimulator.sent a).

(** A drag through a sequence of pointer positions ([clientX], [rect.left]). *)
Definition dragThrough (disabled : bool) (moves : list (Q * Q)) (s : SlidingCaptcha.State)
  : SlidingCaptcha.State :=
  fold_left (fun st m => (SlidingCaptcha.handleMouseMove disabled m.1 m.2 st).1) moves s.

(** Pointer events other than a reset click and a resize. *)
Definition isPointerEvent (e : SlidingCaptcha.Event) : bool :=
  match e with
  | SlidingCaptcha.MouseDown | SlidingCaptcha.MouseMove _ _ | SlidingCaptcha.MouseUp => true
  | SlidingCaptcha.Resize _ | SlidingCaptcha.ResetClick _ => false
  end.

(** The component after a sequence of its events. *)
Definition captchaAfter (disabled : bool) (events : list SlidingCaptcha.Event)
    (s : SlidingCaptcha.State) : SlidingCaptcha.State :=
  fold_left (fun st e => (SlidingCaptcha.handle disabled e st).1) events s.

(** A click on the reset button of the puzzle. *)
Definition isResetClick (e : SlidingCaptcha.Event) : bool :=
  match e with
  | SlidingCaptcha.ResetClick _ => true
  | _ => false
  end.

End Facts.

(** ** The rate-limit evaluation as the specification words it *)

Module Spec.
Import Facts.

Definition quota : Z := 3.
Definition cooldownSeconds : Z := 10.

Record RateLimitSnapshot := {
  isLimited : bool;
  remainingCooldownSeconds : Z;
  attemptsInWindow : Z
}.

(** [max(windowAttempts)], [None] standing for minus infinity. *)
Fixpoint maximum (l : list Z) : option Z :=
  match l with
  | [] => None
  | t :: ts => Some (match maximum ts with
                     | None => t
                     | Some m => Z.max t m
                     end)
  end.

(** [ceil(a / b)] for [b > 0]. *)
Definition ceiling (a b : Z) : Z := (a + b - 1) / b.

(** evaluate(ledger, now), steps 1 to 5. *)
Definition evaluate (ledger : list Z) (now : Z) : RateLimitSnapshot :=
  let windowAttempts := window now fifteenMinutes ledger in
  let attemptsInWindow := Z.of_nat (length windowAttempts) in
  let cooldownRemaining :=
    match maximum windowAttempts with
    | None => 0
    | Some lastAttempt =>
        Z.max 0 (ceiling (cooldownSeconds * 1000 - (now - lastAttempt)) 1000)
    end in
  {| isLimited := (cooldownRemaining >? 0) || (attemptsInWindow >=? quota);
     remainingCooldownSeconds := cooldownRemaining;
     attemptsInWindow := attemptsInWindow |}.

(** The snapshot the page holds, in the specification's field names. *)
Definition snapshotOf (info : MetricsSimulator.RateLimitInfo) : RateLimitSnapshot :=
  {| isLimited := MetricsSimulator.isLimited info;
     remainingCooldownSeconds := MetricsSimulator.remainingTime info;
     attemptsInWindow := MetricsSimulator.appliesInLastMinute info |}.

End Spec.

(** ** Concrete pages used as examples *)

Module Scenario.
Import MetricsSimulator.

(** A first render at 2023-11-14T22:13:20Z. *)
Definition t0 : Z := 1700000000000.

(** A browser whose localStorage holds nothing. *)
Definition freshPage : State := firstRender ∅ t0.

(** A page rendered while the clock reads five seconds after the epoch. *)
Definition epochPage : State := firstRender ∅ 5000.

(** A page whose ledger holds one apply made at [t0]. *)
Definition oneApplyPage : State :=
  firstRender {[ ledgerKey := "[1700000000000]"%string ]} t0.

(** A page whose ledger entry was overwritten with text that is not JSON. *)
Definition corruptPage : State :=
  firstRender {[ ledgerKey := "corrupt"%string ]} t0.

(** The puzzle has been solved on a page. *)
Definition verified (s : State) : State := setIsCaptchaVerified true s.

(** The call suspended at [await fetch] after [applyChanges] was called
    on a page at [now], the clock standing still while the request is
    built (an empty one if the call sent nothing). *)
Definition pendingOf (now : Z) (s : State) : Pending :=
  match applyChanges_begin (frozen now) s with
  | (_, Some p) => p
  | (_, None) => {| newAppliedMetrics := ∅;
                    request := {| metricsPayload := ∅; timestamp := now |} |}
  end.

(** The server accepts the submission (HTTP 200, a JSON body), one
    second after the call; the new puzzle draws 0.5 in a container
    340 px wide. *)
Definition accepted (now : Z) : Settlement :=
  {| result := Resolved 200 (BodyJson (Js.JObject [("message", Js.JString "ok")]%string));
     nowApplied := now + 1000; nowEvaluated := now + 1000;
     random := 0.5%Q; offsetWidth := 340%Q |}.

(** The puzzle is solved and one scale was moved on a page that stored
    nothing; then [applyChanges] was called at [t0]. *)
Definition freshReady : State :=
  handleScaleChange "cpu_seconds_total" 2 (verified freshPage).
Definition freshSubmitting : State := (applyChanges_begin (frozen t0) freshReady).1.

(** The puzzle is solved on a page whose cpu_seconds_total was applied at
    scale 1.7, and its slider is moved to 0.3. *)
Definition driftedReady : State :=
  handleScaleChange "cpu_seconds_total" 0.3
    (setAppliedMetrics
       (<["cpu_seconds_total"%string :=
            {| value := 1540.25 * 1.7; scale := 1.7; unit := "s"; color := "text-red-500" |}]>
          initialMetrics)
       (verified freshPage)).

(** A browser that stored nothing opens the page at [t0]; the puzzle
    draws 0.5 in a container 340 px wide. *)
Definition mounted : App :=
  match mountPage ∅ t0 t0 0.5%Q 340%Q with
  | Js.Normal a => a
  | _ => {| ui := freshPage; inFlight := []; sent := [] |}
  end.

(** Dragging the handle onto the target drawn with 0.5 at the initial
    width: the target is at 135, its centre at 151. *)
Definition solvePuzzle : list Event :=
  [Captcha SlidingCaptcha.MouseDown; Captcha (SlidingCaptcha.MouseMove 151%Q 0%Q)].

(** On that page the puzzle is solved and one scale is moved to 2: the
    Apply button is enabled. *)
Definition ready : App :=
  match run (solvePuzzle ++ [ScaleChange "cpu_seconds_total" 2]) mounted with
  | Js.Normal a => a
  | _ => mounted
  end.

(** Meanwhile the ledger key is overwritten from outside the page (another
    tab, a developer tool) with text that is not JSON. *)
Definition overwritten : App :=
  withUi (setLocalStorage (<[ledgerKey := "corrupt"%string]> (localStorage (ui ready)))
            (ui ready)) ready.

(** The slider of one metric is moved to 1.7 and applied, then moved
    back to 1 and applied again, each time after solving the puzzle and,
    the second time, after the cooldown has passed. *)
Definition scaleAndBack : list Event :=
  solvePuzzle
  ++ [ScaleChange "cpu_seconds_total" 1.7; ApplyClick (frozen (t0 + 5000));
      FetchSettles (accepted (t0 + 5000)); Tick (t0 + 20000)]
  ++ solvePuzzle
  ++ [ScaleChange "cpu_seconds_total" 1; ApplyClick (frozen (t0 + 21000));
      FetchSettles (accepted (t0 + 21000))].

(** The server answers 429. *)
Definition refused (now : Z) : Settlement :=
  {| result := Resolved 429
                 (BodyJson (Js.JObject [("detail", Js.JString "Too Many Requests")]%string));
     nowApplied := now + 1000; nowEvaluated := now + 1000;
     random := 0.5%Q; offsetWidth := 340%Q |}.

End Scenario.

(** ** Integers and arrays of integers as JSON text *)

Section Json.
Import Js Facts.

Lemma uint_text_no_comma d c :
  (c = "," \/ c = "]")%char -> occurs c (NilEmpty.string_of_uint d) = false.
Proof.
  intros Hc. induction d; simpl; rewrite ?IHd; try reflexivity;
    destruct Hc as [-> | ->]; reflexivity.
Qed.

Lemma number_text_no_comma z c :
  (c = "," \/ c = "]")%char -> occurs c (String_of_number z) = false.
Proof.
  intros Hc. unfold String_of_number, NilZero.string_of_int, NilZero.string_of_uint.
  destruct (Z.to_int z) as [d | d]; destruct d; simpl;
    rewrite ?uint_text_no_comma by assumption;
    destruct Hc as [-> | ->]; reflexivity.
Qed.

Lemma number_text_nonempty z : String_of_number z <> EmptyString.
Proof.
  unfold String_of_number, NilZero.string_of_int, NilZero.string_of_uint.
  destruct (Z.to_int z) as [d | d]; destruct d; discriminate.
Qed.

(** Reading back the digits of an integer gives the integer. *)
Lemma number_of_literal_text z : number_of_literal (String_of_number z) = Some z.
Proof.
  unfold number_of_literal, String_of_number.
  rewrite NilZero.isi.
  - rewrite DecimalZ.of_to. now rewrite String.eqb_refl.
  - destruct z; simpl; try discriminate.
    intros [= H]. now apply DecimalPos.Unsigned.to_uint_nonnil in H.
  - destruct z; simpl; try discriminate.
    intros [= H]. now apply DecimalPos.Unsigned.to_uint_nonnil in H.
Qed.

Lemma split_on_absent sep s : occurs sep s = false -> split_on sep s = [s].
Proof.
  induction s as [| a s IH]; simpl; [reflexivity |].
  destruct (Ascii.eqb a sep); simpl; [discriminate |].
  intros H. now rewrite IH.
Qed.

Lemma split_on_first sep s rest :
  occurs sep s = false ->
  split_on sep (s +:+ String sep rest) = s :: split_on sep rest.
Proof.
  induction s as [| a s IH]; simpl.
  - intros _. now rewrite Ascii.eqb_refl.
  - destruct (Ascii.eqb a sep); simpl; [discriminate |].
    intros H. now rewrite IH.
Qed.

Lemma split_on_concat sep (l : list string) :
  l <> [] -> Forall (fun s => occurs sep s = false) l ->
  split_on sep (String.concat (String sep EmptyString) l) = l.
Proof.
  induction l as [| x [| y ys] IH]; intros Hne Hall.
  - congruence.
  - simpl. apply split_on_absent. now inversion Hall.
  - inversion Hall as [| ? ? Hx Hrest]; subst.
    change (String.concat (String sep EmptyString) (x :: y :: ys))
      with (x +:+ (String sep EmptyString +:+ String.concat (String sep EmptyString) (y :: ys))).
    change (String sep EmptyString +:+ String.concat (String sep EmptyString) (y :: ys))
      with (String sep (String.concat (String sep EmptyString) (y :: ys))).
    rewrite split_on_first by assumption.
    f_equal. apply IH; [discriminate | assumption].
Qed.

Lemma strip_last_append c s : strip_last c (s +:+ String c EmptyString) = Some s.
Proof.
  induction s as [| a s IH]; simpl.
  - now rewrite Ascii.eqb_refl.
  - rewrite IH. simpl. destruct (s +:+ String c EmptyString) eqn:E; [| reflexivity].
    destruct s; discriminate.
Qed.

Lemma mapM_number_text l : mapM number_of_literal (List.map String_of_number l) = Some l.
Proof.
  induction l as [| z l IH]; simpl; [reflexivity |].
  now rewrite number_of_literal_text, IH.
Qed.

Lemma concat_nonempty sep x (l : list string) :
  x <> EmptyString -> String.concat sep (x :: l) <> EmptyString.
Proof.
  intros Hx. destruct l; simpl; [assumption |].
  destruct x; [congruence | discriminate].
Qed.

(** What [JSON.stringify] writes, [JSON.parse] reads back. *)
Lemma JSON_parse_stringify l : JSON_parse (JSON_stringify l) = Normal l.
Proof.
  unfold JSON_parse, JSON_stringify, elements_of.
  rewrite strip_last_append.
  destruct l as [| z l]; [reflexivity |].
  destruct (String.concat "," (List.map String_of_number (z :: l))) eqn:E.
  - exfalso. revert E. apply concat_nonempty, number_text_nonempty.
  - rewrite <- E. rewrite split_on_concat.
    + now rewrite mapM_number_text.
    + discriminate.
    + apply List.Forall_forall. intros txt Hs. apply in_map_iff in Hs as [t [<- _]].
      apply number_text_no_comma. now left.
Qed.

(** The texts the page meets. *)
Example JSON_parse_ledger :
JSON_parse "[1700000000000,12,-3]" = Normal [1700000000000; 12; -3].
Proof. vm_compute. reflexivity. Qed.

Example JSON_parse_not_json : JSON_parse "corrupt" = Throw SyntaxError.
Proof. vm_compute. reflexivity. Qed.

Example JSON_parse_leading_zero : JSON_parse "[01]" = OutsideModel.
Proof. vm_compute. reflexivity. Qed.

Example JSON_stringify_ledger : JSON_stringify [5; 0; -12] = "[5,0,-12]"%string.
Proof. vm_compute. reflexivity. Qed.

End Json.

(** ** The ledger and its evaluation *)

Section Evaluation.
Import Js Facts MetricsSimulator.

Lemma Math_ceil_div_ceiling a b : 0 < b -> Math_ceil_div a b = Spec.ceiling a b.
Proof.
  intros Hb. unfold Math_ceil_div, Spec.ceiling.
  apply Z.div_unique with (r := b - 1 - (- a) mod b).
  - left. pose proof (Z.mod_pos_bound (- a) b Hb). lia.
  - pose proof (Z.div_mod (- a) b ltac:(lia)). lia.
Qed.

(** [Math.ceil(a / b)] is the least integer [n] with [a <= n * b]. *)
Lemma Math_ceil_div_spec a b :
  0 < b -> b * (Math_ceil_div a b - 1) < a <= b * Math_ceil_div a b.
Proof.
  intros Hb. unfold Math_ceil_div.
  pose proof (Z.div_mod (- a) b ltac:(lia)).
  pose proof (Z.mod_pos_bound (- a) b Hb). lia.
Qed.

Lemma fold_max_maximum ts t :
  fold_left Z.max ts t = match Spec.maximum ts with
                         | None => t
                         | Some m => Z.max t m
                         end.
Proof.
  revert t. induction ts as [| x ts IH]; intros t; simpl; [reflexivity |].
  rewrite IH. destruct (Spec.maximum ts); lia.
Qed.

Lemma Math_max_maximum t ts : Spec.maximum (t :: ts) = Some (Math_max t ts).
Proof. unfold Math_max. now rewrite fold_max_maximum. Qed.

Lemma maximum_greatest l m : Spec.maximum l = Some m <-> greatest m l.
Proof.
  unfold greatest. revert m. induction l as [| t ts IH]; intros m; simpl.
  - split; [discriminate | intros [[] _]].
  - destruct (Spec.maximum ts) as [m' |] eqn:E.
    + destruct (proj1 (IH m') eq_refl) as [Hin Hall].
      rewrite List.Forall_forall in Hall.
      split.
      * intros [= <-]. split.
        -- destruct (Z.max_spec t m') as [[_ ->] | [_ ->]]; [now right | now left].
        -- constructor; [lia |]. apply List.Forall_forall. intros x Hx.
           specialize (Hall x Hx). lia.
      * intros [Hm Hle]. f_equal. inversion Hle as [| ? ? Ht Hts]; subst.
        rewrite List.Forall_forall in Hts. specialize (Hts m' Hin).
        destruct Hm as [<- | Hm]; [lia |]. specialize (Hall m Hm). lia.
    + assert (ts = []) as -> by (destruct ts; [reflexivity | discriminate]).
      split.
      * intros [= <-]. split; [now left | constructor; [lia | constructor]].
      * intros [[<- | []] _]. reflexivity.
Qed.

(** The filter of the code keeps the trailing fifteen minutes. *)
Lemma prune_is_window now l :
  List.filter (fun timestamp => timestamp >? now - 15 * 60 * 1000) l
  = window now fifteenMinutes l.
Proof.
  unfold window, fifteenMinutes. apply List.filter_ext. intros t.
  destruct (Z.gtb_spec t (now - 15 * 60 * 1000)), (Z.ltb_spec (now - t) (15 * 60 * 1000)); lia.
Qed.

Lemma window_idempotent now d l : window now d (window now d l) = window now d l.
Proof.
  unfold window. induction l as [| t l IH]; simpl; [reflexivity |].
  destruct (now - t <? d) eqn:E; simpl; rewrite ?E, IH; reflexivity.
Qed.

Lemma window_incl now d l t : In t (window now d l) -> In t l /\ now - t < d.
Proof.
  unfold window. rewrite List.filter_In. intros [H1 H2]. split; [assumption | lia].
Qed.

Lemma storedLedgerText_written l ls :
  storedLedgerText (writeRecentApplies l ls) = JSON_stringify l.
Proof.
  unfold storedLedgerText, writeRecentApplies. now rewrite lookup_insert_eq.
Qed.

Lemma readRecentApplies_ok ls ledger now :
  JSON_parse (storedLedgerText ls) = Normal ledger ->
  readRecentApplies (now - 15 * 60 * 1000) ls = Normal (window now fifteenMinutes ledger).
Proof.
  intros H. unfold readRecentApplies. rewrite H. simpl. now rewrite prune_is_window.
Qed.

Lemma readRecentApplies_throw ls e fifteenMinutesAgo :
  JSON_parse (storedLedgerText ls) = Throw e ->
  readRecentApplies fifteenMinutesAgo ls = Throw e.
Proof. intros H. unfold readRecentApplies. now rewrite H. Qed.

(** One evaluation on a readable ledger. *)
Lemma updateRateLimitInfo_ok now s ledger :
  JSON_parse (storedLedgerText (localStorage s)) = Normal ledger ->
  updateRateLimitInfo now s
  = Normal (setRateLimitInfo (rateLimitSnapshot now (window now fifteenMinutes ledger))
              (setLocalStorage
                 (writeRecentApplies (window now fifteenMinutes ledger) (localStorage s)) s)).
Proof.
  intros H. unfold updateRateLimitInfo.
  now rewrite (readRecentApplies_ok _ _ _ H).
Qed.

End Evaluation.

(** ** The evaluation against the specification's algorithm *)

Section EvaluationClaims.
Import Js Facts MetricsSimulator.

(** C4, as stated, fails: on an empty ledger read five seconds after the
    epoch the code reports a cooldown of five seconds (its last-attempt
    fallback is 0), where the algorithm of the specification (minus
    infinity) reports none. *)
Lemma evaluation_differs_near_epoch :
  storedLedger Scenario.epochPage = Normal []
  /\ bind (updateRateLimitInfo 5000 Scenario.epochPage)
       (fun s => Normal (Spec.snapshotOf (rateLimitInfo s)))
     = Normal {| Spec.isLimited := true; Spec.remainingCooldownSeconds := 5;
                 Spec.attemptsInWindow := 0 |}
  /\ Spec.evaluate [] 5000
     = {| Spec.isLimited := false; Spec.remainingCooldownSeconds := 0;
          Spec.attemptsInWindow := 0 |}.
Proof. repeat split; vm_compute; reflexivity. Qed.

Lemma snapshot_refines_spec now ledger :
  window now fifteenMinutes ledger <> [] \/ 10000 <= now ->
  Spec.snapshotOf (rateLimitSnapshot now (window now fifteenMinutes ledger))
  = Spec.evaluate ledger now.
Proof.
  intros Hne. unfold Spec.evaluate, Spec.snapshotOf, rateLimitSnapshot.
  unfold RECOMMENDED_COOLDOWN, APPLY_LIMIT_PER_15MINUTES, Spec.cooldownSeconds, Spec.quota.
  cbn [isLimited remainingTime appliesInLastMinute].
  destruct (window now fifteenMinutes ledger) as [| t ts] eqn:E.
  - destruct Hne as [Hne | Hnow]; [congruence |].
    cbn [Spec.maximum length].
    destruct (Z.ltb_spec (now - 0) (10 * 1000)); [lia | reflexivity].
  - rewrite Math_max_maximum.
    set (m := Math_max t ts).
    pose proof (Math_ceil_div_spec (10 * 1000 - (now - m)) 1000 ltac:(lia)) as Hc.
    rewrite <- Math_ceil_div_ceiling by lia.
    destruct (Z.ltb_spec (now - m) (10 * 1000)) as [Hlt | Hge].
    + rewrite Z.max_r by lia.
      destruct (Z.gtb_spec (Math_ceil_div (10 * 1000 - (now - m)) 1000) 0); [| lia].
      reflexivity.
    + rewrite Z.max_l by lia. reflexivity.
Qed.

(** What holds at every instant: the count, the cooldown formula for the
    greatest entry when there is one, and [isLimited] as the disjunction
    of the two gates. *)
Lemma snapshot_clauses now recentApplies :
  appliesInLastMinute (rateLimitSnapshot now recentApplies)
  = Z.of_nat (length recentApplies)
  /\ (forall lastAttempt, greatest lastAttempt recentApplies ->
      remainingTime (rateLimitSnapshot now recentApplies)
      = Z.max 0 (Math_ceil_div (10 * 1000 - (now - lastAttempt)) 1000))
  /\ isLimited (rateLimitSnapshot now recentApplies)
     = (remainingTime (rateLimitSnapshot now recentApplies) >? 0)
       || (appliesInLastMinute (rateLimitSnapshot now recentApplies) >=? 3).
Proof.
  split; [reflexivity |]. split.
  - intros m Hm. apply maximum_greatest in Hm.
    destruct recentApplies as [| t ts]; [discriminate |].
    rewrite Math_max_maximum in Hm. injection Hm as Hm.
    unfold rateLimitSnapshot, RECOMMENDED_COOLDOWN. cbn [remainingTime]. rewrite Hm.
    pose proof (Math_ceil_div_spec (10 * 1000 - (now - m)) 1000 ltac:(lia)).
    destruct (Z.ltb_spec (now - m) (10 * 1000)); lia.
  - unfold rateLimitSnapshot, RECOMMENDED_COOLDOWN, APPLY_LIMIT_PER_15MINUTES.
    cbn [isLimited remainingTime appliesInLastMinute].
    set (last := match recentApplies with [] => 0 | t :: ts => Math_max t ts end).
    pose proof (Math_ceil_div_spec (10 * 1000 - (now - last)) 1000 ltac:(lia)).
    destruct (Z.ltb_spec (now - last) (10 * 1000)).
    + destruct (Z.gtb_spec (Math_ceil_div (10 * 1000 - (now - last)) 1000) 0); [reflexivity | lia].
    + reflexivity.
Qed.

(** C4 (amended): for every readable ledger and every [now] such that
    the window is not empty or [now] is at least 10000 ms after the
    epoch, [updateRateLimitInfo] computes the snapshot of the
    specification's algorithm: the count of entries with
    [now - t < 15 min], the cooldown
    [max(0, ceil((10000 - (now - lastAttempt)) / 1000))] for the greatest
    in-window timestamp, and their disjunction. *)
Theorem evaluation_refines_spec (s : State) (now : Z) (ledger : list Z) :
  storedLedger s = Normal ledger ->
  window now fifteenMinutes ledger <> [] \/ 10000 <= now ->
  exists s', updateRateLimitInfo now s = Normal s'
             /\ Spec.snapshotOf (rateLimitInfo s') = Spec.evaluate ledger now.
Proof.
  intros Hread Hne. unfold storedLedger in Hread.
  rewrite (updateRateLimitInfo_ok _ _ _ Hread).
  eexists. split; [reflexivity |].
  cbn [rateLimitInfo setRateLimitInfo]. now apply snapshot_refines_spec.
Qed.

(** An instance: four seconds after the only recorded apply. *)
Lemma evaluation_refines_spec_witness :
  exists s', updateRateLimitInfo (Scenario.t0 + 4000) Scenario.oneApplyPage = Normal s'
             /\ Spec.snapshotOf (rateLimitInfo s')
                = Spec.evaluate [Scenario.t0] (Scenario.t0 + 4000).
Proof.
  apply (evaluation_refines_spec Scenario.oneApplyPage (Scenario.t0 + 4000) [Scenario.t0]).
  - vm_compute. reflexivity.
  - right. vm_compute. discriminate.
Defined.

(** The evaluation of an empty window. *)
Lemma updateRateLimitInfo_empty_window (s : State) (now : Z) (ledger : list Z) :
  storedLedger s = Normal ledger ->
  window now fifteenMinutes ledger = [] ->
  exists s', updateRateLimitInfo now s = Normal s'
             /\ rateLimitInfo s' = rateLimitSnapshot now [].
Proof.
  intros Hread Hempty. unfold storedLedger in Hread.
  rewrite (updateRateLimitInfo_ok _ _ _ Hread).
  eexists. split; [reflexivity |].
  cbn [rateLimitInfo setRateLimitInfo]. now rewrite Hempty.
Qed.

Lemma snapshot_empty_late now :
  10000 <= now ->
  rateLimitSnapshot now []
  = {| isLimited := false; remainingTime := 0; appliesInLastMinute := 0 |}.
Proof.
  intros Hnow. unfold rateLimitSnapshot, RECOMMENDED_COOLDOWN. cbn [length].
  destruct (Z.ltb_spec (now - 0) (10 * 1000)); [lia | reflexivity].
Qed.

Lemma snapshot_empty_early now :
  now < 10000 ->
  rateLimitSnapshot now []
  = {| isLimited := true; remainingTime := Math_ceil_div (10000 - (now - 0)) 1000;
       appliesInLastMinute := 0 |}.
Proof.
  intros Hnow. unfold rateLimitSnapshot, RECOMMENDED_COOLDOWN. cbn [length].
  destruct (Z.ltb_spec (now - 0) (10 * 1000)); [reflexivity | lia].
Qed.

(** C9: with an empty window (a missing, empty or fully expired ledger)
    the evaluation takes 0 as the time of the last apply: from 10000 ms
    after the epoch on it reports no limit, no remaining time and no
    attempt; before that it reports a cooldown of
    [ceil((10000 - now) / 1000)] seconds. *)
Theorem empty_ledger_sentinel (s : State) (now : Z) (ledger : list Z) :
  storedLedger s = Normal ledger ->
  window now fifteenMinutes ledger = [] ->
  exists s', updateRateLimitInfo now s = Normal s'
    /\ appliesInLastMinute (rateLimitInfo s') = 0
    /\ (10000 <= now ->
        isLimited (rateLimitInfo s') = false /\ remainingTime (rateLimitInfo s') = 0)
    /\ (now < 10000 ->
        isLimited (rateLimitInfo s') = true
        /\ remainingTime (rateLimitInfo s') = Math_ceil_div (10000 - (now - 0)) 1000
        /\ 0 < remainingTime (rateLimitInfo s')).
Proof.
  intros Hread Hempty.
  destruct (updateRateLimitInfo_empty_window s now ledger Hread Hempty) as (s' & Hs' & Hinfo).
  exists s'. split; [exact Hs' |]. rewrite Hinfo. split; [reflexivity |]. split.
  - intros Hnow. now rewrite snapshot_empty_late.
  - intros Hnow. rewrite snapshot_empty_early by assumption.
    cbn [isLimited remainingTime]. split; [reflexivity |]. split; [reflexivity |].
    pose proof (Math_ceil_div_spec (10000 - (now - 0)) 1000 ltac:(lia)). lia.
Qed.

(** An instance: a browser that stored nothing, in November 2023. *)
Lemma empty_ledger_sentinel_witness :
  exists s', updateRateLimitInfo Scenario.t0 Scenario.freshPage = Normal s'
    /\ appliesInLastMinute (rateLimitInfo s') = 0
    /\ (10000 <= Scenario.t0 ->
        isLimited (rateLimitInfo s') = false /\ remainingTime (rateLimitInfo s') = 0)
    /\ (Scenario.t0 < 10000 ->
        isLimited (rateLimitInfo s') = true
        /\ remainingTime (rateLimitInfo s') = Math_ceil_div (10000 - (Scenario.t0 - 0)) 1000
        /\ 0 < remainingTime (rateLimitInfo s')).
Proof.
  apply (empty_ledger_sentinel Scenario.freshPage Scenario.t0 []).
  - vm_compute. reflexivity.
  - reflexivity.
Defined.

End EvaluationClaims.

(** ** Who writes the ledger *)

Section LedgerClaims.
Import Js Facts MetricsSimulator.

(** C3, as stated, fails: a tick sixteen minutes and forty seconds after
    the only recorded apply writes the pruned (now empty) array back to
    localStorage. *)
Lemma tick_writes_pruned_ledger :
  localStorage Scenario.oneApplyPage !! ledgerKey = Some "[1700000000000]"%string
  /\ bind (updateRateLimitInfo (Scenario.t0 + 1000000) Scenario.oneApplyPage)
       (fun s => Normal (localStorage s !! ledgerKey))
     = Normal (Some "[]"%string).
Proof. split; vm_compute; reflexivity. Qed.

Lemma updateRateLimitInfo_twice now s ledger :
  storedLedger s = Normal ledger ->
  bind (updateRateLimitInfo now s) (updateRateLimitInfo now) = updateRateLimitInfo now s.
Proof.
  intros Hread. unfold storedLedger in Hread.
  rewrite (updateRateLimitInfo_ok _ _ _ Hread). cbn [bind].
  erewrite updateRateLimitInfo_ok.
  2:{ cbn [localStorage setRateLimitInfo setLocalStorage].
      rewrite storedLedgerText_written. apply JSON_parse_stringify. }
  rewrite window_idempotent.
  unfold setRateLimitInfo, setLocalStorage, writeRecentApplies. cbn.
  now rewrite insert_insert_eq.
Qed.

(** A tick on a readable ledger stores the pruned ledger and nothing
    else, and is idempotent at a given instant. *)
Lemma updateRateLimitInfo_prunes (s : State) (now : Z) (ledger : list Z) :
  storedLedger s = Normal ledger ->
  exists s', updateRateLimitInfo now s = Normal s'
    /\ localStorage s'
       = <[ledgerKey := JSON_stringify (window now fifteenMinutes ledger)]> (localStorage s)
    /\ storedLedger s' = Normal (window now fifteenMinutes ledger)
    /\ updateRateLimitInfo now s' = Normal s'.
Proof.
  intros Hread. pose proof (updateRateLimitInfo_twice now s ledger Hread) as Htwice.
  unfold storedLedger in *.
  rewrite (updateRateLimitInfo_ok _ _ _ Hread) in *.
  eexists. split; [reflexivity |]. split; [reflexivity |]. split.
  - cbn [localStorage setRateLimitInfo setLocalStorage].
    rewrite storedLedgerText_written. apply JSON_parse_stringify.
  - exact Htwice.
Qed.

(** *** The apply controller and the store *)

Lemma applyChanges_begin_store now s :
  localStorage (applyChanges_begin now s).1 = localStorage s.
Proof.
  unfold applyChanges_begin.
  destruct (isCaptchaVerified s); [| reflexivity]. cbn [negb].
  destruct (isLimited (rateLimitInfo s)).
  - destruct (remainingTime (rateLimitInfo s) >? 0); reflexivity.
  - destruct (computeNewAppliedMetrics (metrics s) (appliedMetrics s)); reflexivity.
Qed.

(** A submission that did not succeed ends in [catch] and [finally]. *)
Lemma applyChanges_resume_failed p env s :
  succeeded env = false ->
  applyChanges_resume p env s = Normal (finally (catch (failureOf env) s)).
Proof.
  unfold succeeded, failureOf, applyChanges_resume.
  destruct (result env) as [status data | e]; [| reflexivity].
  now intros ->.
Qed.

(** A submission that succeeded, on a readable ledger. *)
Lemma applyChanges_resume_succeeded p env s ledger :
  succeeded env = true ->
  storedLedger s = Normal ledger ->
  let recentApplies := window (nowApplied env) fifteenMinutes ledger ++ [nowApplied env] in
  let kept := window (nowEvaluated env) fifteenMinutes recentApplies in
  exists s', applyChanges_resume p env s = Normal s'
    /\ localStorage s' = <[ledgerKey := JSON_stringify kept]> (localStorage s)
    /\ rateLimitInfo s' = rateLimitSnapshot (nowEvaluated env) kept
    /\ appliedMetrics s' = newAppliedMetrics p
    /\ metrics s' = metrics s
    /\ lastApplied s' = nowApplied env
    /\ lastError s' = lastError s
    /\ isApplying s' = false
    /\ isCaptchaVerified s' = false
    /\ captchaKey s' = captchaKey s + 1
    /\ captcha s' = (SlidingCaptcha.mount (random env) (offsetWidth env)).1.
Proof.
  intros Hok Hread recentApplies kept. unfold storedLedger in Hread.
  unfold succeeded in Hok. unfold applyChanges_resume.
  destruct (result env) as [status data | e]; [| discriminate].
  rewrite Hok. cbn [negb]. unfold onSuccess.
  cbn [localStorage setLastApplied setAppliedMetrics].
  rewrite (readRecentApplies_ok _ _ _ Hread). cbn [tryCatch].
  fold recentApplies.
  erewrite updateRateLimitInfo_ok.
  2:{ cbn [localStorage setCaptchaKey setIsCaptchaVerified setLocalStorage].
      rewrite storedLedgerText_written. apply JSON_parse_stringify. }
  fold kept. cbn [bind tryCatch]. eexists. split; [reflexivity |].
  unfold render. cbn [captchaKey finally setIsApplying setRateLimitInfo setLocalStorage
                      setCaptchaKey setIsCaptchaVerified setLastApplied setAppliedMetrics].
  destruct (Z.eqb_spec (captchaKey s + 1) (captchaKey s)) as [Heq | _]; [lia |].
  unfold remountCaptcha, SlidingCaptcha.mount, SlidingCaptcha.generateNewPuzzle.
  cbn. unfold writeRecentApplies. rewrite insert_insert_eq. repeat split; reflexivity.
Qed.

(** A submission that succeeded, when reading the ledger throws: the
    exception reaches [catch] and nothing is stored. *)
Lemma applyChanges_resume_unreadable p env s e :
  succeeded env = true ->
  storedLedger s = Throw e ->
  applyChanges_resume p env s
  = Normal (finally (catch e (setLastApplied (nowApplied env)
                                (setAppliedMetrics (newAppliedMetrics p) s)))).
Proof.
  intros Hok Hread. unfold storedLedger in Hread.
  unfold succeeded in Hok. unfold applyChanges_resume.
  destruct (result env) as [status data | e']; [| discriminate].
  rewrite Hok. cbn [negb]. unfold onSuccess.
  cbn [localStorage setLastApplied setAppliedMetrics].
  rewrite (readRecentApplies_throw _ _ _ Hread). cbn [tryCatch bind].
  unfold render. cbn [captchaKey finally catch setIsApplying setLastError
                      setLastApplied setAppliedMetrics].
  now rewrite Z.eqb_refl.
Qed.

(** *** Every event of the page *)

Lemma storedLedger_same_store s s' :
  localStorage s' = localStorage s -> storedLedger s' = storedLedger s.
Proof. unfold storedLedger. now intros ->. Qed.

Lemma countdown_store s : localStorage (countdown s) = localStorage s.
Proof. unfold countdown. now destruct (remainingTime (rateLimitInfo s) >? 0). Qed.

Lemma onCaptcha_store e s : localStorage (onCaptcha e s) = localStorage s.
Proof.
  unfold onCaptcha.
  destruct (SlidingCaptcha.handle (isApplying s) e (captcha s)) as [c [b |]]; reflexivity.
Qed.

Lemma clickResetAll_cases a :
  clickResetAll a = a \/ clickResetAll a = withUi (resetAll (ui a)) a.
Proof. unfold clickResetAll. destruct (isApplying (ui a)); auto. Qed.

Lemma clickResetAll_store a : localStorage (ui (clickResetAll a)) = localStorage (ui a).
Proof. unfold clickResetAll. now destruct (isApplying (ui a)). Qed.

Lemma clickApply_store now a : localStorage (ui (clickApply now a)) = localStorage (ui a).
Proof.
  unfold clickApply, callApplyChanges.
  destruct (isApplyDisabled (ui a)); [reflexivity |].
  pose proof (applyChanges_begin_store now (ui a)) as H.
  destruct (applyChanges_begin now (ui a)) as [s' [p |]]; exact H.
Qed.

(** The ledger after one event: a member of it was there before, or is
    the time of a submission that has just succeeded. *)
Lemma step_adds_only_on_success e a a' ledger ledger' t :
  step e a = Normal a' ->
  storedLedger (ui a) = Normal ledger ->
  storedLedger (ui a') = Normal ledger' ->
  In t ledger' ->
  In t ledger
  \/ exists env, e = FetchSettles env /\ succeeded env = true /\ t = nowApplied env.
Proof.
  intros Hstep Hread Hread' Hin.
  assert (Hsame : forall s', localStorage s' = localStorage (ui a) ->
                             storedLedger s' = Normal ledger' -> In t ledger).
  { intros s' Hst Hl. rewrite (storedLedger_same_store _ _ Hst), Hread in Hl.
    now injection Hl as ->. }
  destruct e as [now | | metricName newScale | | now | env | ce]; cbn [step] in Hstep.
  - destruct (updateRateLimitInfo_prunes (ui a) now ledger Hread)
      as (s' & Hs' & _ & Hl & _).
    rewrite Hs' in Hstep. cbn in Hstep. injection Hstep as <-. cbn [ui withUi] in Hread'.
    rewrite Hl in Hread'. injection Hread' as <-.
    left. now apply window_incl in Hin.
  - injection Hstep as <-. left.
    apply (Hsame _ (countdown_store (ui a)) Hread').
  - injection Hstep as <-. left. now apply (Hsame _ eq_refl).
  - injection Hstep as <-. left.
    apply (Hsame _ (clickResetAll_store a) Hread').
  - injection Hstep as <-. left.
    apply (Hsame _ (clickApply_store now a) Hread').
  - destruct (inFlight a) as [| p rest].
    + injection Hstep as <-. left. now apply (Hsame _ eq_refl).
    + destruct (succeeded env) eqn:Hok.
      * destruct (applyChanges_resume_succeeded p env (ui a) ledger Hok Hread)
          as (s' & Hs' & Hstore & _).
        rewrite Hs' in Hstep. cbn in Hstep. injection Hstep as <-. cbn [ui] in Hread'.
        unfold storedLedger in Hread'. rewrite Hstore in Hread'.
        change (<[ledgerKey := ?x]> ?ls) with (writeRecentApplies
          (window (nowEvaluated env) fifteenMinutes
             (window (nowApplied env) fifteenMinutes ledger ++ [nowApplied env])) ls)
          in Hread'.
        rewrite storedLedgerText_written, JSON_parse_stringify in Hread'.
        injection Hread' as <-.
        apply window_incl in Hin as [Hin _]. apply in_app_or in Hin as [Hin | Hin].
        -- left. now apply window_incl in Hin.
        -- right. exists env. destruct Hin as [<- | []]. now repeat split.
      * rewrite (applyChanges_resume_failed _ _ _ Hok) in Hstep. cbn in Hstep.
        injection Hstep as <-. left. now apply (Hsame _ eq_refl).
  - injection Hstep as <-. left.
    apply (Hsame _ (onCaptcha_store ce (ui a)) Hread').
Qed.

(** From a readable ledger every event ends normally and leaves a
    readable ledger: the page never fails on text it wrote itself. *)
Lemma step_keeps_ledger_readable e a ledger :
  storedLedger (ui a) = Normal ledger ->
  exists a' ledger', step e a = Normal a' /\ storedLedger (ui a') = Normal ledger'.
Proof.
  intros Hread.
  assert (Hsame : forall s', localStorage s' = localStorage (ui a) ->
                             storedLedger s' = Normal ledger).
  { intros s' Hst. now rewrite (storedLedger_same_store _ _ Hst). }
  destruct e as [now | | metricName newScale | | now | env | ce]; cbn [step].
  - destruct (updateRateLimitInfo_prunes (ui a) now ledger Hread) as (s' & Hs' & _ & Hl & _).
    rewrite Hs'. cbn [tryCatch]. eexists _, _. split; [reflexivity | exact Hl].
  - eexists _, _. split; [reflexivity |]. apply Hsame, countdown_store.
  - eexists _, _. split; [reflexivity |]. now apply Hsame.
  - eexists _, _. split; [reflexivity |]. apply Hsame, clickResetAll_store.
  - eexists _, _. split; [reflexivity |]. apply Hsame, clickApply_store.
  - destruct (inFlight a) as [| p rest].
    + eexists _, _. split; [reflexivity | exact Hread].
    + destruct (succeeded env) eqn:Hok.
      * destruct (applyChanges_resume_succeeded p env (ui a) ledger Hok Hread)
          as (s' & Hs' & Hstore & _).
        rewrite Hs'. cbn [bind]. eexists _, _. split; [reflexivity |]. cbn [ui].
        unfold storedLedger. rewrite Hstore.
        change (<[ledgerKey := JSON_stringify ?l]> ?ls) with (writeRecentApplies l ls).
        rewrite storedLedgerText_written. apply JSON_parse_stringify.
      * rewrite (applyChanges_resume_failed _ _ _ Hok). cbn [bind].
        eexists _, _. split; [reflexivity |]. now apply Hsame.
  - eexists _, _. split; [reflexivity |]. apply Hsame, onCaptcha_store.
Qed.

Lemma run_keeps_ledger_readable events a ledger :
  storedLedger (ui a) = Normal ledger ->
  exists a' ledger', run events a = Normal a' /\ storedLedger (ui a') = Normal ledger'.
Proof.
  revert a ledger. induction events as [| e events IH]; intros a ledger Hread; cbn [run].
  - eexists _, _. split; [reflexivity | exact Hread].
  - destruct (step_keeps_ledger_readable e a ledger Hread) as (a1 & l1 & Hstep & Hread1).
    rewrite Hstep. cbn [bind]. now apply (IH a1 l1).
Qed.

(** C3 (amended): a tick writes the ledger back, but only pruned.  On a
    readable ledger the text stored by [updateRateLimitInfo] is the JSON
    of the entries with [now - t < 15 min], in their order: no timestamp
    is added, no other key is touched, and evaluating again at the same
    instant changes nothing.  Over all events of the page, a timestamp
    enters the ledger only when a submission has succeeded. *)
Theorem tick_only_prunes (s : State) (now : Z) (ledger : list Z) :
  storedLedger s = Normal ledger ->
  (exists s', updateRateLimitInfo now s = Normal s'
     /\ localStorage s'
        = <[ledgerKey := JSON_stringify (window now fifteenMinutes ledger)]> (localStorage s)
     /\ storedLedger s' = Normal (window now fifteenMinutes ledger)
     /\ (forall t, In t (window now fifteenMinutes ledger) -> In t ledger)
     /\ updateRateLimitInfo now s' = Normal s')
  /\ (forall e a a' ledger' t,
        ui a = s -> step e a = Normal a' ->
        storedLedger (ui a') = Normal ledger' -> In t ledger' ->
        In t ledger
        \/ exists env, e = FetchSettles env /\ succeeded env = true /\ t = nowApplied env).
Proof.
  intros Hread. split.
  - destruct (updateRateLimitInfo_prunes s now ledger Hread) as (s' & H1 & H2 & H3 & H4).
    exists s'. repeat split; try assumption.
    intros t Ht. now apply window_incl in Ht.
  - intros e a a' ledger' t <- Hstep Hread' Hin.
    now apply (step_adds_only_on_success e a a' ledger ledger' t).
Qed.

(** An instance: a tick four seconds after the only recorded apply keeps
    it, and a second tick at that instant changes nothing. *)
Lemma tick_only_prunes_witness :
  storedLedger Scenario.oneApplyPage = Normal [Scenario.t0]
  /\ exists s', updateRateLimitInfo (Scenario.t0 + 4000) Scenario.oneApplyPage = Normal s'
     /\ storedLedger s' = Normal [Scenario.t0]
     /\ updateRateLimitInfo (Scenario.t0 + 4000) s' = Normal s'.
Proof.
  assert (H : storedLedger Scenario.oneApplyPage = Normal [Scenario.t0])
    by (vm_compute; reflexivity).
  split; [exact H |].
  destruct (tick_only_prunes Scenario.oneApplyPage (Scenario.t0 + 4000) [Scenario.t0] H)
    as [(s' & H1 & _ & H3 & _ & H5) _].
  exists s'. repeat split; assumption.
Defined.

(** *** Charging the ledger *)

Lemma window_snoc now d l x :
  now - x < d -> window now d (l ++ [x]) = window now d l ++ [x].
Proof.
  intros H. unfold window. rewrite List.filter_app. cbn [List.filter].
  destruct (Z.ltb_spec (now - x) d); [reflexivity | lia].
Qed.

(** C1, as stated, fails in its "if" half: the ledger text was
    overwritten with text that is not JSON, the button is clicked and the
    server accepts the submission (HTTP 200); the read in the success path
    throws into [catch], an error is shown and no timestamp is stored. *)
Lemma success_on_unreadable_ledger_not_recorded :
  succeeded (Scenario.accepted (Scenario.t0 + 5000)) = true
  /\ bind (run [ApplyClick (frozen (Scenario.t0 + 5000));
                FetchSettles (Scenario.accepted (Scenario.t0 + 5000))]
             Scenario.overwritten)
       (fun a => Normal (length (sent a), length (inFlight a),
                         localStorage (ui a) !! ledgerKey, lastError (ui a)))
     = Normal (1%nat, 0%nat, Some "corrupt"%string, Some (EngineDefined "SyntaxError")).
Proof. split; vm_compute; reflexivity. Qed.

(** C1 (amended): a call of [applyChanges] that is rejected locally
    sends nothing and stores nothing; a submission that fails (non-2xx
    status or rejected fetch) leaves localStorage as it was; a
    submission that succeeds on a readable ledger stores the pruned
    ledger with [Date.now()] appended (pruned once more by the evaluation
    that follows, which keeps the new entry unless fifteen minutes lie
    between the two clock readings); a submission that succeeds while
    reading the ledger throws stores nothing. *)
Theorem ledger_charged_only_on_success
    (p : Pending) (env : Settlement) (s : State) (now : Clock) :
  localStorage (applyChanges_begin now s).1 = localStorage s
  /\ (isCaptchaVerified s = false \/ isLimited (rateLimitInfo s) = true ->
      (applyChanges_begin now s).2 = None)
  /\ (succeeded env = false ->
      exists s', applyChanges_resume p env s = Normal s'
                 /\ localStorage s' = localStorage s)
  /\ (succeeded env = true ->
      forall ledger, storedLedger s = Normal ledger ->
      exists s', applyChanges_resume p env s = Normal s'
        /\ storedLedger s'
           = Normal (window (nowEvaluated env) fifteenMinutes
                       (window (nowApplied env) fifteenMinutes ledger ++ [nowApplied env]))
        /\ (nowEvaluated env - nowApplied env < fifteenMinutes ->
            storedLedger s'
            = Normal (window (nowEvaluated env) fifteenMinutes
                        (window (nowApplied env) fifteenMinutes ledger)
                      ++ [nowApplied env])))
  /\ (succeeded env = true ->
      forall e, storedLedger s = Throw e ->
      exists s', applyChanges_resume p env s = Normal s'
                 /\ localStorage s' = localStorage s).
Proof.
  split; [apply applyChanges_begin_store |]. split; [| split; [| split]].
  - unfold applyChanges_begin. intros [-> | Hlim]; [reflexivity |].
    destruct (isCaptchaVerified s); [| reflexivity]. cbn [negb]. rewrite Hlim.
    now destruct (remainingTime (rateLimitInfo s) >? 0).
  - intros Hfail. rewrite (applyChanges_resume_failed _ _ _ Hfail).
    eexists. split; reflexivity.
  - intros Hok ledger Hread.
    destruct (applyChanges_resume_succeeded p env s ledger Hok Hread)
      as (s' & Hs' & Hstore & _).
    exists s'. split; [exact Hs' |].
    assert (Hl : storedLedger s'
                 = Normal (window (nowEvaluated env) fifteenMinutes
                             (window (nowApplied env) fifteenMinutes ledger
                              ++ [nowApplied env]))).
    { unfold storedLedger. rewrite Hstore.
      change (<[ledgerKey := JSON_stringify ?l]> ?ls) with (writeRecentApplies l ls).
      now rewrite storedLedgerText_written, JSON_parse_stringify. }
    split; [exact Hl |]. intros Hclock. now rewrite Hl, window_snoc.
  - intros Hok e Hread. rewrite (applyChanges_resume_unreadable _ _ _ _ Hok Hread).
    eexists. split; reflexivity.
Qed.

(** An instance: on a browser that stored nothing, an accepted submission
    records its time and a refused one (429) records nothing. *)
Lemma ledger_charged_only_on_success_witness :
  succeeded (Scenario.accepted Scenario.t0) = true
  /\ succeeded (Scenario.refused Scenario.t0) = false
  /\ storedLedger Scenario.freshSubmitting = Normal []
  /\ (exists s', applyChanges_resume (Scenario.pendingOf Scenario.t0 Scenario.freshReady)
                   (Scenario.accepted Scenario.t0) Scenario.freshSubmitting = Normal s'
                 /\ storedLedger s' = Normal [Scenario.t0 + 1000])
  /\ (exists s', applyChanges_resume (Scenario.pendingOf Scenario.t0 Scenario.freshReady)
                   (Scenario.refused Scenario.t0) Scenario.freshSubmitting = Normal s'
                 /\ localStorage s' = localStorage Scenario.freshSubmitting).
Proof.
  assert (Hok : succeeded (Scenario.accepted Scenario.t0) = true) by reflexivity.
  assert (Hko : succeeded (Scenario.refused Scenario.t0) = false) by reflexivity.
  assert (Hread : storedLedger Scenario.freshSubmitting = Normal [])
    by (vm_compute; reflexivity).
  repeat split; try assumption.
  - destruct (ledger_charged_only_on_success
                (Scenario.pendingOf Scenario.t0 Scenario.freshReady)
                (Scenario.accepted Scenario.t0) Scenario.freshSubmitting (frozen Scenario.t0))
      as (_ & _ & _ & H & _).
    destruct (H Hok [] Hread) as (s' & Hs' & Hl & _). exists s'. split; [exact Hs' | exact Hl].
  - destruct (ledger_charged_only_on_success
                (Scenario.pendingOf Scenario.t0 Scenario.freshReady)
                (Scenario.refused Scenario.t0) Scenario.freshSubmitting (frozen Scenario.t0))
      as (_ & _ & H & _).
    exact (H Hko).
Defined.

(** *** Missing and unreadable ledgers *)

(** C5, as stated, fails: when the stored text is not JSON the read
    throws SyntaxError out of [updateRateLimitInfo], instead of
    evaluating an empty ledger. *)
Lemma corrupt_ledger_throws :
  localStorage Scenario.corruptPage !! ledgerKey = Some "corrupt"%string
  /\ readRecentApplies (Scenario.t0 + 1000 - 15 * 60 * 1000) (localStorage Scenario.corruptPage)
     = Throw SyntaxError
  /\ updateRateLimitInfo (Scenario.t0 + 1000) Scenario.corruptPage = Throw SyntaxError
  /\ mountPage (localStorage Scenario.corruptPage) Scenario.t0 (Scenario.t0 + 1000) 0.5 340
     = Throw SyntaxError.
Proof. repeat split; vm_compute; reflexivity. Qed.

Lemma storedLedger_missing s :
  localStorage s !! ledgerKey = None \/ localStorage s !! ledgerKey = Some EmptyString ->
  storedLedger s = Normal [].
Proof.
  unfold storedLedger, storedLedgerText. now intros [-> | ->].
Qed.

(** C5 (amended): a missing ledger (no key, or the empty string) is read
    as the empty ledger by the evaluator and by the apply controller.
    Text that JSON.parse rejects is not: the SyntaxError leaves
    [updateRateLimitInfo] uncaught, and in the success path of
    [applyChanges] it is handled by [catch], which shows its message and
    stores nothing. *)
Theorem missing_ledger_reads_as_empty (s : State) (now : Z) :
  (localStorage s !! ledgerKey = None \/ localStorage s !! ledgerKey = Some EmptyString ->
   readRecentApplies (now - 15 * 60 * 1000) (localStorage s) = Normal []
   /\ (exists s', updateRateLimitInfo now s = Normal s'
         /\ appliesInLastMinute (rateLimitInfo s') = 0
         /\ (10000 <= now -> isLimited (rateLimitInfo s') = false))
   /\ (forall p env, succeeded env = true ->
         exists s', applyChanges_resume p env s = Normal s'
           /\ storedLedger s'
              = Normal (window (nowEvaluated env) fifteenMinutes [nowApplied env])))
  /\ (forall e, storedLedger s = Throw e ->
      e = SyntaxError
      /\ updateRateLimitInfo now s = Throw e
      /\ (forall p env, succeeded env = true ->
            exists s', applyChanges_resume p env s = Normal s'
              /\ localStorage s' = localStorage s
              /\ lastError s' = Some (EngineDefined "SyntaxError")
              /\ isApplying s' = false)).
Proof.
  split.
  - intros Hmissing. pose proof (storedLedger_missing s Hmissing) as Hread.
    split; [| split].
    + now rewrite (readRecentApplies_ok _ _ now Hread).
    + destruct (updateRateLimitInfo_empty_window s now [] Hread eq_refl)
        as (s' & Hs' & Hinfo).
      exists s'. split; [exact Hs' |]. rewrite Hinfo. split; [reflexivity |].
      intros Hnow. now rewrite snapshot_empty_late.
    + intros p env Hok.
      destruct (applyChanges_resume_succeeded p env s [] Hok Hread)
        as (s' & Hs' & Hstore & _).
      exists s'. split; [exact Hs' |]. unfold storedLedger. rewrite Hstore.
      change (<[ledgerKey := JSON_stringify ?l]> ?ls) with (writeRecentApplies l ls).
      now rewrite storedLedgerText_written, JSON_parse_stringify.
  - intros e Hread.
    assert (He : e = SyntaxError).
    { unfold storedLedger, JSON_parse in Hread.
      repeat match type of Hread with
             | match ?x with _ => _ end = _ => destruct x; try discriminate
             | (if ?x then _ else _) = _ => destruct x; try discriminate
             end; now injection Hread as <-. }
    split; [exact He |]. split.
    + unfold updateRateLimitInfo. unfold storedLedger in Hread.
      now rewrite (readRecentApplies_throw _ _ _ Hread).
    + intros p env Hok. rewrite (applyChanges_resume_unreadable _ _ _ _ Hok Hread).
      eexists. split; [reflexivity |]. subst e. repeat split.
Qed.

(** An instance: the empty store reads as the empty ledger; the store
    holding "corrupt" throws. *)
Lemma missing_ledger_reads_as_empty_witness :
  readRecentApplies (Scenario.t0 - 15 * 60 * 1000) (localStorage Scenario.freshPage) = Normal []
  /\ storedLedger Scenario.corruptPage = Throw SyntaxError
  /\ updateRateLimitInfo Scenario.t0 Scenario.corruptPage = Throw SyntaxError.
Proof.
  assert (Hthrow : storedLedger Scenario.corruptPage = Throw SyntaxError)
    by (vm_compute; reflexivity).
  split; [| split; [exact Hthrow |]].
  - destruct (missing_ledger_reads_as_empty Scenario.freshPage Scenario.t0) as [H _].
    apply H. left. vm_compute. reflexivity.
  - destruct (missing_ledger_reads_as_empty Scenario.corruptPage Scenario.t0) as [_ H].
    now destruct (H _ Hthrow) as (_ & Hup & _).
Defined.

End LedgerClaims.

(** ** One submission at a time *)

Section InFlightClaims.
Import Js Facts MetricsSimulator.

(** C2, as stated, fails: [applyChanges] has no in-progress check.  A
    second call made while the first is suspended at its fetch sends a
    second request and reports no error. *)
Lemma second_call_sends_second_request :
  isApplying (ui (callApplyChanges (frozen Scenario.t0) Scenario.ready)) = true
  /\ length (sent (callApplyChanges (frozen Scenario.t0) Scenario.ready)) = 1%nat
  /\ length (sent (callApplyChanges (frozen (Scenario.t0 + 50))
                     (callApplyChanges (frozen Scenario.t0) Scenario.ready))) = 2%nat
  /\ length (inFlight (callApplyChanges (frozen (Scenario.t0 + 50))
                         (callApplyChanges (frozen Scenario.t0) Scenario.ready))) = 2%nat
  /\ lastError (ui (callApplyChanges (frozen (Scenario.t0 + 50))
                      (callApplyChanges (frozen Scenario.t0) Scenario.ready))) = None.
Proof. repeat split; vm_compute; reflexivity. Qed.

Lemma updateRateLimitInfo_isApplying now s s' :
  updateRateLimitInfo now s = Normal s' -> isApplying s' = isApplying s.
Proof.
  unfold updateRateLimitInfo.
  destruct (readRecentApplies _ _); cbn [bind]; [| discriminate..].
  now intros [= <-].
Qed.

Lemma countdown_isApplying s : isApplying (countdown s) = isApplying s.
Proof. unfold countdown. now destruct (remainingTime (rateLimitInfo s) >? 0). Qed.

Lemma onCaptcha_isApplying e s : isApplying (onCaptcha e s) = isApplying s.
Proof.
  unfold onCaptcha.
  destruct (SlidingCaptcha.handle (isApplying s) e (captcha s)) as [c [b |]]; reflexivity.
Qed.

Lemma render_isApplying env before after :
  isApplying (render env before after) = isApplying after.
Proof.
  unfold render. destruct (captchaKey after =? captchaKey before); [reflexivity |].
  unfold remountCaptcha.
  destruct (SlidingCaptcha.mount (random env) (offsetWidth env)) as [c [b |]]; reflexivity.
Qed.

(** When the suspended call finishes, [finally] has cleared the flag. *)
Lemma applyChanges_resume_isApplying p env s s' :
  applyChanges_resume p env s = Normal s' -> isApplying s' = false.
Proof.
  unfold applyChanges_resume.
  destruct (result env) as [status data | e].
  - destruct (ok status); cbn [negb].
    + destruct (onSuccess p env s) as [s'' | |]; cbn [bind]; [| discriminate..].
      intros [= <-]. now rewrite render_isApplying.
    + now intros [= <-].
  - now intros [= <-].
Qed.

(** A call of [applyChanges] either leaves the flag alone and sends
    nothing, or sets it and sends one request. *)
Lemma applyChanges_begin_isApplying now s :
  match applyChanges_begin now s with
  | (s', Some _) => isApplying s' = true
  | (s', None) => isApplying s' = isApplying s \/ isApplying s' = false
  end.
Proof.
  unfold applyChanges_begin.
  destruct (isCaptchaVerified s); cbn [negb]; [| now left].
  destruct (isLimited (rateLimitInfo s)).
  - destruct (remainingTime (rateLimitInfo s) >? 0); now left.
  - destruct (computeNewAppliedMetrics (metrics s) (appliedMetrics s)); [reflexivity | now right].
Qed.

Lemma step_atMostOneInFlight e a a' :
  atMostOneInFlight a -> step e a = Normal a' -> atMostOneInFlight a'.
Proof.
  unfold atMostOneInFlight. intros Hinv Hstep.
  assert (Hsame : forall s', isApplying s' = isApplying (ui a) ->
            (isApplying s' = false /\ inFlight a = [])
            \/ (isApplying s' = true /\ exists p, inFlight a = [p])).
  { intros s' ->. exact Hinv. }
  destruct e as [now | | metricName newScale | | now | env | ce]; cbn [step] in Hstep.
  - destruct (updateRateLimitInfo now (ui a)) as [s' | |] eqn:E; cbn [tryCatch] in Hstep;
      [| | discriminate].
    + injection Hstep as <-. cbn [ui inFlight withUi].
      apply Hsame. now apply updateRateLimitInfo_isApplying in E.
    + now injection Hstep as <-.
  - injection Hstep as <-. cbn [ui inFlight withUi]. apply Hsame, countdown_isApplying.
  - injection Hstep as <-. cbn [ui inFlight withUi]. now apply Hsame.
  - injection Hstep as <-. destruct (clickResetAll_cases a) as [-> | ->]; [exact Hinv |].
    cbn [ui inFlight withUi]. now apply Hsame.
  - injection Hstep as <-. unfold clickApply, isApplyDisabled.
    destruct Hinv as [[Hidle Hnone] | [Hbusy Hone]].
    + destruct (_ || _ || _ || _); [now left |].
      unfold callApplyChanges.
      pose proof (applyChanges_begin_isApplying now (ui a)) as H.
      destruct (applyChanges_begin now (ui a)) as [s' [p |]]; cbn [ui inFlight].
      * right. split; [exact H |]. exists p. now rewrite Hnone.
      * left. split; [| exact Hnone]. destruct H as [-> | ->]; [exact Hidle | reflexivity].
    + rewrite Hbusy. rewrite orb_true_r. cbn [orb]. now right.
  - destruct Hinv as [[Hidle Hnone] | [Hbusy [p Hone]]].
    + rewrite Hnone in Hstep. injection Hstep as <-. now left.
    + rewrite Hone in Hstep.
      destruct (applyChanges_resume p env (ui a)) as [s' | |] eqn:E; cbn [bind] in Hstep;
        [| discriminate..].
      injection Hstep as <-. cbn [ui inFlight]. left.
      split; [now apply applyChanges_resume_isApplying in E | reflexivity].
  - injection Hstep as <-. cbn [ui inFlight withUi]. apply Hsame, onCaptcha_isApplying.
Qed.

Lemma run_atMostOneInFlight events a a' :
  atMostOneInFlight a -> run events a = Normal a' -> atMostOneInFlight a'.
Proof.
  revert a. induction events as [| e events IH]; intros a Hinv Hrun; cbn [run] in Hrun.
  - now injection Hrun as <-.
  - destruct (step e a) as [a1 | |] eqn:E; cbn [bind] in Hrun; [| discriminate..].
    apply (IH a1); [| exact Hrun]. now apply (step_atMostOneInFlight e a).
Qed.

(** While a submission is in progress the Apply button is disabled. *)
Lemma clicks_while_applying clicks a :
  isApplying (ui a) = true -> run (List.map ApplyClick clicks) a = Normal a.
Proof.
  intros Hbusy. induction clicks as [| now clicks IH]; [reflexivity |].
  cbn [List.map run step]. unfold clickApply, isApplyDisabled.
  rewrite Hbusy, orb_true_r. cbn [orb bind]. exact IH.
Qed.

(** C2 (amended): at most one submission is in flight at a time, by the
    button and not by [applyChanges]: along every run of the page's
    events there is never more than one suspended call, and while one is
    suspended ([isApplying]) the Apply button is disabled, so that any
    number of clicks calls nothing, sends nothing and reports nothing.
    There is no AlreadyInProgress outcome. *)
Theorem one_submission_in_flight (events : list Event) (clicks : list Clock) (a a' : App) :
  atMostOneInFlight a ->
  run events a = Normal a' ->
  (length (inFlight a') <= 1)%nat
  /\ (inFlight a' <> [] -> isApplying (ui a') = true)
  /\ (isApplying (ui a') = true -> run (List.map ApplyClick clicks) a' = Normal a').
Proof.
  intros Hinv Hrun. pose proof (run_atMostOneInFlight events a a' Hinv Hrun) as Hinv'.
  split; [| split].
  - destruct Hinv' as [[_ ->] | [_ [p ->]]]; cbn; lia.
  - destruct Hinv' as [[_ ->] | [Hbusy _]]; [congruence | now intros _].
  - apply clicks_while_applying.
Qed.

(** An instance: the puzzle is solved, a scale is moved and the button is
    clicked; one request is sent, and two more clicks change nothing. *)
Lemma one_submission_in_flight_witness :
  atMostOneInFlight Scenario.mounted
  /\ exists a',
       run (Scenario.solvePuzzle
            ++ [ScaleChange "cpu_seconds_total" 2; ApplyClick (frozen (Scenario.t0 + 5000))])
         Scenario.mounted = Normal a'
       /\ length (sent a') = 1%nat
       /\ isApplying (ui a') = true
       /\ (length (inFlight a') <= 1)%nat
       /\ run (List.map ApplyClick [frozen (Scenario.t0 + 5050); frozen (Scenario.t0 + 5100)])
            a' = Normal a'.
Proof.
  assert (Hinv : atMostOneInFlight Scenario.mounted) by (left; split; reflexivity).
  split; [exact Hinv |].
  destruct (run (Scenario.solvePuzzle
                 ++ [ScaleChange "cpu_seconds_total" 2; ApplyClick (frozen (Scenario.t0 + 5000))])
              Scenario.mounted) as [a' | |] eqn:E.
  2, 3: vm_compute in E; discriminate.
  exists a'.
  assert (Hsent : length (sent a') = 1%nat /\ isApplying (ui a') = true).
  { assert (H : bind (run (Scenario.solvePuzzle
                            ++ [ScaleChange "cpu_seconds_total" 2;
                                ApplyClick (frozen (Scenario.t0 + 5000))]) Scenario.mounted)
                  (fun a => Normal (length (sent a), isApplying (ui a)))
                = Normal (1%nat, true)) by (vm_compute; reflexivity).
    rewrite E in H. cbn [bind] in H. injection H as H1 H2. now split. }
  destruct Hsent as [Hsent Hbusy].
  destruct (one_submission_in_flight _ [frozen (Scenario.t0 + 5050); frozen (Scenario.t0 + 5100)]
              _ _ Hinv E)
    as (Hlen & _ & Hclicks).
  repeat split; try assumption. now apply Hclicks.
Defined.

End InFlightClaims.

(** ** The wording of a rate-limit rejection *)

Section WordingClaims.
Import Js Facts MetricsSimulator.

Lemma snapshot_of_greatest now recentApplies m :
  greatest m recentApplies ->
  rateLimitSnapshot now recentApplies
  = {| isLimited := (now - m <? 10 * 1000) || (Z.of_nat (length recentApplies) >=? 3);
       remainingTime := if now - m <? 10 * 1000
                        then Math_ceil_div (10 * 1000 - (now - m)) 1000 else 0;
       appliesInLastMinute := Z.of_nat (length recentApplies) |}.
Proof.
  intros Hm. apply maximum_greatest in Hm.
  destruct recentApplies as [| t ts]; [discriminate |].
  rewrite Math_max_maximum in Hm. injection Hm as Hm.
  unfold rateLimitSnapshot, RECOMMENDED_COOLDOWN, APPLY_LIMIT_PER_15MINUTES.
  now rewrite Hm.
Qed.

Lemma snapshot_quota now recentApplies :
  quotaActive recentApplies -> isLimited (rateLimitSnapshot now recentApplies) = true.
Proof.
  unfold quotaActive, rateLimitSnapshot, APPLY_LIMIT_PER_15MINUTES. intros Hq.
  cbn [isLimited]. destruct (Z.geb_spec (Z.of_nat (length recentApplies)) 3); [| lia].
  apply orb_true_r.
Qed.

Lemma quota_wording_text :
  Text ("Rate limit exceeded. You've used all "
        +:+ String_of_number APPLY_LIMIT_PER_15MINUTES
        +:+ " applies in the last 15 minutes.") = quotaWording.
Proof. reflexivity. Qed.

(** C6: when the cooldown gate and the quota gate are both active, a
    verified call of [applyChanges] is rejected with the cooldown wording
    ("Please wait N seconds before applying again.", N the remaining
    seconds, positive) and the banner is titled "Cooldown Active";
    [isLimited] holds, and the call sends nothing, as soon as either gate
    is active; and the quota wording is surfaced exactly when [isLimited]
    holds with no remaining time. *)
Theorem cooldown_wording_takes_precedence
    (s : State) (now : Z) (called : Clock) (recentApplies : list Z) :
  rateLimitInfo s = rateLimitSnapshot now recentApplies ->
  isCaptchaVerified s = true ->
  (cooldownActive now recentApplies \/ quotaActive recentApplies ->
   isLimited (rateLimitInfo s) = true /\ (applyChanges_begin called s).2 = None)
  /\ (cooldownActive now recentApplies /\ quotaActive recentApplies ->
      exists seconds,
        0 < seconds
        /\ remainingTime (rateLimitInfo s) = seconds
        /\ applyChanges_begin called s
           = (setLastError (Some (cooldownWording seconds)) s, None)
        /\ RateLimitManager.bannerTitle (rateLimitInfo s) = Some "Cooldown Active"%string)
  /\ (forall s0 called0,
        lastError (applyChanges_begin called0 s0).1 = Some quotaWording
        <-> isCaptchaVerified s0 = true
            /\ isLimited (rateLimitInfo s0) = true
            /\ remainingTime (rateLimitInfo s0) <= 0).
Proof.
  intros Hinfo Hverified. split; [| split].
  - intros Hgate.
    assert (Hlim : isLimited (rateLimitInfo s) = true).
    { rewrite Hinfo. destruct Hgate as [(m & Hm & Hlt) | Hq].
      - rewrite (snapshot_of_greatest _ _ _ Hm). cbn [isLimited].
        destruct (Z.ltb_spec (now - m) (10 * 1000)); [reflexivity | lia].
      - now apply snapshot_quota. }
    split; [exact Hlim |].
    unfold applyChanges_begin. rewrite Hverified, Hlim. cbn [negb].
    now destruct (remainingTime (rateLimitInfo s) >? 0).
  - intros [(m & Hm & Hlt) Hq].
    pose proof (Math_ceil_div_spec (10 * 1000 - (now - m)) 1000 ltac:(lia)) as Hc.
    assert (Hrem : remainingTime (rateLimitInfo s)
                   = Math_ceil_div (10 * 1000 - (now - m)) 1000).
    { rewrite Hinfo, (snapshot_of_greatest _ _ _ Hm). cbn [remainingTime].
      destruct (Z.ltb_spec (now - m) (10 * 1000)); [reflexivity | lia]. }
    assert (Hlim : isLimited (rateLimitInfo s) = true)
      by (rewrite Hinfo; now apply snapshot_quota).
    exists (Math_ceil_div (10 * 1000 - (now - m)) 1000).
    split; [lia |]. split; [exact Hrem |].
    assert (Hpos : (remainingTime (rateLimitInfo s) >? 0) = true)
      by (rewrite Hrem; destruct (Z.gtb_spec (Math_ceil_div (10 * 1000 - (now - m)) 1000) 0);
          [reflexivity | lia]).
    split.
    + unfold applyChanges_begin. rewrite Hverified, Hlim. cbn [negb].
      rewrite Hpos, Hrem. reflexivity.
    + unfold RateLimitManager.bannerTitle. now rewrite Hlim, Hpos.
  - intros s0 called0. unfold applyChanges_begin.
    destruct (isCaptchaVerified s0); cbn [negb].
    + destruct (isLimited (rateLimitInfo s0)).
      * destruct (Z.gtb_spec (remainingTime (rateLimitInfo s0)) 0) as [Hpos | Hle];
          cbn [fst lastError setLastError].
        -- split; [intros [= H] | intros (_ & _ & H); lia].
        -- rewrite quota_wording_text. split; [intros _; repeat split; lia | reflexivity].
      * destruct (computeNewAppliedMetrics (metrics s0) (appliedMetrics s0));
          cbn; (split; [discriminate | intros (_ & [=] & _)]).
    + cbn. split; [discriminate | intros ([=] & _)].
Qed.

(** An instance: applies at 0 s, 1 s and 2 s, a fourth call at 3 s: both
    gates are active and the call is told to wait 9 seconds. *)
Lemma cooldown_wording_takes_precedence_witness :
  cooldownActive 3000 [0; 1000; 2000] /\ quotaActive [0; 1000; 2000]
  /\ applyChanges_begin (frozen 3000)
       (setRateLimitInfo (rateLimitSnapshot 3000 [0; 1000; 2000])
          Scenario.freshReady)
     = (setLastError (Some (Text "Please wait 9 seconds before applying again."))
          (setRateLimitInfo (rateLimitSnapshot 3000 [0; 1000; 2000]) Scenario.freshReady),
        None).
Proof.
  assert (Hc : cooldownActive 3000 [0; 1000; 2000]).
  { exists 2000. split; [| lia]. split; [cbn; tauto |].
    repeat constructor; lia. }
  assert (Hq : quotaActive [0; 1000; 2000]) by (unfold quotaActive; cbn; lia).
  split; [exact Hc |]. split; [exact Hq |].
  destruct (cooldown_wording_takes_precedence
              (setRateLimitInfo (rateLimitSnapshot 3000 [0; 1000; 2000]) Scenario.freshReady)
              3000 (frozen 3000) [0; 1000; 2000] eq_refl eq_refl)
    as (_ & H & _).
  destruct (H (conj Hc Hq)) as (seconds & _ & Hrem & Hbegin & _).
  rewrite Hbegin. rewrite <- Hrem. reflexivity.
Defined.

End WordingClaims.

(** ** The verification puzzle *)

Section PuzzleClaims.
Import Facts SlidingCaptcha.
#[local] Open Scope Q_scope.

Lemma checkVerification_iff sliderPos s :
  checkVerification sliderPos s = true
  <-> Qabs (sliderCenter sliderPos - targetCenter s) <= tolerance.
Proof. unfold checkVerification. apply Qle_bool_iff. Qed.

(** C7: the puzzle is solved exactly when the centres of the handle and
    of the target are at most [tolerance] (5) apart, the bound included:
    at a distance of exactly 5 it is solved, at 6 it is not; and a drag
    is classified by this test on the clamped handle position. *)
Theorem closed_tolerance_interval (sliderPos clientX rectLeft : Q) (s : State) :
  (checkVerification sliderPos s = true
   <-> Qabs (sliderCenter sliderPos - targetCenter s) <= tolerance)
  /\ (Qabs (sliderCenter sliderPos - targetCenter s) == tolerance ->
      checkVerification sliderPos s = true)
  /\ (Qabs (sliderCenter sliderPos - targetCenter s) == tolerance + 1 ->
      checkVerification sliderPos s = false)
  /\ (isDragging s = true -> isVerified s = false ->
      let newPosition :=
        Qmax 0 (Qmin (containerWidth s - HANDLE_WIDTH) (clientX - rectLeft - HANDLE_WIDTH / 2)) in
      isVerified (handleMouseMove false clientX rectLeft s).1
      = checkVerification newPosition s
      /\ (handleMouseMove false clientX rectLeft s).2
         = (if checkVerification newPosition s then Some true else None)).
Proof.
  split; [apply checkVerification_iff |]. split; [| split].
  - intros H. apply checkVerification_iff. rewrite H. apply Qle_refl.
  - intros H. destruct (checkVerification sliderPos s) eqn:E; [| reflexivity].
    apply checkVerification_iff in E. rewrite H in E.
    unfold tolerance in E. lra.
  - intros Hdrag Hnot newPosition. unfold handleMouseMove.
    rewrite Hdrag, Hnot. cbn [negb orb]. fold newPosition.
    destruct (checkVerification newPosition s); cbn [fst snd isVerified];
      split; try reflexivity; exact Hnot.
Qed.

(** An instance: the target at 135 (centre 151); the handle at 136 and
    at 126 is 5 away, at 137 and at 125 it is 6 away. *)
Lemma closed_tolerance_interval_witness :
  checkVerification 136 (generateNewPuzzle 0.5 initial).1 = true
  /\ checkVerification 137 (generateNewPuzzle 0.5 initial).1 = false
  /\ checkVerification 126 (generateNewPuzzle 0.5 initial).1 = true
  /\ checkVerification 125 (generateNewPuzzle 0.5 initial).1 = false.
Proof.
  split; [| split; [| split]].
  - destruct (closed_tolerance_interval 136 0 0 (generateNewPuzzle 0.5 initial).1)
      as (_ & Hon & _ & _).
    apply Hon. vm_compute. reflexivity.
  - destruct (closed_tolerance_interval 137 0 0 (generateNewPuzzle 0.5 initial).1)
      as (_ & _ & Hoff & _).
    apply Hoff. vm_compute. reflexivity.
  - destruct (closed_tolerance_interval 126 0 0 (generateNewPuzzle 0.5 initial).1)
      as (_ & Hon & _ & _).
    apply Hon. vm_compute. reflexivity.
  - destruct (closed_tolerance_interval 125 0 0 (generateNewPuzzle 0.5 initial).1)
      as (_ & _ & Hoff & _).
    apply Hoff. vm_compute. reflexivity.
Defined.


(** On mount the target is drawn at the initial width, whatever width is
    measured afterwards: in a container 540 px wide (a track of 500) a draw
    of 0.1 puts the target at 63. *)
Remark mount_draws_at_initial_width random width :
  puzzlePosition (mount random width).1 == random * 180 + 45
  /\ containerWidth (mount random width).1 == width - 40
  /\ puzzlePosition (mount 0.1 540).1 == 63
  /\ containerWidth (mount 0.1 540).1 == 500.
Proof.
  unfold mount, generateNewPuzzle, updateWidth, initial.
  cbn [fst puzzlePosition containerWidth]. repeat split; try reflexivity. ring.
Qed.

Lemma listenersEffect_fields disabled before after :
  isVerified (listenersEffect disabled before after) = isVerified after
  /\ sliderPosition (listenersEffect disabled before after) = sliderPosition after
  /\ isDragging (listenersEffect disabled before after) = isDragging after
  /\ puzzlePosition (listenersEffect disabled before after) = puzzlePosition after
  /\ containerWidth (listenersEffect disabled before after) = containerWidth after.
Proof. unfold listenersEffect. now destruct (_ && _ && _)%bool. Qed.




End PuzzleClaims.

(** ** Applied values and their base *)

Section MetricClaims.
Import Js Facts MetricsSimulator.

(** C10, as stated, fails in double precision: after the slider of
    cpu_seconds_total was applied at 1.7 and then back at 1, the applied
    value is 1540.2499999999998 and not the initial 1540.25. *)
Lemma base_value_drifts :
  bind (run Scenario.scaleAndBack Scenario.mounted)
    (fun a => Normal (length (sent a),
                      option_map (fun m => (value m, scale m))
                        (appliedMetrics (ui a) !! "cpu_seconds_total")))
  = Normal (2%nat, Some (1540.2499999999998, 1)%float)
  /\ PrimFloat.eqb 1540.2499999999998 1540.25 = false
  /\ baseValue "cpu_seconds_total" = Some 1540.25%float.
Proof. repeat split; vm_compute; reflexivity. Qed.

Lemma baseValue_cases key base :
  baseValue key = Some base ->
  (base = 0.250 \/ base = 1540.25 \/ base = 536870912)%float.
Proof.
  unfold baseValue, initialMetrics.
  rewrite !lookup_insert, lookup_empty.
  repeat case_decide; cbn; intros [= <-]; tauto.
Qed.

(** On the preset scales the products and quotients of the three base
    values are exact. *)
Lemma preset_rescale_exact base applied requested :
  (base = 0.250 \/ base = 1540.25 \/ base = 536870912)%float ->
  In applied presetScales -> In requested presetScales ->
  (base * applied / applied * requested = base * requested)%float
  /\ (base * 1 = base)%float.
Proof.
  unfold presetScales. cbn [In].
  intros [-> | [-> | ->]] [<- | [<- | [<- | [<- | []]]]] [<- | [<- | [<- | [<- | []]]]];
    split; vm_compute; reflexivity.
Qed.

Lemma onBase_initial : onBase initialMetrics /\ presetOnly initialMetrics.
Proof.
  split.
  - intros key a Ha. unfold baseValue. rewrite Ha. cbn. exists (value a).
    split; [reflexivity |].
    revert Ha. unfold initialMetrics. rewrite !lookup_insert, lookup_empty.
    repeat case_decide; intros [= <-]; cbn; split; try tauto; vm_compute; reflexivity.
  - intros key m. unfold initialMetrics. rewrite !lookup_insert, lookup_empty.
    repeat case_decide; intros [= <-]; cbn; tauto.
Qed.

Lemma computeNewAppliedMetrics_lookup current applied new key m :
  computeNewAppliedMetrics current applied = Some new ->
  current !! key = Some m ->
  exists a, applied !! key = Some a
    /\ new !! key
       = Some {| value := (value a / scale a * scale m)%float; scale := scale m;
                 unit := unit m; color := color m |}.
Proof.
  unfold computeNewAppliedMetrics. case_bool_decide as Hdom; [| discriminate].
  intros [= <-] Hm.
  assert (Hin : key ∈ dom applied) by (apply Hdom, elem_of_dom; eauto).
  apply elem_of_dom in Hin as [a Ha]. exists a. split; [exact Ha |].
  rewrite map_lookup_imap, Hm. cbn. unfold rescale. now rewrite Ha.
Qed.

Lemma computeNewAppliedMetrics_lookup_inv current applied new key m' :
  computeNewAppliedMetrics current applied = Some new ->
  new !! key = Some m' ->
  exists m, current !! key = Some m.
Proof.
  unfold computeNewAppliedMetrics. case_bool_decide as Hdom; [| discriminate].
  intros [= <-]. rewrite map_lookup_imap.
  destruct (current !! key) as [m |]; [eauto | discriminate].
Qed.

Lemma applyChanges_begin_pending now s p :
  (applyChanges_begin now s).2 = Some p ->
  computeNewAppliedMetrics (metrics s) (appliedMetrics s) = Some (newAppliedMetrics p)
  /\ localStorage (applyChanges_begin now s).1 = localStorage s.
Proof.
  intros H. split; [| apply applyChanges_begin_store]. revert H.
  unfold applyChanges_begin.
  destruct (isCaptchaVerified s); cbn [negb]; [| discriminate].
  destruct (isLimited (rateLimitInfo s)).
  - destruct (remainingTime (rateLimitInfo s) >? 0); discriminate.
  - destruct (computeNewAppliedMetrics (metrics s) (appliedMetrics s)); [| discriminate].
    now intros [= <-].
Qed.

(** C10 (amended): every successful apply sets each applied value to
    (applied value / applied scale) * requested scale, in double
    precision and in this order, and the applied scale to the requested
    one.  While the scales are those of the preset buttons (0.5, 1, 2, 5)
    this keeps every applied value exactly at its base value (0.250,
    1540.25, 536870912) times the applied scale, from the first render
    on, and applying scale 1 restores the base value exactly. *)
Theorem preset_scales_keep_base
    (s : State) (now : Clock) (p : Pending) (env : Settlement) (ledger : list Z) :
  (applyChanges_begin now s).2 = Some p ->
  succeeded env = true ->
  storedLedger s = Normal ledger ->
  onBase initialMetrics
  /\ exists s',
       applyChanges_resume p env (applyChanges_begin now s).1 = Normal s'
       /\ (forall key m, metrics s !! key = Some m ->
             exists a, appliedMetrics s !! key = Some a
               /\ appliedMetrics s' !! key
                  = Some {| value := (value a / scale a * scale m)%float;
                            scale := scale m; unit := unit m; color := color m |})
       /\ (forall key, metrics s !! key = None -> appliedMetrics s' !! key = None)
       /\ (onBase (appliedMetrics s) -> presetOnly (metrics s) ->
           onBase (appliedMetrics s')
           /\ (forall key m a',
                 metrics s !! key = Some m -> appliedMetrics s' !! key = Some a' ->
                 scale m = 1%float -> baseValue key = Some (value a'))).
Proof.
  intros Hp Hok Hread. split; [apply onBase_initial |].
  destruct (applyChanges_begin_pending now s p Hp) as [Hnew Hstore].
  assert (Hread' : storedLedger (applyChanges_begin now s).1 = Normal ledger)
    by (now rewrite (storedLedger_same_store _ _ Hstore)).
  destruct (applyChanges_resume_succeeded p env _ ledger Hok Hread')
    as (s' & Hs' & _ & _ & Happlied & _).
  exists s'. split; [exact Hs' |]. rewrite Happlied.
  split; [| split].
  - intros key m Hm.
    destruct (computeNewAppliedMetrics_lookup _ _ _ key m Hnew Hm) as (a & Ha & Hn).
    exists a. split; [exact Ha | exact Hn].
  - intros key Hnone. destruct (newAppliedMetrics p !! key) as [m' |] eqn:Hm'; [| reflexivity].
    destruct (computeNewAppliedMetrics_lookup_inv _ _ _ key m' Hnew Hm') as [m Hm]. congruence.
  - intros Hbase Hpreset.
    assert (Hkey : forall key m, metrics s !! key = Some m ->
              exists base, baseValue key = Some base
                /\ newAppliedMetrics p !! key
                   = Some {| value := (base * scale m)%float; scale := scale m;
                             unit := unit m; color := color m |}
                /\ (base * 1 = base)%float).
    { intros key m Hm.
      destruct (computeNewAppliedMetrics_lookup _ _ _ key m Hnew Hm) as (a & Ha & Hn).
      destruct (Hbase key a Ha) as (base & Hb & Hsa & Hva).
      destruct (preset_rescale_exact base (scale a) (scale m)
                  (baseValue_cases key base Hb) Hsa (Hpreset key m Hm)) as [Hexact Hone].
      exists base. split; [exact Hb |]. rewrite Hn, Hva, Hexact. now split. }
    split.
    + intros key a' Ha'.
      destruct (computeNewAppliedMetrics_lookup_inv _ _ _ key a' Hnew Ha') as [m Hm].
      destruct (Hkey key m Hm) as (base & Hb & Hn & _).
      rewrite Hn in Ha'. injection Ha' as <-. exists base. cbn [value scale].
      split; [exact Hb |]. split; [now apply (Hpreset key m) | reflexivity].
    + intros key m a' Hm Ha' Hone. destruct (Hkey key m Hm) as (base & Hb & Hn & Hmul).
      rewrite Hn in Ha'. injection Ha' as <-. cbn [value]. now rewrite Hone, Hmul.
Qed.

(** Two instances.  cpu_seconds_total applied at scale 2 from the first
    render stays on its base.  Applied at scale 0.3 after scale 1.7 it
    becomes (2618.4249999999997 / 1.7) * 0.3 = 462.07499999999993, which
    is not (2618.4249999999997 * 0.3) / 1.7 = 462.07499999999999: the
    quotient is taken first. *)
Lemma preset_scales_keep_base_witness :
  (exists s',
     applyChanges_resume (Scenario.pendingOf Scenario.t0 Scenario.freshReady)
       (Scenario.accepted Scenario.t0) Scenario.freshSubmitting = Normal s'
     /\ onBase (appliedMetrics s'))
  /\ (exists s',
        applyChanges_resume (Scenario.pendingOf Scenario.t0 Scenario.driftedReady)
          (Scenario.accepted Scenario.t0)
          (applyChanges_begin (frozen Scenario.t0) Scenario.driftedReady).1 = Normal s'
        /\ value <$> appliedMetrics s' !! "cpu_seconds_total"%string
           = Some 462.07499999999993%float
        /\ (2618.4249999999997 * 0.3 / 1.7)%float = 462.07499999999999%float
        /\ PrimFloat.eqb 462.07499999999993 462.07499999999999 = false).
Proof.
  split.
  - destruct (preset_scales_keep_base Scenario.freshReady (frozen Scenario.t0)
                (Scenario.pendingOf Scenario.t0 Scenario.freshReady)
                (Scenario.accepted Scenario.t0) [])
      as (_ & s' & Hs' & _ & _ & Hpreset).
    + vm_compute. reflexivity.
    + reflexivity.
    + vm_compute. reflexivity.
    + exists s'. split; [exact Hs' |]. apply Hpreset; [apply onBase_initial |].
      intros key m. unfold Scenario.freshReady, handleScaleChange.
      cbn [metrics setMetrics Scenario.verified setIsCaptchaVerified Scenario.freshPage
           firstRender].
      rewrite lookup_alter. case_decide as Hk.
      * destruct (initialMetrics !! "cpu_seconds_total"%string); cbn; [| discriminate].
        intros [= <-]. cbn. tauto.
      * apply onBase_initial.
  - destruct (preset_scales_keep_base Scenario.driftedReady (frozen Scenario.t0)
                (Scenario.pendingOf Scenario.t0 Scenario.driftedReady)
                (Scenario.accepted Scenario.t0) [])
      as (_ & s' & Hs' & Hformula & _).
    + vm_compute. reflexivity.
    + reflexivity.
    + vm_compute. reflexivity.
    + exists s'. split; [exact Hs' |].
      destruct (Hformula "cpu_seconds_total"%string
                  {| value := 1540.25; scale := 0.3; unit := "s"; color := "text-red-500" |})
        as (a & Ha & Hnew); [vm_compute; reflexivity |].
      rewrite Hnew. vm_compute in Ha. injection Ha as <-.
      split; [vm_compute; reflexivity |]. split; vm_compute; reflexivity.
Defined.

End MetricClaims.

(** ** The ledger over the life of the page *)

Section LedgerExtras.
Import Js Facts MetricsSimulator.

Lemma window_length now d l : (length (window now d l) <= length l)%nat.
Proof. unfold window. apply List.filter_length_le. Qed.

Lemma window_later now now' d l :
  now <= now' -> window now' d (window now d l) = window now' d l.
Proof.
  intros Hle. unfold window. induction l as [| t l IH]; cbn [List.filter]; [reflexivity |].
  destruct (Z.ltb_spec (now - t) d) as [Hin | Hout]; cbn [List.filter]; rewrite IH.
  - reflexivity.
  - destruct (Z.ltb_spec (now' - t) d); [lia | reflexivity].
Qed.

Lemma window_all now d l :
  Forall (fun t => now - t < d) l -> window now d l = l.
Proof.
  unfold window. induction 1 as [| t l Ht _ IH]; cbn [List.filter]; [reflexivity |].
  destruct (Z.ltb_spec (now - t) d); [now rewrite IH | lia].
Qed.

(** X1: What the page writes it reads back, pruned to the window; the other
    keys of localStorage are not touched. *)
Theorem ledger_write_read (recentApplies : list Z) (ls : gmap string string)
    (now : Z) (key : string) :
  readRecentApplies (now - 15 * 60 * 1000) (writeRecentApplies recentApplies ls)
  = Normal (window now fifteenMinutes recentApplies)
  /\ (Forall (fun t => now - t < fifteenMinutes) recentApplies ->
      readRecentApplies (now - 15 * 60 * 1000) (writeRecentApplies recentApplies ls)
      = Normal recentApplies)
  /\ (key <> ledgerKey -> writeRecentApplies recentApplies ls !! key = ls !! key).
Proof.
  assert (H : readRecentApplies (now - 15 * 60 * 1000) (writeRecentApplies recentApplies ls)
              = Normal (window now fifteenMinutes recentApplies)).
  { apply readRecentApplies_ok. rewrite storedLedgerText_written. apply JSON_parse_stringify. }
  split; [exact H |]. split.
  - intros Hall. now rewrite H, window_all.
  - intros Hne. unfold writeRecentApplies. now rewrite lookup_insert_ne.
Qed.

(** X2: Two evaluations in a row, the second not earlier than the first,
    leave what the second alone leaves. *)
Theorem ticks_compose (s : State) (now now' : Z) (ledger : list Z) :
  storedLedger s = Normal ledger ->
  now <= now' ->
  bind (updateRateLimitInfo now s) (updateRateLimitInfo now') = updateRateLimitInfo now' s.
Proof.
  intros Hread Hle. unfold storedLedger in Hread.
  rewrite (updateRateLimitInfo_ok now _ _ Hread), (updateRateLimitInfo_ok now' _ _ Hread).
  cbn [bind]. erewrite updateRateLimitInfo_ok.
  2:{ cbn [localStorage setRateLimitInfo setLocalStorage].
      rewrite storedLedgerText_written. apply JSON_parse_stringify. }
  rewrite (window_later _ _ _ _ Hle).
  unfold setRateLimitInfo, setLocalStorage, writeRecentApplies. cbn.
  now rewrite insert_insert_eq.
Qed.

(** An instance: a tick at [t0 + 4000] followed by one a second later. *)
Lemma ticks_compose_witness :
  bind (updateRateLimitInfo (Scenario.t0 + 4000) Scenario.oneApplyPage)
    (updateRateLimitInfo (Scenario.t0 + 5000))
  = updateRateLimitInfo (Scenario.t0 + 5000) Scenario.oneApplyPage.
Proof.
  apply (ticks_compose Scenario.oneApplyPage (Scenario.t0 + 4000) (Scenario.t0 + 5000)
           [Scenario.t0]).
  - vm_compute. reflexivity.
  - vm_compute. discriminate.
Defined.

(** X3: The snapshot is within bounds: the remaining time is never negative,
    it is at most the cooldown of 10 seconds when no entry lies in the
    future (and the clock is not before the epoch), and a snapshot that is
    not limited shows no remaining time and fewer than three applies. *)
Theorem snapshot_bounds (now : Z) (recentApplies : list Z) :
  0 <= remainingTime (rateLimitSnapshot now recentApplies)
  /\ (0 <= now -> Forall (fun t => t <= now) recentApplies ->
      remainingTime (rateLimitSnapshot now recentApplies) <= RECOMMENDED_COOLDOWN)
  /\ (isLimited (rateLimitSnapshot now recentApplies) = false ->
      remainingTime (rateLimitSnapshot now recentApplies) = 0
      /\ appliesInLastMinute (rateLimitSnapshot now recentApplies)
         < APPLY_LIMIT_PER_15MINUTES).
Proof.
  unfold rateLimitSnapshot, RECOMMENDED_COOLDOWN, APPLY_LIMIT_PER_15MINUTES.
  cbn [isLimited remainingTime appliesInLastMinute].
  set (last := match recentApplies with [] => 0 | t :: ts => Math_max t ts end).
  pose proof (Math_ceil_div_spec (10 * 1000 - (now - last)) 1000 ltac:(lia)) as Hc.
  split; [| split].
  - destruct (Z.ltb_spec (now - last) (10 * 1000)); lia.
  - intros Hnow Hall.
    assert (Hlast : last <= now).
    { subst last. destruct recentApplies as [| t ts]; [lia |].
      pose proof (Math_max_maximum t ts) as Hm. apply maximum_greatest in Hm as [Hin _].
      rewrite List.Forall_forall in Hall. now apply Hall. }
    destruct (Z.ltb_spec (now - last) (10 * 1000)); lia.
  - intros Hlim. apply orb_false_iff in Hlim as [Hcool Hquota]. rewrite Hcool.
    split; [reflexivity |].
    destruct (Z.geb_spec (Z.of_nat (length recentApplies)) 3); [discriminate | lia].
Qed.

(** An instance: two seconds after the last of two applies. *)
Lemma snapshot_bounds_witness :
  remainingTime (rateLimitSnapshot 3000 [0; 1000]) <= RECOMMENDED_COOLDOWN.
Proof.
  destruct (snapshot_bounds 3000 [0; 1000]) as (_ & H & _).
  apply H; [lia |]. repeat constructor; lia.
Defined.

(** *** The quota over every run *)

Lemma applyChanges_begin_enabled now s :
  isCaptchaVerified s = true ->
  isLimited (rateLimitInfo s) = false ->
  applyChanges_begin now s
  = match computeNewAppliedMetrics (metrics s) (appliedMetrics s) with
    | Some new =>
        (setLastError None (setIsApplying true s),
         Some {| newAppliedMetrics := new;
                 request := {| metricsPayload := metricsPayloadOf now new;
                               timestamp := bodyNow now |} |})
    | None => (finally (catch TypeError (setLastError None (setIsApplying true s))), None)
    end.
Proof. intros Hv Hl. unfold applyChanges_begin. now rewrite Hv, Hl. Qed.

Lemma isApplyDisabled_false s :
  isApplyDisabled s = false ->
  hasChanges s = true /\ isApplying s = false
  /\ isCaptchaVerified s = true /\ isLimited (rateLimitInfo s) = false.
Proof.
  unfold isApplyDisabled. intros H.
  apply orb_false_iff in H as [H Hl]. apply orb_false_iff in H as [H Hv].
  apply orb_false_iff in H as [Hc Ha].
  repeat split; try assumption; [now destruct (hasChanges s) | now destruct (isCaptchaVerified s)].
Qed.

Lemma step_withinQuota e a :
  withinQuota a -> exists a', step e a = Normal a' /\ withinQuota a'.
Proof.
  intros (ledger & Hread & Hcount & Hlim & Hlen & Hflight).
  destruct e as [now | | metricName newScale | | now | env | ce]; cbn [step].
  - unfold storedLedger in Hread. rewrite (updateRateLimitInfo_ok now _ _ Hread).
    cbn [tryCatch]. eexists. split; [reflexivity |].
    exists (window now fifteenMinutes ledger).
    pose proof (window_length now fifteenMinutes ledger) as Hw.
    cbn [ui withUi inFlight]. unfold storedLedger.
    cbn [localStorage rateLimitInfo isApplying setRateLimitInfo setLocalStorage].
    rewrite storedLedgerText_written, JSON_parse_stringify.
    split; [reflexivity |]. split; [reflexivity |]. split.
    { intros H3. apply snapshot_quota. unfold quotaActive. lia. }
    split; [lia |].
    destruct Hflight as [Hidle | (Hbusy & Hl2 & Hp)]; [now left | right].
    split; [exact Hbusy |]. split; [lia | exact Hp].
  - eexists. split; [reflexivity |]. exists ledger. cbn [ui withUi inFlight].
    unfold storedLedger. rewrite countdown_store, countdown_isApplying.
    unfold countdown.
    destruct (remainingTime (rateLimitInfo (ui a)) >? 0);
      cbn [rateLimitInfo setRateLimitInfo appliesInLastMinute isLimited];
      repeat split; assumption.
  - eexists. split; [reflexivity |]. exists ledger. repeat split; assumption.
  - eexists. split; [reflexivity |].
    destruct (clickResetAll_cases a) as [-> | ->]; exists ledger; repeat split; assumption.
  - eexists. split; [reflexivity |]. unfold clickApply.
    destruct (isApplyDisabled (ui a)) eqn:Hdis.
    { exists ledger. repeat split; assumption. }
    apply isApplyDisabled_false in Hdis as (_ & Hidle & Hv & Hl).
    destruct Hflight as [[_ Hnone] | [Hbusy _]]; [| congruence].
    assert (Hl2 : (length ledger <= 2)%nat).
    { destruct (le_lt_dec 3 (length ledger)) as [H3 | H3]; [| lia].
      rewrite (Hlim H3) in Hl. discriminate. }
    unfold callApplyChanges. rewrite (applyChanges_begin_enabled _ _ Hv Hl).
    destruct (computeNewAppliedMetrics (metrics (ui a)) (appliedMetrics (ui a))) as [new |];
      exists ledger; cbn [ui inFlight]; (split; [exact Hread |]);
      (split; [exact Hcount |]); (split; [exact Hlim |]); (split; [exact Hlen |]).
    + right. split; [reflexivity |]. split; [exact Hl2 |]. rewrite Hnone. now eexists.
    + left. split; [reflexivity | exact Hnone].
  - destruct Hflight as [[Hidle Hnone] | (Hbusy & Hl2 & p & Hone)].
    { rewrite Hnone. eexists. split; [reflexivity |]. exists ledger.
      repeat split; try assumption. left. now split. }
    rewrite Hone. destruct (succeeded env) eqn:Hok.
    + destruct (applyChanges_resume_succeeded p env (ui a) ledger Hok Hread)
        as (s' & Hs' & Hstore & Hinfo & _ & _ & _ & _ & Happlying & _).
      rewrite Hs'. cbn [bind]. eexists. split; [reflexivity |].
      set (kept := window (nowEvaluated env) fifteenMinutes
                     (window (nowApplied env) fifteenMinutes ledger ++ [nowApplied env])) in *.
      exists kept. cbn [ui inFlight].
      assert (Hk : (length kept <= 3)%nat).
      { subst kept.
        pose proof (window_length (nowEvaluated env) fifteenMinutes
                      (window (nowApplied env) fifteenMinutes ledger ++ [nowApplied env])) as H1.
        pose proof (window_length (nowApplied env) fifteenMinutes ledger) as H2.
        rewrite length_app in H1. cbn [length] in H1. lia. }
      split.
      { unfold storedLedger. rewrite Hstore.
        change (<[ledgerKey := JSON_stringify ?l]> ?ls) with (writeRecentApplies l ls).
        now rewrite storedLedgerText_written, JSON_parse_stringify. }
      rewrite Hinfo. split; [reflexivity |]. split.
      { intros H3. apply snapshot_quota. unfold quotaActive. lia. }
      split; [exact Hk |]. left. now split.
    + rewrite (applyChanges_resume_failed _ _ _ Hok). cbn [bind].
      eexists. split; [reflexivity |]. exists ledger. cbn [ui inFlight].
      repeat split; try assumption. left. now split.
  - eexists. split; [reflexivity |]. exists ledger. cbn [ui withUi inFlight].
    unfold storedLedger. rewrite onCaptcha_store, onCaptcha_isApplying.
    unfold onCaptcha.
    destruct (SlidingCaptcha.handle (isApplying (ui a)) ce (captcha (ui a))) as [c [b |]];
      repeat split; assumption.
Qed.

Lemma mountPage_readable ls now nowEvaluated random offsetWidth ledger :
  JSON_parse (storedLedgerText ls) = Normal ledger ->
  mountPage ls now nowEvaluated random offsetWidth
  = Normal
      {| ui := setRateLimitInfo
                 (rateLimitSnapshot nowEvaluated (window nowEvaluated fifteenMinutes ledger))
                 (setLocalStorage
                    (writeRecentApplies (window nowEvaluated fifteenMinutes ledger) ls)
                    (remountCaptcha random offsetWidth (firstRender ls now)));
         inFlight := []; sent := [] |}.
Proof.
  intros Hread. unfold mountPage.
  erewrite updateRateLimitInfo_ok; [reflexivity |].
  unfold remountCaptcha, SlidingCaptcha.mount, SlidingCaptcha.generateNewPuzzle. exact Hread.
Qed.

Lemma run_withinQuota events a :
  withinQuota a -> exists a', run events a = Normal a' /\ withinQuota a'.
Proof.
  revert a. induction events as [| e events IH]; intros a Hstart; cbn [run].
  - exists a. now split.
  - destruct (step_withinQuota e a Hstart) as (a1 & Hstep & H1).
    rewrite Hstep. cbn [bind]. now apply IH.
Qed.

(** X4: The quota holds over the whole life of a page: mounted on a ledger of
    at most three timestamps (a browser that stored nothing, or the ledger
    a previous page left), whatever events follow, every event ends
    normally, the stored ledger never holds more than three timestamps,
    the snapshot counts them, and a submission is in flight only while it
    holds at most two. *)
Theorem quota_never_exceeded
    (ls : gmap string string) (ledger : list Z) (now nowEvaluated : Z)
    (random offsetWidth : Q) (events : list Event) :
  JSON_parse (storedLedgerText ls) = Normal ledger ->
  (length ledger <= 3)%nat ->
  exists a a',
    mountPage ls now nowEvaluated random offsetWidth = Normal a
    /\ run events a = Normal a'
    /\ withinQuota a'.
Proof.
  intros Hread Hlen. rewrite (mountPage_readable _ _ _ _ _ _ Hread).
  set (a0 := {| ui := _; inFlight := []; sent := [] |}).
  assert (Hstart : withinQuota a0).
  { exists (window nowEvaluated fifteenMinutes ledger).
    pose proof (window_length nowEvaluated fifteenMinutes ledger) as Hw.
    subst a0. cbn [ui inFlight]. unfold storedLedger.
    cbn [localStorage rateLimitInfo isApplying setRateLimitInfo setLocalStorage].
    rewrite storedLedgerText_written, JSON_parse_stringify.
    split; [reflexivity |]. split; [reflexivity |]. split.
    { intros H3. apply snapshot_quota. unfold quotaActive. lia. }
    split; [lia |]. left. split; [| reflexivity].
    unfold remountCaptcha, SlidingCaptcha.mount, SlidingCaptcha.generateNewPuzzle.
    reflexivity. }
  destruct (run_withinQuota events a0 Hstart) as (a' & Hrun & Hq).
  exists a0, a'. split; [reflexivity |]. now split.
Qed.

(** An instance: the run that applies twice on a browser that stored
    nothing. *)
Lemma quota_never_exceeded_witness :
  exists a a',
    mountPage ∅ Scenario.t0 Scenario.t0 0.5 340 = Normal a
    /\ run Scenario.scaleAndBack a = Normal a'
    /\ withinQuota a'.
Proof.
  apply (quota_never_exceeded ∅ [] Scenario.t0 Scenario.t0 0.5 340 Scenario.scaleAndBack).
  - vm_compute. reflexivity.
  - cbn. lia.
Defined.

(** *** The other keys of localStorage *)

Lemma updateRateLimitInfo_other_keys now s s' key :
  key <> ledgerKey ->
  updateRateLimitInfo now s = Normal s' ->
  localStorage s' !! key = localStorage s !! key.
Proof.
  intros Hne. unfold updateRateLimitInfo.
  destruct (readRecentApplies _ _) as [l | |]; cbn [bind]; [| discriminate..].
  intros [= <-]. cbn [localStorage setRateLimitInfo setLocalStorage].
  unfold writeRecentApplies. now rewrite lookup_insert_ne.
Qed.

Lemma render_store env before after :
  localStorage (render env before after) = localStorage after.
Proof.
  unfold render. destruct (captchaKey after =? captchaKey before); [reflexivity |].
  unfold remountCaptcha.
  destruct (SlidingCaptcha.mount (random env) (offsetWidth env)) as [c [b |]]; reflexivity.
Qed.

Lemma applyChanges_resume_other_keys p env s s' key :
  key <> ledgerKey ->
  applyChanges_resume p env s = Normal s' ->
  localStorage s' !! key = localStorage s !! key.
Proof.
  intros Hne. unfold applyChanges_resume.
  destruct (result env) as [status data | e]; [| now intros [= <-]].
  destruct (ok status); cbn [negb]; [| now intros [= <-]].
  unfold onSuccess. cbn [localStorage setLastApplied setAppliedMetrics].
  destruct (readRecentApplies _ (localStorage s)) as [l | e |]; cbn [tryCatch bind];
    [| now intros [= <-]; rewrite render_store | discriminate].
  match goal with
  | |- context [updateRateLimitInfo ?n ?st] =>
      destruct (updateRateLimitInfo n st) as [s6 | e |] eqn:E
  end; cbn [tryCatch bind]; [| | discriminate].
  - intros [= <-]. rewrite render_store. cbn [localStorage finally setIsApplying].
    rewrite (updateRateLimitInfo_other_keys _ _ _ _ Hne E).
    cbn [localStorage setCaptchaKey setIsCaptchaVerified setLocalStorage].
    unfold writeRecentApplies. now rewrite lookup_insert_ne.
  - intros [= <-]. rewrite render_store.
    cbn [localStorage finally catch setIsApplying setLastError setCaptchaKey
         setIsCaptchaVerified setLocalStorage].
    unfold writeRecentApplies. now rewrite lookup_insert_ne.
Qed.

Lemma step_other_keys e a a' key :
  key <> ledgerKey ->
  step e a = Normal a' ->
  localStorage (ui a') !! key = localStorage (ui a) !! key.
Proof.
  intros Hne.
  destruct e as [now | | metricName newScale | | now | env | ce]; cbn [step].
  - destruct (updateRateLimitInfo now (ui a)) as [s' | e |] eqn:E; cbn [tryCatch];
      [| now intros [= <-] | discriminate].
    intros [= <-]. cbn [ui withUi]. now apply (updateRateLimitInfo_other_keys now).
  - intros [= <-]. cbn [ui withUi]. now rewrite countdown_store.
  - now intros [= <-].
  - intros [= <-]. now rewrite clickResetAll_store.
  - intros [= <-]. now rewrite clickApply_store.
  - destruct (inFlight a) as [| p rest]; [now intros [= <-] |].
    destruct (applyChanges_resume p env (ui a)) as [s' | |] eqn:E; cbn [bind];
      [| discriminate..].
    intros [= <-]. cbn [ui]. now apply (applyChanges_resume_other_keys p env).
  - intros [= <-]. cbn [ui withUi]. now rewrite onCaptcha_store.
Qed.

(** X5: The page writes one key.  Whatever the events, and whatever the
    stored ledger text, every other key of localStorage holds at the end
    what it held at the start. *)
Theorem page_writes_only_its_key (events : list Event) (a a' : App) (key : string) :
  key <> ledgerKey ->
  run events a = Normal a' ->
  localStorage (ui a') !! key = localStorage (ui a) !! key.
Proof.
  intros Hne. revert a. induction events as [| e events IH]; intros a; cbn [run].
  - now intros [= <-].
  - destruct (step e a) as [a1 | |] eqn:E; cbn [bind]; [| discriminate..].
    intros Hrun. rewrite (IH a1 Hrun). now apply (step_other_keys e).
Qed.

(** An instance: the run that applies twice leaves the key "theme"
    alone. *)
Lemma page_writes_only_its_key_witness :
  exists a',
    run Scenario.scaleAndBack Scenario.mounted = Normal a'
    /\ localStorage (ui a') !! "theme"%string
       = localStorage (ui Scenario.mounted) !! "theme"%string.
Proof.
  destruct (run Scenario.scaleAndBack Scenario.mounted) as [a' | |] eqn:E.
  2, 3: vm_compute in E; discriminate.
  exists a'. split; [reflexivity |].
  apply (page_writes_only_its_key Scenario.scaleAndBack Scenario.mounted a' "theme").
  - discriminate.
  - exact E.
Defined.

(** *** Reloading the page *)

(** X6: A reload keeps the rate limit and nothing else: a page mounted on the
    localStorage another page left evaluates the ledger found there, and
    starts with the initial metrics applied, the puzzle unsolved, no error
    and nothing in flight. *)
Theorem reload_keeps_ledger_only
    (s : State) (ledger : list Z) (now nowEvaluated : Z) (random offsetWidth : Q) :
  storedLedger s = Normal ledger ->
  exists a,
    mountPage (localStorage s) now nowEvaluated random offsetWidth = Normal a
    /\ storedLedger (ui a) = Normal (window nowEvaluated fifteenMinutes ledger)
    /\ rateLimitInfo (ui a)
       = rateLimitSnapshot nowEvaluated (window nowEvaluated fifteenMinutes ledger)
    /\ metrics (ui a) = initialMetrics
    /\ appliedMetrics (ui a) = initialMetrics
    /\ isCaptchaVerified (ui a) = false
    /\ isApplying (ui a) = false
    /\ lastError (ui a) = None
    /\ inFlight a = [] /\ sent a = [].
Proof.
  intros Hread. unfold storedLedger in Hread.
  rewrite (mountPage_readable _ _ _ _ _ _ Hread). eexists. split; [reflexivity |].
  cbn [ui inFlight sent]. unfold storedLedger.
  cbn [localStorage rateLimitInfo setRateLimitInfo setLocalStorage].
  rewrite storedLedgerText_written, JSON_parse_stringify.
  unfold remountCaptcha, SlidingCaptcha.mount, SlidingCaptcha.generateNewPuzzle.
  repeat split; reflexivity.
Qed.

(** An instance: a reload four seconds after the only recorded apply. *)
Lemma reload_keeps_ledger_only_witness :
  exists a,
    mountPage (localStorage Scenario.oneApplyPage) (Scenario.t0 + 4000) (Scenario.t0 + 4000)
      0.5 340 = Normal a
    /\ storedLedger (ui a) = Normal [Scenario.t0]
    /\ isLimited (rateLimitInfo (ui a)) = true
    /\ appliedMetrics (ui a) = initialMetrics.
Proof.
  destruct (reload_keeps_ledger_only Scenario.oneApplyPage [Scenario.t0]
              (Scenario.t0 + 4000) (Scenario.t0 + 4000) 0.5 340)
    as (a & Ha & Hl & Hinfo & _ & Happlied & _).
  - vm_compute. reflexivity.
  - exists a. split; [exact Ha |]. split; [exact Hl |]. split; [| exact Happlied].
    rewrite Hinfo. vm_compute. reflexivity.
Defined.

(** *** What a successful and a failed submission leave *)

(** X7: A successful submission starts the cooldown: when no stored entry is
    later than the time of the apply and the evaluation that follows reads
    the clock less than ten seconds later, the page is limited, shows
    between 1 and 10 seconds to wait, counts the apply, and its button is
    disabled. *)
Theorem success_starts_cooldown
    (p : Pending) (env : Settlement) (s : State) (ledger : list Z) :
  succeeded env = true ->
  storedLedger s = Normal ledger ->
  Forall (fun t => t <= nowApplied env) ledger ->
  nowApplied env <= nowEvaluated env < nowApplied env + 10 * 1000 ->
  exists s',
    applyChanges_resume p env s = Normal s'
    /\ isLimited (rateLimitInfo s') = true
    /\ remainingTime (rateLimitInfo s')
       = Math_ceil_div (10 * 1000 - (nowEvaluated env - nowApplied env)) 1000
    /\ 1 <= remainingTime (rateLimitInfo s') <= 10
    /\ 1 <= appliesInLastMinute (rateLimitInfo s')
    /\ isApplyDisabled s' = true.
Proof.
  intros Hok Hread Hpast Hclock.
  destruct (applyChanges_resume_succeeded p env s ledger Hok Hread)
    as (s' & Hs' & _ & Hinfo & _ & _ & _ & _ & _ & Hv & _).
  exists s'. split; [exact Hs' |].
  set (kept := window (nowEvaluated env) fifteenMinutes
                 (window (nowApplied env) fifteenMinutes ledger ++ [nowApplied env])) in *.
  assert (Hkept : kept = window (nowEvaluated env) fifteenMinutes
                           (window (nowApplied env) fifteenMinutes ledger)
                         ++ [nowApplied env]).
  { subst kept. apply window_snoc. unfold fifteenMinutes. lia. }
  assert (Hgreatest : greatest (nowApplied env) kept).
  { rewrite Hkept. split; [apply in_or_app; right; now left |].
    apply Forall_app. split; [| repeat constructor; lia].
    apply List.Forall_forall. intros t Ht.
    apply window_incl in Ht as [Ht _]. apply window_incl in Ht as [Ht _].
    rewrite List.Forall_forall in Hpast. now apply Hpast. }
  rewrite Hinfo, (snapshot_of_greatest _ _ _ Hgreatest).
  cbn [isLimited remainingTime appliesInLastMinute].
  pose proof (Math_ceil_div_spec (10 * 1000 - (nowEvaluated env - nowApplied env)) 1000
                ltac:(lia)) as Hc.
  destruct (Z.ltb_spec (nowEvaluated env - nowApplied env) (10 * 1000)); [| lia].
  split; [reflexivity |]. split; [reflexivity |]. split; [lia |]. split.
  - rewrite Hkept, length_app. cbn [length]. lia.
  - unfold isApplyDisabled. rewrite Hv. cbn [negb]. now rewrite !orb_true_r.
Qed.

(** An instance: the first apply on a browser that stored nothing. *)
Lemma success_starts_cooldown_witness :
  exists s',
    applyChanges_resume (Scenario.pendingOf Scenario.t0 Scenario.freshReady)
      (Scenario.accepted Scenario.t0) Scenario.freshSubmitting = Normal s'
    /\ isLimited (rateLimitInfo s') = true
    /\ 1 <= remainingTime (rateLimitInfo s') <= 10.
Proof.
  destruct (success_starts_cooldown (Scenario.pendingOf Scenario.t0 Scenario.freshReady)
              (Scenario.accepted Scenario.t0) Scenario.freshSubmitting [])
    as (s' & Hs' & Hl & _ & Hr & _).
  - reflexivity.
  - vm_compute. reflexivity.
  - constructor.
  - vm_compute. split; [discriminate | reflexivity].
  - exists s'. split; [exact Hs' |]. split; [exact Hl | exact Hr].
Defined.

(** X8: A failed submission costs nothing but a message: the stored ledger,
    the snapshot, the puzzle (solved or not), the scales and the applied
    metrics are as before, an error is shown and [isApplying] is cleared;
    so a page that could submit before can submit again at once. *)
Theorem failed_submission_keeps_page (p : Pending) (env : Settlement) (s : State) :
  succeeded env = false ->
  exists s',
    applyChanges_resume p env s = Normal s'
    /\ localStorage s' = localStorage s
    /\ rateLimitInfo s' = rateLimitInfo s
    /\ isCaptchaVerified s' = isCaptchaVerified s
    /\ captchaKey s' = captchaKey s
    /\ captcha s' = captcha s
    /\ metrics s' = metrics s
    /\ appliedMetrics s' = appliedMetrics s
    /\ lastApplied s' = lastApplied s
    /\ isApplying s' = false
    /\ is_Some (lastError s')
    /\ (hasChanges s = true -> isCaptchaVerified s = true ->
        isLimited (rateLimitInfo s) = false -> isApplyDisabled s' = false).
Proof.
  intros Hfail. rewrite (applyChanges_resume_failed _ _ _ Hfail).
  eexists. split; [reflexivity |]. unfold finally, catch.
  cbn [localStorage rateLimitInfo isCaptchaVerified captchaKey captcha metrics
       appliedMetrics lastApplied isApplying lastError setIsApplying setLastError].
  repeat split; try reflexivity; [now eexists |].
  intros Hc Hv Hl. unfold isApplyDisabled.
  change (hasChanges (setIsApplying false (setLastError (Some (Js.message (failureOf env))) s)))
    with (hasChanges s) || idtac.
  unfold hasChanges in *.
  cbn [metrics appliedMetrics isApplying isCaptchaVerified rateLimitInfo
       setIsApplying setLastError].
  now rewrite Hc, Hv, Hl.
Qed.

(** An instance: the server answers 429. *)
Lemma failed_submission_keeps_page_witness :
  exists s',
    applyChanges_resume (Scenario.pendingOf Scenario.t0 Scenario.freshReady)
      (Scenario.refused Scenario.t0) Scenario.freshSubmitting = Normal s'
    /\ isCaptchaVerified s' = true
    /\ isApplyDisabled s' = false.
Proof.
  destruct (failed_submission_keeps_page (Scenario.pendingOf Scenario.t0 Scenario.freshReady)
              (Scenario.refused Scenario.t0) Scenario.freshSubmitting)
    as (s' & Hs' & _ & _ & Hv & _ & _ & _ & _ & _ & _ & _ & Hagain).
  - reflexivity.
  - exists s'. split; [exact Hs' |]. split.
    + rewrite Hv. vm_compute. reflexivity.
    + apply Hagain; vm_compute; reflexivity.
Defined.

(** X9: The message shown for a response that is not 2xx.  For 429, 503,
    502 and 504 it is a fixed sentence, whatever the body says.  For any
    other status it is [String(v)] of the first truthy value among the
    [message] and the [detail] of an object body, or of a text, number or
    boolean body itself, and "HTTP <status>" when there is none; a null
    body, and a value whose conversion throws, are reported as a network
    error.  So a string [message] is shown as it is, a [detail] that is an
    array of one object (a validation error) shows "[object Object]", and
    a [message] that is an empty array shows an empty message. *)
Theorem http_failure_message
    (p : Pending) (env : Settlement) (s : State) (status : Z) (data : ResponseData) :
  result env = Resolved status data ->
  ok status = false ->
  exists msg,
    applyChanges_resume p env s = Normal (finally (setLastError (Some msg) s))
    /\ (status = 429 ->
        msg = Text "Rate limit exceeded. Please wait before trying again.")
    /\ (status = 503 ->
        msg = Text "Service unavailable. Backend may be down or starting up.")
    /\ (status = 502 \/ status = 504 ->
        msg = Text "Gateway error. Check if all services are running.")
    /\ (status <> 429 -> status <> 503 -> status <> 502 -> status <> 504 ->
        msg = shownMessage status data
        /\ (forall members c m,
              data = BodyJson (JObject members) ->
              get "message" members = Some (JString (String c m)) ->
              msg = Text (String c m))
        /\ (forall members fields,
              data = BodyJson (JObject members) ->
              get "message" members = None ->
              get "detail" members = Some (JArray [JObject fields]) ->
              get "toString" fields = None ->
              msg = Text "[object Object]")
        /\ (forall members,
              data = BodyJson (JObject members) ->
              get "message" members = Some (JArray []) ->
              msg = Text EmptyString)).
Proof.
  intros Hres Hok. unfold applyChanges_resume. rewrite Hres, Hok. cbn [negb].
  exists (errorMsg (httpError status data)). split; [reflexivity |].
  unfold httpError.
  destruct (Z.eqb_spec status 429) as [-> | H429].
  { repeat split; try reflexivity; try lia. }
  destruct (Z.eqb_spec status 503) as [-> | H503].
  { repeat split; try reflexivity; try lia. }
  destruct (Z.eqb_spec status 502) as [-> | H502].
  { repeat split; try reflexivity; try lia. }
  destruct (Z.eqb_spec status 504) as [-> | H504].
  { repeat split; try reflexivity; try lia. }
  cbn [orb].
  split; [intros; lia |]. split; [intros; lia |]. split; [intros [H | H]; lia |].
  intros _ _ _ _.
  assert (Hthrown : forall message : option Json,
            errorMsg (errorOf (default (JString ("HTTP " +:+ String_of_number status))
                                 (orElse message None)))
            = match firstTruthy [message] with
              | Some v => shownValue v
              | None => Text ("HTTP " +:+ String_of_number status)
              end).
  { intros message. unfold orElse, firstTruthy, shownValue, errorOf.
    destruct message as [v |]; [destruct (truthy v) |]; cbn [default from_option id];
      try (destruct (ToString_throws v)); reflexivity. }
  split; [| split; [| split]].
  - unfold shownMessage, candidates.
    destruct data as [text | [| b | n | text | elements | members]];
      try (rewrite Hthrown; reflexivity); try reflexivity.
    rewrite Hthrown. f_equal. unfold orElse, firstTruthy.
    destruct (get "message" members) as [m |]; [destruct (truthy m) eqn:Em |];
      rewrite ?Em; try reflexivity;
      destruct (get "detail" members) as [d |]; try (destruct (truthy d) eqn:Ed);
      rewrite ?Ed; reflexivity.
  - intros members c m -> Hm. rewrite Hthrown, Hm. reflexivity.
  - intros members fields -> Hm Hd Hfields. rewrite Hthrown, Hm, Hd.
    unfold orElse, firstTruthy, shownValue. cbn [truthy ToString_throws existsb].
    rewrite Hfields. reflexivity.
  - intros members -> Hm. rewrite Hthrown, Hm. reflexivity.
Qed.

(** An instance: a 422 whose body carries a [detail] with one validation
    error. *)
Lemma http_failure_message_witness :
  exists msg,
    applyChanges_resume (Scenario.pendingOf Scenario.t0 Scenario.freshReady)
      {| result :=
           Resolved 422
             (BodyJson (JObject [("detail",
                JArray [JObject [("loc", JArray [JString "body"; JString "metrics"]);
                                 ("msg", JString "field required")]])]%string));
         nowApplied := Scenario.t0; nowEvaluated := Scenario.t0;
         random := 0.5%Q; offsetWidth := 340%Q |}
      Scenario.freshSubmitting
    = Normal (finally (setLastError (Some msg) Scenario.freshSubmitting))
    /\ msg = Text "[object Object]".
Proof.
  destruct (http_failure_message (Scenario.pendingOf Scenario.t0 Scenario.freshReady)
              {| result :=
                   Resolved 422
                     (BodyJson (JObject [("detail",
                        JArray [JObject [("loc", JArray [JString "body"; JString "metrics"]);
                                         ("msg", JString "field required")]])]%string));
                 nowApplied := Scenario.t0; nowEvaluated := Scenario.t0;
                 random := 0.5%Q; offsetWidth := 340%Q |}
              Scenario.freshSubmitting 422
              (BodyJson (JObject [("detail",
                 JArray [JObject [("loc", JArray [JString "body"; JString "metrics"]);
                                  ("msg", JString "field required")]])]%string))
              eq_refl eq_refl)
    as (msg & Hs' & _ & _ & _ & Hother).
  exists msg. split; [exact Hs' |].
  destruct Hother as (_ & _ & Hdetail & _); try discriminate.
  eapply Hdetail; reflexivity.
Defined.

End LedgerExtras.

(** ** The puzzle over whole gestures *)

Section PuzzleExtras.
Import Facts SlidingCaptcha.
#[local] Open Scope Q_scope.

Lemma captchaAfter_cons disabled e events s :
  captchaAfter disabled (e :: events) s = captchaAfter disabled events (handle disabled e s).1.
Proof. reflexivity. Qed.

Lemma captchaAfter_app disabled events events' s :
  captchaAfter disabled (events ++ events') s
  = captchaAfter disabled events' (captchaAfter disabled events s).
Proof. unfold captchaAfter. apply fold_left_app. Qed.

Lemma handle_dispatch disabled e s :
  (handle disabled e s).1 = listenersEffect disabled s (dispatch disabled e s).1
  /\ (handle disabled e s).2 = (dispatch disabled e s).2.
Proof. unfold handle. now destruct (dispatch disabled e s). Qed.

Lemma dispatch_keeps_solved disabled e s :
  isVerified s = true -> isResetClick e = false ->
  isVerified (dispatch disabled e s).1 = true
  /\ sliderPosition (dispatch disabled e s).1 = sliderPosition s
  /\ puzzlePosition (dispatch disabled e s).1 = puzzlePosition s
  /\ (dispatch disabled e s).2 = None.
Proof.
  intros Hv Hr.
  destruct e as [| clientX rectLeft | | offsetWidth | random]; try discriminate;
    cbn [dispatch].
  - unfold handleMouseDown. rewrite Hv, orb_true_r. now repeat split.
  - destruct (listeners s) as [captured |]; [| now repeat split].
    unfold handleMouseMove. rewrite Hv, orb_true_r. now repeat split.
  - destruct (listeners s) as [captured |]; [| now repeat split].
    unfold handleMouseUp.
    destruct (isDragging s); cbn [fst snd negb isVerified sliderPosition puzzlePosition];
      rewrite ?Hv; now repeat split.
  - unfold updateWidth. cbn [fst snd isVerified sliderPosition puzzlePosition].
    now repeat split.
Qed.

Lemma handle_keeps_solved disabled e s :
  isVerified s = true -> isResetClick e = false ->
  isVerified (handle disabled e s).1 = true
  /\ sliderPosition (handle disabled e s).1 = sliderPosition s
  /\ puzzlePosition (handle disabled e s).1 = puzzlePosition s
  /\ (handle disabled e s).2 = None.
Proof.
  intros Hv Hr. destruct (handle_dispatch disabled e s) as [-> ->].
  destruct (listenersEffect_fields disabled s (dispatch disabled e s).1)
    as (-> & -> & _ & -> & _).
  now apply dispatch_keeps_solved.
Qed.

(** X10: A solved puzzle stays solved, with the handle where it was: presses,
    moves, releases and resizes change neither, whether the component is
    disabled or not.  Only a click on the reset button unsolves it, and
    that it does even while the component is disabled. *)
Theorem solved_until_reset (disabled : bool) (events : list Event) (s : State) :
  isVerified s = true ->
  existsb isResetClick events = false ->
  isVerified (captchaAfter disabled events s) = true
  /\ sliderPosition (captchaAfter disabled events s) = sliderPosition s
  /\ puzzlePosition (captchaAfter disabled events s) = puzzlePosition s
  /\ (forall random,
        isVerified (captchaAfter disabled (events ++ [ResetClick random]) s) = false).
Proof.
  intros Hv Hno.
  assert (H : isVerified (captchaAfter disabled events s) = true
              /\ sliderPosition (captchaAfter disabled events s) = sliderPosition s
              /\ puzzlePosition (captchaAfter disabled events s) = puzzlePosition s).
  { revert s Hv Hno. induction events as [| e events IH]; intros s Hv Hno.
    - now repeat split.
    - cbn [existsb] in Hno. apply orb_false_iff in Hno as [He Hno].
      destruct (handle_keeps_solved disabled e s Hv He) as (Hv' & Hs' & Hp' & _).
      rewrite captchaAfter_cons.
      destruct (IH _ Hv' Hno) as (H1 & H2 & H3).
      split; [exact H1 |]. split; [now rewrite H2 | now rewrite H3]. }
  destruct H as (H1 & H2 & H3). split; [exact H1 |]. split; [exact H2 |].
  split; [exact H3 |]. intros random. rewrite captchaAfter_app.
  unfold captchaAfter at 1. cbn [fold_left].
  destruct (handle_dispatch disabled (ResetClick random) (captchaAfter disabled events s))
    as [-> _].
  destruct (listenersEffect_fields disabled (captchaAfter disabled events s)
              (dispatch disabled (ResetClick random) (captchaAfter disabled events s)).1)
    as (-> & _).
  reflexivity.
Qed.

(** An instance: the puzzle solved at 151, then a press, a move away, a
    release and a resize. *)
Lemma solved_until_reset_witness :
  isVerified
    (captchaAfter false [MouseDown; MouseMove 10 0; MouseUp; Resize 500]
       (captchaAfter false [MouseDown; MouseMove 151 0] (mount 0.5 340).1)) = true.
Proof.
  destruct (solved_until_reset false [MouseDown; MouseMove 10 0; MouseUp; Resize 500]
              (captchaAfter false [MouseDown; MouseMove 151 0] (mount 0.5 340).1))
    as (H & _).
  - vm_compute. reflexivity.
  - reflexivity.
  - exact H.
Defined.

(** X11: While the component is disabled, a puzzle with no drag under way
    cannot be solved: no sequence of events verifies it or starts a drag,
    and presses, moves and releases change nothing at all.  A drag that
    is under way is another matter: its listeners keep the [disabled] of
    the render that registered them, so a drag begun while the component
    was enabled still verifies the puzzle after it has been disabled. *)
Theorem disabled_puzzle_cannot_be_solved (events : list Event) (s : State) :
  isVerified s = false ->
  isDragging s = false ->
  listeners s = None ->
  (isVerified (captchaAfter true events s) = false
   /\ isDragging (captchaAfter true events s) = false
   /\ listeners (captchaAfter true events s) = None)
  /\ (forallb isPointerEvent events = true -> captchaAfter true events s = s)
  /\ (forall clientX rectLeft,
        checkVerification
          (Qmax 0 (Qmin (containerWidth s - HANDLE_WIDTH)
                     (clientX - rectLeft - HANDLE_WIDTH / 2))) s = true ->
        isVerified
          (captchaAfter true [MouseMove clientX rectLeft] (captchaAfter false [MouseDown] s))
        = true
        /\ (handle true (MouseMove clientX rectLeft) (captchaAfter false [MouseDown] s)).2
           = Some true).
Proof.
  intros Hv Hd Hl. split; [| split].
  - revert s Hv Hd Hl. induction events as [| e events IH]; intros s Hv Hd Hl; [auto |].
    rewrite captchaAfter_cons.
    assert (Hstep : isVerified (dispatch true e s).1 = false
                    /\ isDragging (dispatch true e s).1 = false
                    /\ listeners (dispatch true e s).1 = None).
    { destruct e as [| clientX rectLeft | | offsetWidth | random]; cbn [dispatch fst].
      - now unfold handleMouseDown.
      - now rewrite Hl.
      - now rewrite Hl.
      - now unfold updateWidth.
      - unfold handleReset, generateNewPuzzle. now cbn. }
    destruct Hstep as (Hv' & Hd' & Hl').
    destruct (handle_dispatch true e s) as [-> _].
    destruct (listenersEffect_fields true s (dispatch true e s).1) as (Ev & _ & Ed & _).
    apply IH; [now rewrite Ev | now rewrite Ed |].
    unfold listenersEffect. destruct (_ && _ && _)%bool; [exact Hl' |].
    cbn [listeners withListeners]. now rewrite Hd'.
  - revert s Hv Hd Hl. induction events as [| e events IH]; intros s Hv Hd Hl Hp;
      [reflexivity |].
    cbn [forallb] in Hp. apply andb_true_iff in Hp as [He Hp].
    rewrite captchaAfter_cons.
    assert (E : (handle true e s).1 = s).
    { destruct (handle_dispatch true e s) as [-> _].
      assert (E : (dispatch true e s).1 = s).
      { destruct e as [| clientX rectLeft | | offsetWidth | random]; try discriminate;
          cbn [dispatch fst]; [reflexivity | now rewrite Hl | now rewrite Hl]. }
      rewrite E. unfold listenersEffect.
      now rewrite eqb_reflx, !Qeq_bool_refl. }
    rewrite E. now apply IH.
  - intros clientX rectLeft Hon.
    assert (Hgrab : captchaAfter false [MouseDown] s
                    = {| isVerified := false; sliderPosition := sliderPosition s;
                         isDragging := true; puzzlePosition := puzzlePosition s;
                         containerWidth := containerWidth s; listeners := Some false |}).
    { unfold captchaAfter, handle, dispatch, handleMouseDown, listenersEffect.
      cbn [fold_left fst]. rewrite Hv.
      cbn [orb fst isDragging containerWidth puzzlePosition]. rewrite Hd. reflexivity. }
    rewrite Hgrab.
    set (grabbed := {| isVerified := false; sliderPosition := sliderPosition s;
                       isDragging := true; puzzlePosition := puzzlePosition s;
                       containerWidth := containerWidth s; listeners := Some false |}).
    change (captchaAfter true [MouseMove clientX rectLeft] grabbed)
      with (handle true (MouseMove clientX rectLeft) grabbed).1.
    destruct (handle_dispatch true (MouseMove clientX rectLeft) grabbed) as [-> ->].
    destruct (listenersEffect_fields true grabbed
                (dispatch true (MouseMove clientX rectLeft) grabbed).1) as (-> & _).
    unfold dispatch, handleMouseMove.
    cbn [grabbed listeners isDragging isVerified negb orb containerWidth].
    change (checkVerification ?x grabbed) with (checkVerification x s).
    rewrite Hon. split; reflexivity.
Qed.

(** An instance: on the mounted puzzle, a drag onto the target of a
    disabled component does nothing, and a drag begun before it was
    disabled verifies. *)
Lemma disabled_puzzle_cannot_be_solved_witness :
  isVerified (captchaAfter true [MouseDown; MouseMove 151 0; MouseUp] (mount 0.5 340).1)
  = false
  /\ isVerified
       (captchaAfter true [MouseMove 151 0] (captchaAfter false [MouseDown] (mount 0.5 340).1))
     = true.
Proof.
  destruct (disabled_puzzle_cannot_be_solved [MouseDown; MouseMove 151 0; MouseUp]
              (mount 0.5 340).1) as ((H & _) & _ & Hlate).
  - reflexivity.
  - reflexivity.
  - reflexivity.
  - split; [exact H |]. apply (Hlate 151 0). vm_compute. reflexivity.
Defined.

Lemma handleMouseMove_dragging clientX rectLeft s :
  isVerified s = false -> isDragging s = true ->
  let s' := (handleMouseMove false clientX rectLeft s).1 in
  puzzlePosition s' = puzzlePosition s
  /\ containerWidth s' = containerWidth s
  /\ listeners s' = listeners s
  /\ ((isVerified s' = false /\ isDragging s' = true)
      \/ (isVerified s' = true /\ isDragging s' = false)).
Proof.
  intros Hv Hd. unfold handleMouseMove. rewrite Hv, Hd. cbn [negb orb].
  destruct (checkVerification _ s);
    cbn [fst puzzlePosition containerWidth listeners isVerified isDragging]; auto 6.
Qed.

Lemma dragThrough_cons disabled m moves s :
  dragThrough disabled (m :: moves) s
  = dragThrough disabled moves (handleMouseMove disabled m.1 m.2 s).1.
Proof. reflexivity. Qed.

Lemma dragThrough_solved disabled moves s :
  isVerified s = true -> dragThrough disabled moves s = s.
Proof.
  intros Hv. induction moves as [| m moves IH]; [reflexivity |].
  rewrite dragThrough_cons. unfold handleMouseMove. rewrite Hv, orb_true_r. exact IH.
Qed.

Lemma dragThrough_dragging moves s :
  isVerified s = false -> isDragging s = true ->
  puzzlePosition (dragThrough false moves s) = puzzlePosition s
  /\ containerWidth (dragThrough false moves s) = containerWidth s
  /\ listeners (dragThrough false moves s) = listeners s
  /\ ((isVerified (dragThrough false moves s) = false
       /\ isDragging (dragThrough false moves s) = true)
      \/ (isVerified (dragThrough false moves s) = true
          /\ isDragging (dragThrough false moves s) = false)).
Proof.
  revert s. induction moves as [| m moves IH]; intros s Hv Hd; [auto 6 |].
  rewrite dragThrough_cons.
  destruct (handleMouseMove_dragging m.1 m.2 s Hv Hd)
    as (Hp & Hw & Hl & [[Hv' Hd'] | [Hv' Hd']]).
  - destruct (IH _ Hv' Hd') as (Hp2 & Hw2 & Hl2 & Hcase).
    split; [now rewrite Hp2 |]. split; [now rewrite Hw2 |].
    split; [now rewrite Hl2 | exact Hcase].
  - rewrite (dragThrough_solved false moves _ Hv'). auto 6.
Qed.

(** X12: A drag released off the target costs nothing: if no position the
    pointer went through solved the puzzle, the release puts the handle
    back at 0 and the puzzle is the one issued, at the same place. *)
Theorem released_off_target_returns_handle (moves : list (Q * Q)) (s : State) :
  isVerified s = false ->
  isVerified (dragThrough false moves (handleMouseDown false s)) = false ->
  handleMouseUp (dragThrough false moves (handleMouseDown false s))
  = {| isVerified := false; sliderPosition := 0; isDragging := false;
       puzzlePosition := puzzlePosition s; containerWidth := containerWidth s;
       listeners := listeners s |}.
Proof.
  intros Hv Hoff.
  assert (Hg : isVerified (handleMouseDown false s) = false
               /\ isDragging (handleMouseDown false s) = true
               /\ puzzlePosition (handleMouseDown false s) = puzzlePosition s
               /\ containerWidth (handleMouseDown false s) = containerWidth s
               /\ listeners (handleMouseDown false s) = listeners s).
  { unfold handleMouseDown. rewrite Hv. cbn. auto 6. }
  destruct Hg as (Hgv & Hgd & Hgp & Hgw & Hgl).
  destruct (dragThrough_dragging moves _ Hgv Hgd)
    as (Hp & Hw & Hl & [[Hv' Hd'] | [Hv' _]]); [| congruence].
  unfold handleMouseUp. rewrite Hd', Hv'. cbn [negb]. now rewrite Hp, Hw, Hl, Hgp, Hgw, Hgl.
Qed.

(** An instance: a drag that stops 30 px short of the target. *)
Lemma released_off_target_returns_handle_witness :
  handleMouseUp
    (dragThrough false [(60, 0); (121, 0)] (handleMouseDown false (mount 0.5 340).1))
  = {| isVerified := false; sliderPosition := 0; isDragging := false;
       puzzlePosition := puzzlePosition (mount 0.5 340).1;
       containerWidth := containerWidth (mount 0.5 340).1;
       listeners := listeners (mount 0.5 340).1 |}.
Proof.
  apply (released_off_target_returns_handle [(60, 0); (121, 0)] (mount 0.5 340).1).
  - reflexivity.
  - vm_compute. reflexivity.
Defined.

(** *** Which puzzles can be solved *)

(** The handle position a pointer position is clamped to. *)
Lemma clamp_bounds lo hi x :
  lo <= Qmax lo (Qmin hi x) /\ Qmax lo (Qmin hi x) <= Qmax lo hi.
Proof.
  destruct (Q.max_spec lo (Qmin hi x)) as [[H1 H2] | [H1 H2]];
    destruct (Q.min_spec hi x) as [[H3 H4] | [H3 H4]];
    destruct (Q.max_spec lo hi) as [[H5 H6] | [H5 H6]];
    rewrite H2, H6; rewrite ?H4 in *; split; lra.
Qed.

Lemma clamp_inside lo hi x :
  lo <= x -> x <= hi -> Qmax lo (Qmin hi x) == x.
Proof.
  intros Hlo Hhi.
  destruct (Q.max_spec lo (Qmin hi x)) as [[H1 H2] | [H1 H2]];
    destruct (Q.min_spec hi x) as [[H3 H4] | [H3 H4]];
    rewrite H2; rewrite ?H4 in *; lra.
Qed.

Lemma clamp_below lo hi x :
  lo <= hi -> x <= lo -> Qmax lo (Qmin hi x) == lo.
Proof.
  intros Hlh Hlo.
  destruct (Q.max_spec lo (Qmin hi x)) as [[H1 H2] | [H1 H2]];
    destruct (Q.min_spec hi x) as [[H3 H4] | [H3 H4]];
    rewrite H2; rewrite ?H4 in *; lra.
Qed.

Lemma clamp_above lo hi x :
  lo <= hi -> hi <= x -> Qmax lo (Qmin hi x) == hi.
Proof.
  intros Hlh Hhi.
  destruct (Q.max_spec lo (Qmin hi x)) as [[H1 H2] | [H1 H2]];
    destruct (Q.min_spec hi x) as [[H3 H4] | [H3 H4]];
    rewrite H2; rewrite ?H4 in *; lra.
Qed.

(** Names the two half widths, for linear arithmetic. *)
Ltac halves :=
  let h := fresh "h" in
  let t := fresh "t" in
  let Hh := fresh "Hh" in
  let Ht := fresh "Ht" in
  set (h := HANDLE_WIDTH / 2) in *; assert (Hh : h == 20) by reflexivity; clearbody h;
  set (t := TARGET_WIDTH / 2) in *; assert (Ht : t == 16) by reflexivity; clearbody t;
  unfold HANDLE_WIDTH, TARGET_WIDTH, tolerance in *.

(** One press and one move, on a component that is not disabled. *)
Lemma press_and_move clientX rectLeft s :
  isVerified s = false ->
  let newPosition :=
    Qmax 0 (Qmin (containerWidth s - HANDLE_WIDTH) (clientX - rectLeft - HANDLE_WIDTH / 2)) in
  isVerified (handleMouseMove false clientX rectLeft (handleMouseDown false s)).1
  = checkVerification newPosition s
  /\ (handleMouseMove false clientX rectLeft (handleMouseDown false s)).2
     = (if checkVerification newPosition s then Some true else None).
Proof.
  intros Hv newPosition. unfold handleMouseDown. rewrite Hv. cbn [orb].
  unfold handleMouseMove. cbn [isDragging isVerified negb orb containerWidth].
  change (checkVerification
            (Qmax 0 (Qmin (containerWidth s - HANDLE_WIDTH)
                       (clientX - rectLeft - HANDLE_WIDTH / 2)))
            {| isVerified := false; sliderPosition := sliderPosition s; isDragging := true;
               puzzlePosition := puzzlePosition s; containerWidth := containerWidth s;
               listeners := listeners s |})
    with (checkVerification newPosition s).
  destruct (checkVerification newPosition s); cbn [fst snd isVerified]; auto.
Qed.

Lemma drag_to_target_verifies rectLeft s :
  isVerified s = false ->
  HANDLE_WIDTH <= containerWidth s ->
  HANDLE_WIDTH / 2 - tolerance <= targetCenter s ->
  targetCenter s <= containerWidth s - HANDLE_WIDTH / 2 + tolerance ->
  isVerified
    (handleMouseMove false (rectLeft + targetCenter s) rectLeft (handleMouseDown false s)).1
  = true
  /\ (handleMouseMove false (rectLeft + targetCenter s) rectLeft (handleMouseDown false s)).2
     = Some true.
Proof.
  intros Hv Hw Hlo Hhi.
  destruct (press_and_move (rectLeft + targetCenter s) rectLeft s Hv) as [E1 E2].
  cbv zeta in E1, E2.
  assert (Hc : checkVerification
                 (Qmax 0 (Qmin (containerWidth s - HANDLE_WIDTH)
                            (rectLeft + targetCenter s - rectLeft - HANDLE_WIDTH / 2))) s
               = true).
  { apply checkVerification_iff. apply Qabs_Qle_condition.
    unfold sliderCenter. halves.
    set (x := rectLeft + targetCenter s - rectLeft - h).
    set (hi := containerWidth s - 40).
    assert (Hx : x == targetCenter s - h) by (unfold x; ring).
    assert (Hhi' : hi == containerWidth s - 40) by reflexivity.
    clearbody x hi.
    destruct (Qlt_le_dec x 0) as [Hneg | Hpos].
    - rewrite (clamp_below 0 hi x) by lra. split; lra.
    - destruct (Qlt_le_dec hi x) as [Hbig | Hfit].
      + rewrite (clamp_above 0 hi x) by lra. split; lra.
      + rewrite (clamp_inside 0 hi x Hpos Hfit). split; lra. }
  rewrite E1, E2, Hc. auto.
Qed.

Lemma press_and_move_inv clientX rectLeft s :
  isVerified s = false ->
  isVerified (handleMouseMove false clientX rectLeft (handleMouseDown false s)).1 = true ->
  HANDLE_WIDTH / 2 - tolerance <= targetCenter s
  /\ targetCenter s <= Qmax 0 (containerWidth s - HANDLE_WIDTH) + HANDLE_WIDTH / 2 + tolerance.
Proof.
  intros Hv H. destruct (press_and_move clientX rectLeft s Hv) as [E _].
  cbv zeta in E. rewrite E in H. apply checkVerification_iff in H.
  apply Qabs_Qle_condition in H.
  destruct (clamp_bounds 0 (containerWidth s - HANDLE_WIDTH)
              (clientX - rectLeft - HANDLE_WIDTH / 2)) as [Hlo Hhi].
  unfold sliderCenter in *. halves. split; lra.
Qed.

(** X13: On a track at least as wide as the handle, a puzzle can be solved by
    a press and a move exactly when the centre of its target is at most
    [tolerance] outside the range the centre of the handle can reach,
    from 20 to [containerWidth] - 20. *)
Theorem puzzle_solvable_iff (s : State) :
  isVerified s = false ->
  HANDLE_WIDTH <= containerWidth s ->
  (exists clientX rectLeft,
     isVerified (handleMouseMove false clientX rectLeft (handleMouseDown false s)).1 = true)
  <-> (HANDLE_WIDTH / 2 - tolerance <= targetCenter s
       /\ targetCenter s <= containerWidth s - HANDLE_WIDTH / 2 + tolerance).
Proof.
  intros Hv Hw. split.
  - intros (clientX & rectLeft & H).
    destruct (press_and_move_inv clientX rectLeft s Hv H) as [Hlo Hhi].
    split; [exact Hlo |].
    rewrite Q.max_r in Hhi by (unfold HANDLE_WIDTH in *; lra).
    halves. lra.
  - intros [Hlo Hhi]. exists (0 + targetCenter s), 0.
    apply (drag_to_target_verifies 0 s Hv Hw Hlo Hhi).
Qed.

(** An instance: the puzzle mounted with a draw of 0.5 in a 340-px
    container has its target centre at 151, within reach. *)
Lemma puzzle_solvable_iff_witness :
  exists clientX rectLeft,
    isVerified
      (handleMouseMove false clientX rectLeft (handleMouseDown false (mount 0.5 340).1)).1
    = true.
Proof.
  apply (puzzle_solvable_iff (mount 0.5 340).1).
  - reflexivity.
  - vm_compute. discriminate.
  - split; vm_compute; discriminate.
Defined.

(** X14: Every puzzle issued by the reset button on a track of at least 124 px
    can be solved, and so can the one drawn on mount when the container
    measures at least 296 px: a press and a move of the pointer to the
    centre of the target verify it and call [onVerify(true)]. *)
Theorem issued_puzzle_is_solvable (random width rectLeft : Q) (s : State) :
  0 <= random -> random < 1 ->
  (124 <= containerWidth s ->
   isVerified
     (handleMouseMove false (rectLeft + targetCenter (handleReset random s).1) rectLeft
        (handleMouseDown false (handleReset random s).1)).1 = true
   /\ (handleMouseMove false (rectLeft + targetCenter (handleReset random s).1) rectLeft
         (handleMouseDown false (handleReset random s).1)).2 = Some true)
  /\ (296 <= width ->
      isVerified
        (handleMouseMove false (rectLeft + targetCenter (mount random width).1) rectLeft
           (handleMouseDown false (mount random width).1)).1 = true
      /\ (handleMouseMove false (rectLeft + targetCenter (mount random width).1) rectLeft
            (handleMouseDown false (mount random width).1)).2 = Some true).
Proof.
  intros H0 H1. split.
  - intros Hw. apply drag_to_target_verifies.
    + reflexivity.
    + unfold handleReset, generateNewPuzzle, HANDLE_WIDTH. cbn [fst containerWidth]. lra.
    + unfold handleReset, generateNewPuzzle, targetCenter.
      cbn [fst puzzlePosition]. halves. nra.
    + unfold handleReset, generateNewPuzzle, targetCenter.
      cbn [fst puzzlePosition containerWidth]. halves. nra.
  - intros Hw. apply drag_to_target_verifies.
    + reflexivity.
    + unfold mount, generateNewPuzzle, updateWidth, HANDLE_WIDTH.
      cbn [fst containerWidth]. lra.
    + unfold mount, generateNewPuzzle, updateWidth, initial, targetCenter.
      cbn [fst puzzlePosition containerWidth]. halves. nra.
    + unfold mount, generateNewPuzzle, updateWidth, initial, targetCenter.
      cbn [fst puzzlePosition containerWidth]. halves. nra.
Qed.

(** An instance: a reset drawing 0.99 on a track of 124 px, the target
    as far right as it gets. *)
Lemma issued_puzzle_is_solvable_witness :
  isVerified
    (handleMouseMove false
       (7 + targetCenter (handleReset 0.99 (updateWidth 164 initial)).1) 7
       (handleMouseDown false (handleReset 0.99 (updateWidth 164 initial)).1)).1 = true.
Proof.
  destruct (issued_puzzle_is_solvable 0.99 300 7 (updateWidth 164 initial)) as [Hreset _].
  - vm_compute. discriminate.
  - vm_compute. reflexivity.
  - destruct Hreset as [H _]; [vm_compute; discriminate | exact H].
Defined.

Lemma handle_unreachable disabled e s :
  isVerified s = false -> isPointerEvent e = true ->
  Qmax 0 (containerWidth s - HANDLE_WIDTH) + HANDLE_WIDTH / 2 + tolerance < targetCenter s ->
  isVerified (handle disabled e s).1 = false
  /\ puzzlePosition (handle disabled e s).1 = puzzlePosition s
  /\ containerWidth (handle disabled e s).1 = containerWidth s.
Proof.
  intros Hv He Hfar. destruct (handle_dispatch disabled e s) as [-> _].
  destruct (listenersEffect_fields disabled s (dispatch disabled e s).1)
    as (-> & _ & _ & -> & ->).
  destruct e as [| clientX rectLeft | | offsetWidth | random]; try discriminate;
    cbn [dispatch fst].
  - unfold handleMouseDown. destruct (disabled || isVerified s)%bool; cbn; auto.
  - destruct (listeners s) as [captured |]; [| cbn; auto].
    unfold handleMouseMove.
    destruct (negb (isDragging s) || captured || isVerified s)%bool; [cbn; auto |].
    set (newPosition := Qmax 0 _).
    destruct (checkVerification newPosition s) eqn:E; [| cbn; auto].
    exfalso. apply checkVerification_iff in E. apply Qabs_Qle_condition in E.
    destruct (clamp_bounds 0 (containerWidth s - HANDLE_WIDTH)
                (clientX - rectLeft - HANDLE_WIDTH / 2)) as [Hlo Hhi].
    fold newPosition in Hlo, Hhi. clearbody newPosition.
    unfold sliderCenter in *. halves. lra.
  - destruct (listeners s) as [captured |]; [| cbn; auto].
    unfold handleMouseUp. destruct (isDragging s); cbn; auto.
Qed.

(** X15: A target whose centre lies more than [tolerance] beyond the rightmost
    position of the centre of the handle is out of reach: no sequence of
    presses, moves and releases solves the puzzle.  The puzzle drawn on
    mount is drawn for a track of 300 px, so this happens when the
    measured track is narrower and the draw is high. *)
Theorem unreachable_target_never_verifies
    (disabled : bool) (events : list Event) (s : State) :
  isVerified s = false ->
  forallb isPointerEvent events = true ->
  Qmax 0 (containerWidth s - HANDLE_WIDTH) + HANDLE_WIDTH / 2 + tolerance < targetCenter s ->
  isVerified (captchaAfter disabled events s) = false.
Proof.
  revert s. induction events as [| e events IH]; intros s Hv Hp Hfar; [exact Hv |].
  cbn [forallb] in Hp. apply andb_true_iff in Hp as [He Hp].
  destruct (handle_unreachable disabled e s Hv He Hfar) as (Hv' & Hp' & Hw').
  rewrite captchaAfter_cons. apply IH; [exact Hv' | exact Hp |].
  unfold targetCenter in *. now rewrite Hp', Hw'.
Qed.

(** An instance: mounted with a draw of 0.95 in a container of 280 px
    (the minimum width of the style sheet), the target is at 216, its
    centre at 232, and the handle's centre stops at 220. *)
Lemma unreachable_target_never_verifies_witness :
  isVerified
    (captchaAfter false [MouseDown; MouseMove 232 0; MouseMove 400 0; MouseUp]
       (mount 0.95 280).1) = false.
Proof.
  apply unreachable_target_never_verifies.
  - reflexivity.
  - reflexivity.
  - vm_compute. reflexivity.
Defined.

End PuzzleExtras.

(** ** Scales, the Apply button and the banner *)

Section PageExtras.
Import Js Facts MetricsSimulator.

Lemma hasChanges_iff s :
  hasChanges s = true
  <-> exists key m a,
        metrics s !! key = Some m /\ appliedMetrics s !! key = Some a
        /\ PrimFloat.eqb (scale m) (scale a) = false.
Proof.
  unfold hasChanges. rewrite existsb_exists. split.
  - intros ([key m] & Hin & H). apply list_elem_of_In, elem_of_map_to_list in Hin.
    destruct (appliedMetrics s !! key) as [a |] eqn:Ha; [| discriminate].
    exists key, m, a. repeat split; try assumption. now apply negb_true_iff.
  - intros (key & m & a & Hm & Ha & H). exists (key, m). split.
    + now apply list_elem_of_In, elem_of_map_to_list.
    + rewrite Ha. now apply negb_true_iff.
Qed.

(** X16: With nothing pending, moving one slider enables the Apply button
    exactly when the new scale differs from the applied one: moving it
    back to the applied scale leaves nothing to apply. *)
Theorem slider_decides_pending_changes
    (metricName : string) (newScale : float) (s : State) (m a : Metric) :
  hasChanges s = false ->
  metrics s !! metricName = Some m ->
  appliedMetrics s !! metricName = Some a ->
  hasChanges (handleScaleChange metricName newScale s)
  = negb (PrimFloat.eqb newScale (scale a))
  /\ metrics (handleScaleChange metricName newScale s) !! metricName
     = Some {| value := value m; scale := newScale; unit := unit m; color := color m |}
  /\ (forall key, key <> metricName ->
        metrics (handleScaleChange metricName newScale s) !! key = metrics s !! key)
  /\ appliedMetrics (handleScaleChange metricName newScale s) = appliedMetrics s.
Proof.
  intros Hno Hm Ha. split; [| split; [| split]].
  - destruct (PrimFloat.eqb newScale (scale a)) eqn:E; cbn [negb].
    + destruct (hasChanges (handleScaleChange metricName newScale s)) eqn:Hc; [| reflexivity].
      apply hasChanges_iff in Hc as (key & m' & a' & Hm' & Ha' & Hne).
      unfold handleScaleChange in Hm', Ha'. cbn [metrics appliedMetrics setMetrics] in Hm', Ha'.
      destruct (decide (key = metricName)) as [-> | Hkey].
      * rewrite lookup_alter_eq, Hm in Hm'. cbn in Hm'. injection Hm' as <-.
        rewrite Ha in Ha'. injection Ha' as <-. cbn [scale withScale] in Hne. congruence.
      * rewrite lookup_alter_ne in Hm' by congruence.
        assert (hasChanges s = true) by (apply hasChanges_iff; eauto 6). congruence.
    + apply hasChanges_iff. exists metricName, (withScale newScale m), a.
      unfold handleScaleChange. cbn [metrics appliedMetrics setMetrics].
      rewrite lookup_alter_eq, Hm. auto.
  - unfold handleScaleChange. cbn [metrics setMetrics]. now rewrite lookup_alter_eq, Hm.
  - intros key Hkey. unfold handleScaleChange. cbn [metrics setMetrics].
    now rewrite lookup_alter_ne by congruence.
  - reflexivity.
Qed.

(** An instance: on the first render the CPU slider is moved to 2, and
    from there back to 1. *)
Lemma slider_decides_pending_changes_witness :
  hasChanges (handleScaleChange "cpu_seconds_total" 2 Scenario.freshPage) = true
  /\ hasChanges (handleScaleChange "cpu_seconds_total" 1 Scenario.freshPage) = false.
Proof.
  split.
  - destruct (slider_decides_pending_changes "cpu_seconds_total" 2 Scenario.freshPage
                {| value := 1540.25; scale := 1; unit := "s"; color := "text-red-500" |}
                {| value := 1540.25; scale := 1; unit := "s"; color := "text-red-500" |})
      as (H & _); [vm_compute; reflexivity | reflexivity | reflexivity |].
    rewrite H. vm_compute. reflexivity.
  - destruct (slider_decides_pending_changes "cpu_seconds_total" 1 Scenario.freshPage
                {| value := 1540.25; scale := 1; unit := "s"; color := "text-red-500" |}
                {| value := 1540.25; scale := 1; unit := "s"; color := "text-red-500" |})
      as (H & _); [vm_compute; reflexivity | reflexivity | reflexivity |].
    rewrite H. vm_compute. reflexivity.
Defined.

(** X17: Reset All puts every slider at 1 and touches nothing else; doing it
    twice is doing it once.  It does not return to the applied scales:
    afterwards there are changes to apply exactly when some applied scale
    is not 1. *)
Theorem resetAll_returns_sliders_to_one (s : State) :
  (forall key, metrics (resetAll s) !! key = withScale 1 <$> metrics s !! key)
  /\ resetAll (resetAll s) = resetAll s
  /\ appliedMetrics (resetAll s) = appliedMetrics s
  /\ (hasChanges (resetAll s) = true
      <-> exists key m a,
            metrics s !! key = Some m /\ appliedMetrics s !! key = Some a
            /\ PrimFloat.eqb 1 (scale a) = false).
Proof.
  split; [| split; [| split]].
  - intros key. unfold resetAll. cbn [metrics setMetrics]. apply lookup_fmap.
  - unfold resetAll, setMetrics. cbn [metrics appliedMetrics localStorage lastApplied
      isApplying lastError isCaptchaVerified captchaKey rateLimitInfo captcha].
    f_equal. rewrite <- map_fmap_compose. apply map_fmap_ext. reflexivity.
  - reflexivity.
  - rewrite hasChanges_iff. unfold resetAll. cbn [metrics appliedMetrics setMetrics]. split.
    + intros (key & m' & a & Hm' & Ha & H). rewrite lookup_fmap in Hm'.
      destruct (metrics s !! key) as [m |] eqn:Hm; [| discriminate].
      cbn in Hm'. injection Hm' as <-. exists key, m, a. auto.
    + intros (key & m & a & Hm & Ha & H). exists key, (withScale 1 m), a.
      rewrite lookup_fmap, Hm. auto.
Qed.

(** X18: What a click on an enabled Apply button sends is what the cards
    preview: one request that holds for every metric the previewed
    [currentValue] and the metric's unit; and the same values are what a
    success will apply.  Each entry is stamped with the clock reading
    taken while it is built, and the body with one taken after them. *)
Theorem click_sends_previewed_values (now : Clock) (a : App) :
  isApplyDisabled (ui a) = false ->
  dom (metrics (ui a)) ⊆ dom (appliedMetrics (ui a)) ->
  exists p,
    clickApply now a
    = {| ui := setLastError None (setIsApplying true (ui a));
         inFlight := inFlight a ++ [p]; sent := sent a ++ [request p] |}
    /\ timestamp (request p) = bodyNow now
    /\ dom (metricsPayload (request p)) = dom (metrics (ui a))
    /\ (forall key m, metrics (ui a) !! key = Some m ->
        exists v,
          currentValue key (ui a) = Some v
          /\ metricsPayload (request p) !! key
             = Some {| payloadValue := v; payloadUnit := unit m;
                       payloadTimestamp := entryNow now key |}
          /\ newAppliedMetrics p !! key
             = Some {| value := v; scale := scale m; unit := unit m; color := color m |}).
Proof.
  intros Hen Hdom. destruct (isApplyDisabled_false _ Hen) as (_ & _ & Hv & Hl).
  unfold clickApply. rewrite Hen. unfold callApplyChanges.
  rewrite (applyChanges_begin_enabled now _ Hv Hl).
  destruct (computeNewAppliedMetrics (metrics (ui a)) (appliedMetrics (ui a)))
    as [new |] eqn:Hnew.
  2:{ unfold computeNewAppliedMetrics in Hnew. now rewrite bool_decide_true in Hnew. }
  eexists. split; [reflexivity |]. cbn [request timestamp metricsPayload newAppliedMetrics].
  split; [reflexivity |]. split.
  - unfold computeNewAppliedMetrics in Hnew.
    rewrite bool_decide_true in Hnew by assumption. injection Hnew as <-.
    apply set_eq. intros key. unfold metricsPayloadOf.
    rewrite !elem_of_dom, !map_lookup_imap.
    destruct (metrics (ui a) !! key) as [m |] eqn:Hm; cbn.
    + assert (Hin : key ∈ dom (appliedMetrics (ui a))) by (apply Hdom, elem_of_dom; eauto).
      apply elem_of_dom in Hin as [a0 Ha0]. unfold rescale. rewrite Ha0. cbn.
      split; intros _; eauto.
    + split; intros [x Hx]; discriminate.
  - intros key m Hm.
    destruct (computeNewAppliedMetrics_lookup _ _ _ _ _ Hnew Hm) as (a0 & Ha0 & Hnk).
    exists (value a0 / scale a0 * scale m)%float. split; [| split].
    + unfold currentValue. now rewrite Hm, Ha0.
    + unfold metricsPayloadOf. now rewrite map_lookup_imap, Hnk.
    + exact Hnk.
Qed.

(** An instance: the page with the puzzle solved and the CPU scale at 2;
    the clock advances by a millisecond while the request is built. *)
Lemma click_sends_previewed_values_witness :
  exists p,
    clickApply {| entryNow := fun _ => Scenario.t0 + 5000; bodyNow := Scenario.t0 + 5001 |}
      Scenario.ready
    = {| ui := setLastError None (setIsApplying true (ui Scenario.ready));
         inFlight := inFlight Scenario.ready ++ [p];
         sent := sent Scenario.ready ++ [request p] |}
    /\ timestamp (request p) = Scenario.t0 + 5001
    /\ metricsPayload (request p) !! "cpu_seconds_total"%string
       = Some {| payloadValue := 3080.5; payloadUnit := "s";
                 payloadTimestamp := Scenario.t0 + 5000 |}.
Proof.
  destruct (click_sends_previewed_values
              {| entryNow := fun _ => Scenario.t0 + 5000; bodyNow := Scenario.t0 + 5001 |}
              Scenario.ready)
    as (p & Hp & Htime & _ & Hvalues).
  - vm_compute. reflexivity.
  - vm_compute. intros x. exact id.
  - exists p. split; [exact Hp |]. split; [exact Htime |].
    destruct (Hvalues "cpu_seconds_total"%string
                {| value := 1540.25; scale := 2; unit := "s"; color := "text-red-500" |})
      as (v & Hv & Hpay & _); [vm_compute; reflexivity |].
    rewrite Hpay. vm_compute in Hv. injection Hv as <-. reflexivity.
Defined.

(** *** The countdown and the banner *)

Lemma setRateLimitInfo_same s : setRateLimitInfo (rateLimitInfo s) s = s.
Proof. now destruct s. Qed.

Lemma countdown_iter (n : nat) (s : State) :
  0 <= remainingTime (rateLimitInfo s) ->
  Nat.iter n countdown s
  = setRateLimitInfo
      {| isLimited := isLimited (rateLimitInfo s);
         remainingTime := Z.max 0 (remainingTime (rateLimitInfo s) - Z.of_nat n);
         appliesInLastMinute := appliesInLastMinute (rateLimitInfo s) |} s.
Proof.
  intros Hr. induction n as [| n IH].
  - change (Nat.iter 0 countdown s) with s.
    rewrite <- (setRateLimitInfo_same s) at 1. f_equal.
    revert Hr. destruct (rateLimitInfo s) as [l r c].
    cbn [isLimited remainingTime appliesInLastMinute]. intros Hr. f_equal. lia.
  - change (Nat.iter (S n) countdown s) with (countdown (Nat.iter n countdown s)).
    rewrite IH. unfold countdown.
    cbn [rateLimitInfo setRateLimitInfo remainingTime isLimited appliesInLastMinute].
    destruct (Z.gtb_spec (Z.max 0 (remainingTime (rateLimitInfo s) - Z.of_nat n)) 0);
      unfold setRateLimitInfo; cbn; f_equal; f_equal; lia.
Qed.

(** X19: The countdown only counts: after [n] of its ticks the remaining time
    is the old one less [n], not below 0, and nothing else has changed.
    It never lifts the limit, so the Apply button stays as it was, and
    once the count is at 0 the button reads "Rate Limited" and the
    banner, for fewer than three applies, "Rate limit active", until
    the next evaluation. *)
Theorem countdown_never_lifts_limit (n : nat) (s : State) :
  0 <= remainingTime (rateLimitInfo s) ->
  Nat.iter n countdown s
  = setRateLimitInfo
      {| isLimited := isLimited (rateLimitInfo s);
         remainingTime := Z.max 0 (remainingTime (rateLimitInfo s) - Z.of_nat n);
         appliesInLastMinute := appliesInLastMinute (rateLimitInfo s) |} s
  /\ isApplyDisabled (Nat.iter n countdown s) = isApplyDisabled s
  /\ (isLimited (rateLimitInfo s) = true -> isApplying s = false ->
      remainingTime (rateLimitInfo s) <= Z.of_nat n ->
      applyButtonLabel (Nat.iter n countdown s) = "Rate Limited"%string
      /\ RateLimitManager.bannerTitle (rateLimitInfo (Nat.iter n countdown s))
         = Some "Rate Limited"%string
      /\ (appliesInLastMinute (rateLimitInfo s) < 3 ->
          RateLimitManager.bannerText (rateLimitInfo (Nat.iter n countdown s))
          = Some "Rate limit active"%string)).
Proof.
  intros Hr. rewrite (countdown_iter n s Hr). split; [reflexivity |]. split; [reflexivity |].
  intros Hl Ha Hn.
  unfold applyButtonLabel, RateLimitManager.bannerTitle, RateLimitManager.bannerText,
    RateLimitManager.APPLY_LIMIT_PER_15MINUTES.
  cbn [rateLimitInfo setRateLimitInfo isApplying isLimited remainingTime appliesInLastMinute].
  rewrite Hl, Ha.
  replace (Z.max 0 (remainingTime (rateLimitInfo s) - Z.of_nat n)) with 0 by lia.
  cbn [Z.gtb Z.compare]. split; [reflexivity |]. split; [reflexivity |].
  intros Hc. destruct (Z.geb_spec (appliesInLastMinute (rateLimitInfo s)) 3); [lia |].
  reflexivity.
Qed.

(** An instance: the page four seconds after its only apply, then six
    countdown ticks with no evaluation in between. *)
Lemma countdown_never_lifts_limit_witness :
  exists s,
    updateRateLimitInfo (Scenario.t0 + 4000) Scenario.oneApplyPage = Normal s
    /\ remainingTime (rateLimitInfo s) = 6
    /\ applyButtonLabel (Nat.iter 6 countdown s) = "Rate Limited"%string
    /\ RateLimitManager.bannerText (rateLimitInfo (Nat.iter 6 countdown s))
       = Some "Rate limit active"%string.
Proof.
  destruct (updateRateLimitInfo (Scenario.t0 + 4000) Scenario.oneApplyPage) as [s | |] eqn:E;
    [| vm_compute in E; discriminate..].
  assert (Hinfo : rateLimitInfo s
                  = {| isLimited := true; remainingTime := 6; appliesInLastMinute := 1 |}).
  { assert (E' : bind (updateRateLimitInfo (Scenario.t0 + 4000) Scenario.oneApplyPage)
                   (fun s => Normal (rateLimitInfo s))
                 = Normal {| isLimited := true; remainingTime := 6;
                             appliesInLastMinute := 1 |}) by (vm_compute; reflexivity).
    rewrite E in E'. cbn [bind] in E'. now injection E'. }
  assert (Happlying : isApplying s = false).
  { assert (E' : bind (updateRateLimitInfo (Scenario.t0 + 4000) Scenario.oneApplyPage)
                   (fun s => Normal (isApplying s)) = Normal false)
      by (vm_compute; reflexivity).
    rewrite E in E'. cbn [bind] in E'. now injection E'. }
  exists s. split; [reflexivity |]. split; [now rewrite Hinfo |].
  destruct (countdown_never_lifts_limit 6 s) as (_ & _ & Hzero).
  - rewrite Hinfo. cbn. lia.
  - destruct Hzero as (Hlabel & _ & Htext).
    + now rewrite Hinfo.
    + exact Happlying.
    + rewrite Hinfo. cbn. lia.
    + split; [exact Hlabel |]. apply Htext. rewrite Hinfo. cbn. lia.
Defined.

(** X20: The banner after an evaluation: it is shown exactly when the snapshot
    is limited; with time remaining it is the cooldown banner with that
    time, and otherwise it is the quota banner.  The sentence "Rate
    limit active" is never what an evaluation shows. *)
Theorem evaluation_never_shows_fallback (now : Z) (recentApplies : list Z) :
  RateLimitManager.bannerText (rateLimitSnapshot now recentApplies)
  <> Some "Rate limit active"%string
  /\ (RateLimitManager.bannerText (rateLimitSnapshot now recentApplies) = None
      <-> isLimited (rateLimitSnapshot now recentApplies) = false)
  /\ (0 < remainingTime (rateLimitSnapshot now recentApplies) ->
      isLimited (rateLimitSnapshot now recentApplies) = true
      /\ RateLimitManager.bannerTitle (rateLimitSnapshot now recentApplies)
         = Some "Cooldown Active"%string
      /\ RateLimitManager.bannerText (rateLimitSnapshot now recentApplies)
         = Some ("Wait "
                 +:+ RateLimitManager.formatTime
                       (remainingTime (rateLimitSnapshot now recentApplies))
                 +:+ " before applying changes"))
  /\ (isLimited (rateLimitSnapshot now recentApplies) = true ->
      remainingTime (rateLimitSnapshot now recentApplies) <= 0 ->
      RateLimitManager.bannerTitle (rateLimitSnapshot now recentApplies)
      = Some "Rate Limited"%string
      /\ RateLimitManager.bannerText (rateLimitSnapshot now recentApplies)
         = Some "You've used all 3 applies in the last 15 minutes"%string).
Proof.
  unfold RateLimitManager.bannerText, RateLimitManager.bannerTitle,
    RateLimitManager.APPLY_LIMIT_PER_15MINUTES.
  unfold rateLimitSnapshot, RECOMMENDED_COOLDOWN, APPLY_LIMIT_PER_15MINUTES.
  cbn [isLimited remainingTime appliesInLastMinute].
  set (last := match recentApplies with [] => 0 | t :: ts => Math_max t ts end).
  pose proof (Math_ceil_div_spec (10 * 1000 - (now - last)) 1000 ltac:(lia)) as Hc.
  set (r := Math_ceil_div (10 * 1000 - (now - last)) 1000) in *.
  destruct (Z.ltb_spec (now - last) (10 * 1000)) as [Hcool | Hcool]; cbn [orb].
  - assert (Hr : (r >? 0) = true) by (apply Z.gtb_lt; lia). rewrite Hr.
    split; [cbn; discriminate |]. split; [split; discriminate |]. split.
    + intros _. split; [reflexivity |]. split; reflexivity.
    + intros _ Hle. apply Z.gtb_lt in Hr. lia.
  - destruct (Z.geb_spec (Z.of_nat (length recentApplies)) 3) as [Hq | Hq];
      cbn [Z.gtb Z.compare].
    + split; [discriminate |]. split; [split; discriminate |].
      split; [intros H; lia |]. intros _ _. split; reflexivity.
    + split; [discriminate |]. split; [split; reflexivity |].
      split; [intros H; lia |]. intros H. discriminate.
Qed.

End PageExtras.

(** ** What holds along every run of the page *)

Section InvariantExtras.
Import Js Facts MetricsSimulator.

(** *** What each handler leaves alone *)

Lemma updateRateLimitInfo_frame now s s' :
  updateRateLimitInfo now s = Normal s' ->
  metrics s' = metrics s /\ appliedMetrics s' = appliedMetrics s
  /\ isCaptchaVerified s' = isCaptchaVerified s /\ captcha s' = captcha s
  /\ captchaKey s' = captchaKey s.
Proof.
  unfold updateRateLimitInfo.
  destruct (readRecentApplies _ _) as [l | e |]; cbn [bind]; [| discriminate..].
  now intros [= <-].
Qed.

Lemma countdown_frame s :
  metrics (countdown s) = metrics s /\ appliedMetrics (countdown s) = appliedMetrics s
  /\ isCaptchaVerified (countdown s) = isCaptchaVerified s
  /\ captcha (countdown s) = captcha s.
Proof. unfold countdown. now destruct (remainingTime (rateLimitInfo s) >? 0). Qed.

Lemma remountCaptcha_frame random offsetWidth s :
  metrics (remountCaptcha random offsetWidth s) = metrics s
  /\ appliedMetrics (remountCaptcha random offsetWidth s) = appliedMetrics s.
Proof.
  unfold remountCaptcha.
  now destruct (SlidingCaptcha.mount random offsetWidth) as [c [b |]].
Qed.

Lemma onCaptcha_frame e s :
  metrics (onCaptcha e s) = metrics s /\ appliedMetrics (onCaptcha e s) = appliedMetrics s.
Proof.
  unfold onCaptcha.
  now destruct (SlidingCaptcha.handle (isApplying s) e (captcha s)) as [c [b |]].
Qed.

Lemma applyChanges_begin_frame now s :
  metrics (applyChanges_begin now s).1 = metrics s
  /\ appliedMetrics (applyChanges_begin now s).1 = appliedMetrics s
  /\ isCaptchaVerified (applyChanges_begin now s).1 = isCaptchaVerified s
  /\ captcha (applyChanges_begin now s).1 = captcha s.
Proof.
  unfold applyChanges_begin.
  destruct (isCaptchaVerified s) eqn:Hv; cbn [negb]; [| now rewrite <- Hv at 3].
  destruct (isLimited (rateLimitInfo s)).
  - destruct (remainingTime (rateLimitInfo s) >? 0); now rewrite <- Hv at 3.
  - destruct (computeNewAppliedMetrics (metrics s) (appliedMetrics s));
      now rewrite <- Hv at 3.
Qed.

Lemma applyChanges_begin_request now s p :
  (applyChanges_begin now s).2 = Some p ->
  computeNewAppliedMetrics (metrics s) (appliedMetrics s) = Some (newAppliedMetrics p)
  /\ request p = {| metricsPayload := metricsPayloadOf now (newAppliedMetrics p);
                    timestamp := bodyNow now |}
  /\ isCaptchaVerified s = true.
Proof.
  unfold applyChanges_begin.
  destruct (isCaptchaVerified s); cbn [negb]; [| discriminate].
  destruct (isLimited (rateLimitInfo s)).
  - destruct (remainingTime (rateLimitInfo s) >? 0); discriminate.
  - destruct (computeNewAppliedMetrics (metrics s) (appliedMetrics s)); [| discriminate].
    now intros [= <-].
Qed.

Lemma onSuccess_frame p env s s' :
  onSuccess p env s = Normal s' ->
  metrics s' = metrics s
  /\ appliedMetrics s' = newAppliedMetrics p
  /\ ((captchaKey s' = captchaKey s /\ captcha s' = captcha s
       /\ isCaptchaVerified s' = isCaptchaVerified s)
      \/ captchaKey s' = captchaKey s + 1).
Proof.
  unfold onSuccess.
  destruct (readRecentApplies _ _) as [l | e |]; cbn [tryCatch]; [| | discriminate].
  - destruct (updateRateLimitInfo _ _) as [s6 | e |] eqn:E; cbn [tryCatch];
      [| | discriminate]; intros [= <-].
    + destruct (updateRateLimitInfo_frame _ _ _ E) as (Hm & Ha & _ & _ & Hk).
      rewrite Hm, Ha, Hk. split; [reflexivity |]. split; [reflexivity |]. now right.
    + split; [reflexivity |]. split; [reflexivity |]. now right.
  - intros [= <-]. split; [reflexivity |]. split; [reflexivity |]. now left.
Qed.

(** *** The puzzle and the page agree *)

Lemma dispatch_consistent disabled e c :
  (SlidingCaptcha.isVerified c = true ->
   SlidingCaptcha.checkVerification (SlidingCaptcha.sliderPosition c) c = true
   /\ SlidingCaptcha.isDragging c = false) ->
  (SlidingCaptcha.isVerified (SlidingCaptcha.dispatch disabled e c).1 = true ->
   SlidingCaptcha.checkVerification
     (SlidingCaptcha.sliderPosition (SlidingCaptcha.dispatch disabled e c).1)
     (SlidingCaptcha.dispatch disabled e c).1 = true
   /\ SlidingCaptcha.isDragging (SlidingCaptcha.dispatch disabled e c).1 = false)
  /\ SlidingCaptcha.isVerified (SlidingCaptcha.dispatch disabled e c).1
     = match (SlidingCaptcha.dispatch disabled e c).2 with
       | Some b => b
       | None => SlidingCaptcha.isVerified c
       end.
Proof.
  intros Hc.
  destruct e as [| clientX rectLeft | | offsetWidth | random];
    cbn [SlidingCaptcha.dispatch].
  - cbn [fst snd]. unfold SlidingCaptcha.handleMouseDown.
    destruct (disabled || SlidingCaptcha.isVerified c)%bool eqn:E; [auto |].
    apply orb_false_iff in E as [_ E]. cbn. split; [congruence | reflexivity].
  - destruct (SlidingCaptcha.listeners c) as [captured |]; [| auto].
    unfold SlidingCaptcha.handleMouseMove.
    destruct (negb (SlidingCaptcha.isDragging c) || captured
              || SlidingCaptcha.isVerified c)%bool eqn:E; [auto |].
    apply orb_false_iff in E as [_ E].
    set (newPosition := Qmax 0 _).
    destruct (SlidingCaptcha.checkVerification newPosition c) eqn:Hn; cbn [fst snd].
    + split; [| reflexivity]. intros _. split; [exact Hn | reflexivity].
    + cbn. split; [intros Hv; congruence | reflexivity].
  - destruct (SlidingCaptcha.listeners c) as [captured |]; [| auto].
    cbn [fst snd]. unfold SlidingCaptcha.handleMouseUp.
    destruct (SlidingCaptcha.isDragging c) eqn:Hd; cbn [negb].
    + cbn. split; [| reflexivity]. intros Hv. destruct (Hc Hv) as [_ Hd']. discriminate.
    + split; [| reflexivity]. intros Hv. destruct (Hc Hv) as [Hon _]. now split.
  - unfold SlidingCaptcha.updateWidth. cbn. split; [exact Hc | reflexivity].
  - cbn. split; [discriminate | reflexivity].
Qed.

Lemma handle_consistent disabled e c :
  (SlidingCaptcha.isVerified c = true ->
   SlidingCaptcha.checkVerification (SlidingCaptcha.sliderPosition c) c = true
   /\ SlidingCaptcha.isDragging c = false) ->
  (SlidingCaptcha.isVerified (SlidingCaptcha.handle disabled e c).1 = true ->
   SlidingCaptcha.checkVerification
     (SlidingCaptcha.sliderPosition (SlidingCaptcha.handle disabled e c).1)
     (SlidingCaptcha.handle disabled e c).1 = true
   /\ SlidingCaptcha.isDragging (SlidingCaptcha.handle disabled e c).1 = false)
  /\ SlidingCaptcha.isVerified (SlidingCaptcha.handle disabled e c).1
     = match (SlidingCaptcha.handle disabled e c).2 with
       | Some b => b
       | None => SlidingCaptcha.isVerified c
       end.
Proof.
  intros Hc. destruct (dispatch_consistent disabled e c Hc) as [Hc' Hv'].
  destruct (handle_dispatch disabled e c) as [-> ->].
  destruct (listenersEffect_fields disabled c (SlidingCaptcha.dispatch disabled e c).1)
    as (Ev & Es & Ed & Ep & _).
  rewrite Ev, Es, Ed. split; [| exact Hv'].
  intros Hv. destruct (Hc' Hv) as [Hon Hdrag]. split; [| exact Hdrag].
  unfold SlidingCaptcha.checkVerification, SlidingCaptcha.targetCenter in *.
  now rewrite Ep.
Qed.

Lemma onCaptcha_puzzleConsistent e s :
  puzzleConsistent s -> puzzleConsistent (onCaptcha e s).
Proof.
  intros [Hsame Hc]. unfold onCaptcha.
  pose proof (handle_consistent (isApplying s) e (captcha s) Hc) as [Hc' Hv'].
  destruct (SlidingCaptcha.handle (isApplying s) e (captcha s)) as [c [b |]];
    cbn [fst snd] in Hc', Hv'; unfold puzzleConsistent; cbn; (split; [congruence | exact Hc']).
Qed.

Lemma remountCaptcha_puzzleConsistent random offsetWidth s :
  puzzleConsistent (remountCaptcha random offsetWidth s).
Proof.
  unfold remountCaptcha, SlidingCaptcha.mount, SlidingCaptcha.generateNewPuzzle,
    puzzleConsistent.
  cbn. split; [reflexivity | discriminate].
Qed.

Lemma puzzleConsistent_same s s' :
  isCaptchaVerified s' = isCaptchaVerified s -> captcha s' = captcha s ->
  puzzleConsistent s -> puzzleConsistent s'.
Proof. unfold puzzleConsistent. now intros -> ->. Qed.

Lemma applyChanges_resume_frame p env s s' :
  applyChanges_resume p env s = Normal s' ->
  metrics s' = metrics s
  /\ (appliedMetrics s' = appliedMetrics s \/ appliedMetrics s' = newAppliedMetrics p)
  /\ (puzzleConsistent s -> puzzleConsistent s').
Proof.
  unfold applyChanges_resume.
  destruct (result env) as [status data | e].
  - destruct (ok status); cbn [negb].
    + destruct (onSuccess p env s) as [s'' | |] eqn:E; cbn [bind]; [| discriminate..].
      intros [= <-]. destruct (onSuccess_frame _ _ _ _ E) as (Hm & Ha & Hk).
      unfold render, finally.
      change (captchaKey (setIsApplying false s'')) with (captchaKey s'').
      destruct (Z.eqb_spec (captchaKey s'') (captchaKey s)) as [Hkey | Hkey].
      * destruct Hk as [(_ & Hc & Hv) | Hk]; [| lia].
        cbn [metrics appliedMetrics]. split; [exact Hm |]. split; [now right |].
        now apply puzzleConsistent_same.
      * destruct (remountCaptcha_frame (random env) (offsetWidth env) (setIsApplying false s''))
          as [Hm' Ha'].
        rewrite Hm', Ha'. cbn [metrics appliedMetrics setIsApplying].
        split; [exact Hm |]. split; [now right |].
        intros _. apply remountCaptcha_puzzleConsistent.
    + intros [= <-]. cbn. split; [reflexivity |]. split; [now left |].
      now apply puzzleConsistent_same.
  - intros [= <-]. cbn. split; [reflexivity |]. split; [now left |].
    now apply puzzleConsistent_same.
Qed.

Lemma step_puzzleConsistent e a a' :
  step e a = Normal a' -> puzzleConsistent (ui a) -> puzzleConsistent (ui a').
Proof.
  intros Hstep Hinv.
  destruct e as [now | | metricName newScale | | now | env | e]; cbn [step] in Hstep.
  - destruct (updateRateLimitInfo now (ui a)) as [s | e |] eqn:E; cbn [tryCatch] in Hstep;
      [| | discriminate]; injection Hstep as <-; [| exact Hinv].
    destruct (updateRateLimitInfo_frame _ _ _ E) as (_ & _ & Hv & Hc & _).
    now apply (puzzleConsistent_same (ui a)).
  - injection Hstep as <-. destruct (countdown_frame (ui a)) as (_ & _ & Hv & Hc).
    now apply (puzzleConsistent_same (ui a)).
  - injection Hstep as <-. exact Hinv.
  - injection Hstep as <-. now destruct (clickResetAll_cases a) as [-> | ->].
  - injection Hstep as <-. unfold clickApply, callApplyChanges.
    destruct (isApplyDisabled (ui a)); [exact Hinv |].
    destruct (applyChanges_begin_frame now (ui a)) as (_ & _ & Hv & Hc).
    destruct (applyChanges_begin now (ui a)) as [s [p |]]; cbn [fst ui] in *;
      now apply (puzzleConsistent_same (ui a)).
  - destruct (inFlight a) as [| p rest]; [now injection Hstep as <- |].
    destruct (applyChanges_resume p env (ui a)) as [s | |] eqn:E; cbn [bind] in Hstep;
      [| discriminate..].
    injection Hstep as <-. now apply (applyChanges_resume_frame _ _ _ _ E).
  - injection Hstep as <-. now apply onCaptcha_puzzleConsistent.
Qed.

Lemma run_puzzleConsistent events a a' :
  run events a = Normal a' -> puzzleConsistent (ui a) -> puzzleConsistent (ui a').
Proof.
  revert a. induction events as [| e events IH]; intros a Hrun Hinv.
  - now injection Hrun as <-.
  - cbn [run] in Hrun. destruct (step e a) as [a1 | |] eqn:E; cbn [bind] in Hrun;
      [| discriminate..].
    eapply IH; [exact Hrun |]. now apply (step_puzzleConsistent _ _ _ E).
Qed.

Lemma mountPage_ui ls now nowEvaluated random offsetWidth a :
  mountPage ls now nowEvaluated random offsetWidth = Normal a ->
  updateRateLimitInfo nowEvaluated (remountCaptcha random offsetWidth (firstRender ls now))
  = Normal (ui a)
  /\ inFlight a = [] /\ sent a = [].
Proof.
  unfold mountPage.
  destruct (updateRateLimitInfo _ _) as [s | |]; cbn [bind]; [| discriminate..].
  now intros [= <-].
Qed.

(** X21: From the mount on, whatever happens, the page holds the puzzle for
    solved exactly when the component does, and then the handle sits
    within tolerance of the target.  So a click on Apply sends a request
    only while the handle is on the target. *)
Theorem puzzle_state_agrees
    (ls : gmap string string) (now nowEvaluated : Z) (random offsetWidth : Q)
    (events : list Event) (a a' : App) :
  mountPage ls now nowEvaluated random offsetWidth = Normal a ->
  run events a = Normal a' ->
  puzzleConsistent (ui a')
  /\ (forall now', sent (clickApply now' a') <> sent a' ->
        SlidingCaptcha.checkVerification
          (SlidingCaptcha.sliderPosition (captcha (ui a'))) (captcha (ui a')) = true).
Proof.
  intros Hmount Hrun.
  assert (Hinv : puzzleConsistent (ui a')).
  { apply (run_puzzleConsistent _ _ _ Hrun).
    destruct (mountPage_ui _ _ _ _ _ _ Hmount) as (Hui & _ & _).
    destruct (updateRateLimitInfo_frame _ _ _ Hui) as (_ & _ & Hv & Hc & _).
    apply (puzzleConsistent_same _ _ Hv Hc), remountCaptcha_puzzleConsistent. }
  split; [exact Hinv |]. intros now' Hsent.
  unfold clickApply in Hsent.
  destruct (isApplyDisabled (ui a')) eqn:Hen; [congruence |].
  destruct (isApplyDisabled_false _ Hen) as (_ & _ & Hv & _).
  destruct Hinv as [Hsame Hc]. apply Hc. congruence.
Qed.

(** An instance: the page that stored nothing, its puzzle solved and one
    scale moved. *)
Lemma puzzle_state_agrees_witness :
  puzzleConsistent (ui Scenario.ready).
Proof.
  destruct (puzzle_state_agrees ∅ Scenario.t0 Scenario.t0 0.5%Q 340%Q
              (Scenario.solvePuzzle ++ [ScaleChange "cpu_seconds_total" 2])
              Scenario.mounted Scenario.ready) as [H _].
  - vm_compute. reflexivity.
  - vm_compute. reflexivity.
  - exact H.
Defined.

(** *** The cards never change *)

Lemma unit_alter newScale key (m : gmap string Metric) :
  unit <$> alter (withScale newScale) key m = unit <$> m.
Proof.
  apply map_eq. intros i. rewrite !lookup_fmap.
  destruct (decide (i = key)) as [-> | Hne].
  - rewrite lookup_alter_eq. now destruct (m !! key).
  - now rewrite lookup_alter_ne by congruence.
Qed.

Lemma unit_reset (m : gmap string Metric) : unit <$> (withScale 1 <$> m) = unit <$> m.
Proof. rewrite <- map_fmap_compose. now apply map_fmap_ext. Qed.

Lemma unit_payload now (m : gmap string Metric) :
  payloadUnit <$> metricsPayloadOf now m = unit <$> m.
Proof.
  apply map_eq. intros key. unfold metricsPayloadOf.
  rewrite !lookup_fmap, map_lookup_imap. now destruct (m !! key).
Qed.

Lemma computeNewAppliedMetrics_units current applied new :
  computeNewAppliedMetrics current applied = Some new -> unit <$> new = unit <$> current.
Proof.
  unfold computeNewAppliedMetrics. case_bool_decide as Hdom; [| discriminate].
  intros [= <-]. apply map_eq. intros key. rewrite !lookup_fmap, map_lookup_imap.
  destruct (current !! key) as [m |] eqn:Hm; [| reflexivity].
  assert (Hin : key ∈ dom applied) by (apply Hdom, elem_of_dom; eauto).
  apply elem_of_dom in Hin as [a Ha]. cbn. unfold rescale. now rewrite Ha.
Qed.

Lemma sameCards_dom s :
  sameCards s -> dom (metrics s) = dom (appliedMetrics s).
Proof.
  intros [Hm Ha]. rewrite <- (dom_fmap_L unit (metrics s)), Hm, <- Ha.
  apply dom_fmap_L.
Qed.

Lemma sameCards_same s s' :
  metrics s' = metrics s -> appliedMetrics s' = appliedMetrics s ->
  sameCards s -> sameCards s'.
Proof. unfold sameCards. now intros -> ->. Qed.

Lemma step_cardsEverywhere e a a' :
  step e a = Normal a' -> cardsEverywhere a -> cardsEverywhere a'.
Proof.
  intros Hstep Hinv. pose proof Hinv as (Hui & Hflight & Hsent).
  destruct e as [now | | metricName newScale | | now | env | e]; cbn [step] in Hstep.
  - destruct (updateRateLimitInfo now (ui a)) as [s | e |] eqn:E; cbn [tryCatch] in Hstep;
      [| | discriminate]; injection Hstep as <-; [| exact Hinv].
    destruct (updateRateLimitInfo_frame _ _ _ E) as (Hm & Ha & _).
    split; [now apply (sameCards_same (ui a)) | now split].
  - injection Hstep as <-. destruct (countdown_frame (ui a)) as (Hm & Ha & _).
    split; [now apply (sameCards_same (ui a)) | now split].
  - injection Hstep as <-. split; [| now split]. destruct Hui as [Hm Ha].
    split; [| exact Ha]. cbn. now rewrite unit_alter.
  - injection Hstep as <-. destruct (clickResetAll_cases a) as [-> | ->]; [exact Hinv |].
    split; [| now split]. destruct Hui as [Hm Ha].
    split; [| exact Ha]. cbn. now rewrite unit_reset.
  - injection Hstep as <-. unfold clickApply, callApplyChanges.
    destruct (isApplyDisabled (ui a)); [exact Hinv |].
    destruct (applyChanges_begin_frame now (ui a)) as (Hm & Ha & _).
    pose proof (applyChanges_begin_request now (ui a)) as Hreq.
    destruct (applyChanges_begin now (ui a)) as [s [p |]]; cbn [fst snd ui inFlight sent] in *.
    + destruct (Hreq p eq_refl) as (Hnew & Hr & _).
      assert (Hp : unit <$> newAppliedMetrics p = cards).
      { rewrite (computeNewAppliedMetrics_units _ _ _ Hnew). apply Hui. }
      split; [now apply (sameCards_same (ui a)) |]. split.
      * apply Forall_app. split; [exact Hflight |]. now constructor.
      * apply Forall_app. split; [exact Hsent |]. constructor; [| constructor].
        rewrite Hr. cbn [metricsPayload]. now rewrite unit_payload.
    + split; [now apply (sameCards_same (ui a)) | now split].
  - destruct (inFlight a) as [| p rest] eqn:Hin; [injection Hstep as <-; exact Hinv |].
    destruct (applyChanges_resume p env (ui a)) as [s | |] eqn:E; cbn [bind] in Hstep;
      [| discriminate..].
    injection Hstep as <-. unfold cardsEverywhere, sameCards. cbn [ui inFlight sent].
    destruct (applyChanges_resume_frame _ _ _ _ E) as (Hm & Ha & _).
    apply Forall_cons in Hflight as [Hp Hrest].
    split; [| now split]. destruct Hui as [Hum Hua]. split; [now rewrite Hm |].
    destruct Ha as [-> | ->]; assumption.
  - injection Hstep as <-. destruct (onCaptcha_frame e (ui a)) as (Hm & Ha).
    split; [now apply (sameCards_same (ui a)) | now split].
Qed.

Lemma run_cardsEverywhere events a a' :
  run events a = Normal a' -> cardsEverywhere a -> cardsEverywhere a'.
Proof.
  revert a. induction events as [| e events IH]; intros a Hrun Hinv.
  - now injection Hrun as <-.
  - cbn [run] in Hrun. destruct (step e a) as [a1 | |] eqn:E; cbn [bind] in Hrun;
      [| discriminate..].
    eapply IH; [exact Hrun |]. now apply (step_cardsEverywhere _ _ _ E).
Qed.

(** X22: From the mount on, whatever happens, the page shows the same three
    metrics with the same units, and every request it has sent names
    exactly these three with their units (seconds, seconds, bytes).  So
    the preview of every card is defined and building a request never
    reads a missing entry: the TypeError that would raise is out of
    reach. *)
Theorem requests_name_the_cards
    (ls : gmap string string) (now nowEvaluated : Z) (random offsetWidth : Q)
    (events : list Event) (a a' : App) :
  mountPage ls now nowEvaluated random offsetWidth = Normal a ->
  run events a = Normal a' ->
  cards = {[ "http_request_duration_seconds" := "s"; "cpu_seconds_total" := "s";
             "process_memory_bytes" := "bytes" ]}%string
  /\ sameCards (ui a')
  /\ Forall (fun r => payloadUnit <$> metricsPayload r = cards) (sent a')
  /\ (forall key, is_Some (cards !! key) -> is_Some (currentValue key (ui a')))
  /\ is_Some (computeNewAppliedMetrics (metrics (ui a')) (appliedMetrics (ui a'))).
Proof.
  intros Hmount Hrun.
  assert (Hinv : cardsEverywhere a').
  { apply (run_cardsEverywhere _ _ _ Hrun).
    destruct (mountPage_ui _ _ _ _ _ _ Hmount) as (Hui & Hflight & Hsent).
    destruct (updateRateLimitInfo_frame _ _ _ Hui) as (Hm & Ha & _).
    destruct (remountCaptcha_frame random offsetWidth (firstRender ls now)) as [Hm' Ha'].
    rewrite Hm' in Hm. rewrite Ha' in Ha.
    split; [| rewrite Hflight, Hsent; split; constructor].
    split; [now rewrite Hm | now rewrite Ha]. }
  destruct Hinv as (Hui & _ & Hsent).
  split; [vm_compute; reflexivity |]. split; [exact Hui |]. split; [exact Hsent |].
  pose proof (sameCards_dom _ Hui) as Hdom. destruct Hui as [Hm Ha]. split.
  - intros key Hkey. unfold currentValue.
    assert (H1 : is_Some (metrics (ui a') !! key)).
    { rewrite <- Hm, lookup_fmap in Hkey. now apply fmap_is_Some in Hkey. }
    assert (H2 : is_Some (appliedMetrics (ui a') !! key)).
    { rewrite <- Ha, lookup_fmap in Hkey. now apply fmap_is_Some in Hkey. }
    destruct H1 as [m ->]. destruct H2 as [a0 ->]. now eexists.
  - unfold computeNewAppliedMetrics. rewrite bool_decide_true; [now eexists |].
    now rewrite Hdom.
Qed.

(** An instance: the page that stored nothing, after an apply of scale
    1.7 and a second one back at scale 1. *)
Lemma requests_name_the_cards_witness :
  exists a',
    run Scenario.scaleAndBack Scenario.mounted = Normal a'
    /\ length (sent a') = 2%nat
    /\ Forall (fun r => payloadUnit <$> metricsPayload r = cards) (sent a').
Proof.
  destruct (run Scenario.scaleAndBack Scenario.mounted) as [a' | |] eqn:E;
    [| vm_compute in E; discriminate..].
  exists a'. split; [reflexivity |]. split.
  - assert (E' : bind (run Scenario.scaleAndBack Scenario.mounted)
                   (fun a => Normal (length (sent a))) = Normal 2%nat)
      by (vm_compute; reflexivity).
    rewrite E in E'. cbn [bind] in E'. now injection E'.
  - destruct (requests_name_the_cards ∅ Scenario.t0 Scenario.t0 0.5%Q 340%Q
                Scenario.scaleAndBack Scenario.mounted a') as (_ & _ & H & _).
    + vm_compute. reflexivity.
    + exact E.
    + exact H.
Defined.

End InvariantExtras.
